(** * NuGet dependency visualizer: dependency resolution core

    A shallow embedding of the resolution core of the extension:

    - [DotNetCliService]   (src/services/dotnetCliService.ts): the toolchain
      client, its output parsers and its failure classification;
    - [ProjectFileParser]  (src/services/projectFileParser.ts): the manifest
      parser and its de-duplication step;
    - [CacheManager]       (src/services/cacheManager.ts): the in-memory TTL
      cache and the persistent vulnerability cache;
    - [NuGetDependencyProvider] (src/providers/nugetDependencyProvider.ts):
      the orchestrator with its fallback, the vulnerability merge and the
      synthetic link construction.

    Conventions of the embedding.

    - A JavaScript string is a [string]: a sequence of code units below 256.
      [toLowerCase] and the white space class are the restrictions of the
      ECMAScript ones to that range.
    - An optional property ([p?: T]) is an [option]; [None] is [undefined].
    - A method that may throw returns an [outcome]; [Throw e] is the exception.
    - An awaited promise is the value it resolves to (or the exception it
      rejects with): the code never runs two stages of one call concurrently.
    - The wall clock ([new Date()], [Date.now()]) is an explicit argument
      [now], in milliseconds since the epoch.
    - Operating system services (process execution, the [path] module, the
      project files) and library parsers ([JSON.parse], [xml2js]) are the
      methods of type classes; the cache directory is a finite map from
      paths to files. *)

From Stdlib Require Import ZArith List Ascii String Bool Lia DecimalString.
From stdpp Require Import base option list gmap strings.

Local Open Scope Z_scope.

(* ===================================================================== *)
(** * JavaScript strings *)
(* ===================================================================== *)

Module Js.

Definition code (c : ascii) : N := N_of_ascii c.

(** [String.prototype.toLowerCase] on one code unit: the Latin capital
    letters A-Z and the Latin-1 capitals U+00C0-U+00DE (but U+00D7, the
    multiplication sign) move 32 places up. *)
Definition lower_char (c : ascii) : ascii :=
  let n := code c in
  if ((65 <=? n) && (n <=? 90))%N then ascii_of_N (n + 32)
  else if ((192 <=? n) && (n <=? 222) && negb (n =? 215))%N
       then ascii_of_N (n + 32)
  else c.

Fixpoint toLowerCase (s : string) : string :=
  match s with
  | EmptyString => EmptyString
  | String c s' => String (lower_char c) (toLowerCase s')
  end.

(** WhiteSpace and LineTerminator code units below 256: TAB, LF, VT, FF,
    CR, SPACE and NBSP. [trim] and the regular expression class [\s] use
    the same set. *)
Definition is_ws (c : ascii) : bool :=
  let n := code c in
  ((n =? 9) || (n =? 10) || (n =? 11) || (n =? 12) || (n =? 13)
   || (n =? 32) || (n =? 160))%N.

Fixpoint trimStart (s : string) : string :=
  match s with
  | EmptyString => EmptyString
  | String c s' => if is_ws c then trimStart s' else s
  end.

(** [trimEnd] drops the trailing white space: a character is kept when it
    is not white space or when something is kept after it. *)
Fixpoint trimEnd (s : string) : string :=
  match s with
  | EmptyString => EmptyString
  | String c s' =>
      match trimEnd s' with
      | EmptyString => if is_ws c then EmptyString else String c EmptyString
      | r => String c r
      end
  end.

Definition trim (s : string) : string := trimEnd (trimStart s).

(** [s.startsWith(p)] *)
Definition startsWith (s p : string) : bool := String.prefix p s.

(** [s.includes(p)] *)
Fixpoint includes (s p : string) : bool :=
  String.prefix p s ||
  match s with
  | EmptyString => false
  | String _ s' => includes s' p
  end.

(** [s.substring(1)] *)
Definition substring1 (s : string) : string :=
  match s with
  | EmptyString => EmptyString
  | String _ s' => s'
  end.

(** [s.split(sep)] for a separator of one character. The result is never
    empty: a string without the separator is returned whole. *)
Fixpoint split_go (sep : ascii) (cur : string) (s : string) : list string :=
  match s with
  | EmptyString => [cur]
  | String c s' =>
      if Ascii.eqb c sep then cur :: split_go sep EmptyString s'
      else split_go sep (cur +:+ String c EmptyString) s'
  end.

Definition split (sep : ascii) (s : string) : list string :=
  split_go sep EmptyString s.

(** [s.split(/\s+/)]: the pieces between maximal runs of white space; a
    leading or trailing run leaves an empty piece at that end. *)
Fixpoint splitWs_go (in_run : bool) (cur : string) (s : string) : list string :=
  match s with
  | EmptyString => [cur]
  | String c s' =>
      if is_ws c then
        if in_run then splitWs_go true cur s'
        else cur :: splitWs_go true EmptyString s'
      else splitWs_go false (cur +:+ String c EmptyString) s'
  end.

Definition splitWs (s : string) : list string :=
  splitWs_go false EmptyString s.

(** Truthiness of a string: every string but the empty one. *)
Definition truthy (s : string) : bool := negb (String.eqb s EmptyString).

(** Truthiness of an optional string property. *)
Definition truthy_opt (o : option string) : bool :=
  match o with
  | Some s => truthy s
  | None => false
  end.

(** [a || b] on optional strings, and [a || 'literal']. *)
Definition or_opt (a b : option string) : option string :=
  if truthy_opt a then a else b.

Definition or_default (a : option string) (d : string) : string :=
  match a with
  | Some s => if truthy s then s else d
  | None => d
  end.

(** A value as it arrives from an untyped source (a property of a parsed
    JSON document that the code casts without a check). *)
Inductive value :=
| Undefined
| Null
| Boolean (b : bool)
| Number (n : Z)
| Str (s : string)
| Object.

(** [s.endsWith(p)] *)
Definition endsWith (s p : string) : bool :=
  (String.length p <=? String.length s)%nat &&
  String.eqb (String.substring (String.length s - String.length p) (String.length p) s) p.

End Js.

(** Outcome of a call that may throw. *)
Inductive outcome (E A : Type) :=
| Return (a : A)
| Throw (e : E).
Arguments Return {E A} a.
Arguments Throw {E A} e.

(* ===================================================================== *)
(** * Data model (src/types/dependency.ts) *)
(* ===================================================================== *)

Inductive Severity := Low | Moderate | High | Critical.

Record Vulnerability := {
  vuln_id : string;
  severity : Severity;
  title : string;
  description : option string;
  advisoryUrl : option string;
  cve : option (list string);
  publishedDate : option string;
  lastModified : option string
}.

#[warnings="-register-all"]
Inductive NuGetPackage := mkPackage {
  id : string;
  version : string;
  resolved : option string;
  dependencies : option (list NuGetPackage);
  vulnerabilities : option (list Vulnerability);
  isTransitive : option bool;
  depth : option Z;
  framework : option string;
  source : option string;
  isDevelopmentDependency : option bool
}.

(** The node and de-duplication key: the template [`${pkg.id}@${pkg.version}`]. *)
Definition packageKey (pkg : NuGetPackage) : string :=
  id pkg +:+ "@" +:+ version pkg.

(** The package after the assignment [pkg.vulnerabilities = vulns]. *)
Definition withVulnerabilities (pkg : NuGetPackage)
    (vulns : option (list Vulnerability)) : NuGetPackage :=
  {| id := id pkg; version := version pkg; resolved := resolved pkg;
     dependencies := dependencies pkg;
     vulnerabilities := vulns;
     isTransitive := isTransitive pkg; depth := depth pkg;
     framework := framework pkg; source := source pkg;
     isDevelopmentDependency := isDevelopmentDependency pkg |}.

(** [!pkg.isTransitive] and [pkg.isTransitive] as conditions. *)
Definition isTransitive_truthy (pkg : NuGetPackage) : bool :=
  match isTransitive pkg with
  | Some b => b
  | None => false
  end.

Inductive AnalysisMethod := dotnet_cli | project_file | hybrid | mock.

Record AnalysisMetadata := {
  timestamp : Z;
  analysisMethod : AnalysisMethod;
  meta_framework : option string;
  sdkVersion : option string;
  hasTransitiveDependencies : bool;
  hasVulnerabilityData : bool
}.

Inductive VisualizationMode := mode_dependencies | mode_vulnerabilities | mode_full.

(** [GraphLink.value] is 1 or 0.5 in this code: the weight is kept in halves. *)
Record GraphLink := {
  link_source : string;
  link_target : string;
  value_halves : Z;
  link_color : string
}.

Inductive Category := Validation | Analysis | Visualization | System.

(** [ExtensionError]: the fields every raised error carries. *)
Record ExtensionError := {
  name : string;
  message : string;
  code : string;
  category : Category;
  recoverable : bool;
  userMessage : string;
  technicalDetails : option string
}.

(** What a [throw] can carry in this code: an instance of one of the two
    error classes, a plain [Error] (also the engine's own [TypeError] and
    [SyntaxError]), or the object literal built by [createAnalysisError],
    which is an instance of neither class. *)
Inductive exn :=
| DotNetCliError (e : ExtensionError)
| ProjectFileError (e : ExtensionError)
| PlainError (name message : string)
| ErrorObject (e : ExtensionError).

(** [String(error)], also [`${error}`]: [Error.prototype.toString] for the
    error classes, [Object.prototype.toString] for the object literal. *)
Definition error_toString (name message : string) : string :=
  if negb (Js.truthy message) then name
  else if negb (Js.truthy name) then message
  else name +:+ ": " +:+ message.

Definition exn_toString (e : exn) : string :=
  match e with
  | DotNetCliError x => error_toString (name x) (message x)
  | ProjectFileError x => error_toString (name x) (message x)
  | PlainError n m => error_toString n m
  | ErrorObject _ => "[object Object]"
  end.

(** The line feed of a string literal. *)
Definition newline_char : ascii := ascii_of_N 10.

(** Decimal rendering of an integer, as in a template literal. *)
Definition Z_toString (z : Z) : string :=
  DecimalString.NilZero.string_of_int (Z.to_int z).

(* ===================================================================== *)
(** * Command execution (src/services/commandExecutor.ts) *)
(* ===================================================================== *)

Record CommandExecutionOptions := {
  cwd : option string;
  timeout : option Z
}.

Record CommandResult := {
  stdout : string;
  stderr : string;
  exitCode : Z;
  command : string;
  executionTime : Z
}.

(** [ICommandExecutor.executeCommand]. The interface lets an implementation
    reject; the callers below handle both a result and a rejection. *)
Class ICommandExecutor := {
  executeCommand : string -> list string -> CommandExecutionOptions ->
                   outcome exn CommandResult
}.

Module CommandExecutor.

(** What the promisified [child_process.exec] settles to: the two output
    streams, or an error object with optional [stdout], [stderr], [code]
    and a [message]. *)
Inductive ExecSettled :=
| Resolved (out err : string)
| Rejected (out err : option string) (code : option Z) (message : string).

Definition defaultTimeout : Z := 30000.

Fixpoint join (sep : string) (l : list string) : string :=
  match l with
  | [] => ""
  | [x] => x
  | x :: l' => x +:+ sep +:+ join sep l'
  end.

Definition fullCommand (command : string) (args : list string) : string :=
  match args with
  | [] => command
  | _ => command +:+ " " +:+ join " " args
  end.

(** [executeCommand], over the outcome [execAsync] of the child process and
    the time [elapsed] it took. A failed or non-zero execution is a result,
    never a rejection. *)
Definition executeCommand
    (execAsync : string -> Z -> option string -> ExecSettled) (elapsed : Z)
    (command : string) (args : list string) (options : CommandExecutionOptions)
    : outcome exn CommandResult :=
  let full := fullCommand command args in
  match execAsync full (default defaultTimeout (timeout options)) (cwd options) with
  | Resolved out err =>
      Return {| stdout := out; stderr := err; exitCode := 0;
                command := full; executionTime := elapsed |}
  | Rejected out err c msg =>
      Return {| stdout := default "" out;
                stderr := default msg err;
                exitCode := default 1 c;
                command := full; executionTime := elapsed |}
  end.

(** [{}]: the options of a call that gives none. *)
Definition noOptions : CommandExecutionOptions := {| cwd := None; timeout := None |}.

Definition isCommandAvailable
    (execAsync : string -> Z -> option string -> ExecSettled) (elapsed : Z)
    (command : string) : bool :=
  match executeCommand execAsync elapsed command ["--version"] noOptions with
  | Return result => exitCode result =? 0
  | Throw _ => false
  end.

Definition getCommandVersion
    (execAsync : string -> Z -> option string -> ExecSettled) (elapsed : Z)
    (command : string) : outcome exn string :=
  let attempt :=
    match executeCommand execAsync elapsed command ["--version"] noOptions with
    | Throw error => Throw error
    | Return result =>
        if exitCode result =? 0 then Return (Js.trim (stdout result))
        else Throw (PlainError "Error" ("Failed to get version for " +:+ command))
    end in
  match attempt with
  | Return version => Return version
  | Throw error =>
      Throw (PlainError "Error"
               ("Command " +:+ command +:+
                " not available or version check failed: " +:+ exn_toString error))
  end.

End CommandExecutor.

(* ===================================================================== *)
(** * Toolchain output documents *)
(* ===================================================================== *)

(** The documents [dotnet list package --format json] prints, as the code
    reads them: [projects[].frameworks[].topLevelPackages[]] and so on. A
    property that is absent (or is not an array where the code tests
    [Array.isArray]) is [None]; the elements of the arrays are objects, but
    an element of a [vulnerabilities] array may be anything, and the code
    drops those that are no objects. *)
Module Cli.

Inductive CveData :=
| CveAbsent
| CveString (s : string)
| CveArray (items : list Js.value)
| CveOther.

Record Vulnerability := {
  severity : Js.value;
  id : option string;
  title : option string;
  description : option string;
  advisoryUrl : option string;
  cve : CveData;
  publishedDate : option string;
  lastModified : option string
}.

Record Package := {
  pkg_id : option string;
  requestedVersion : option string;
  resolvedVersion : option string;
  isTransitive : option bool;
  vulnerabilities : option (list (option Vulnerability))
}.

Record Framework := {
  framework : option string;
  topLevelPackages : option (list Package);
  transitivePackages : option (list Package);
  vulnerablePackages : option (list Package)
}.

Record Project := { frameworks : option (list Framework) }.

Record Report := { projects : option (list Project) }.

(** What [JSON.parse(output)] gives: a syntax error with its rendering
    [String(error)], the value [null], or a document. *)
Inductive Parsed :=
| SyntaxError (rendered : string)
| JsonNull
| Document (r : Report).

End Cli.

(** [JSON.parse] on the output of the toolchain, and the identifier made up
    for the [i]-th vulnerability of a package when the toolchain gives none
    (built from the clock and a random number in the source). *)
Class ToolchainOutput := {
  JSON_parse : string -> Cli.Parsed;
  syntheticVulnId : nat -> string
}.

Inductive OutputFormat := format_json | format_table.

Record ListPackagesOptions := {
  includeTransitive : option bool;
  opt_framework : option string;
  opt_source : option string;
  format : option OutputFormat
}.

Definition format_toString (f : OutputFormat) : string :=
  match f with
  | format_json => "json"
  | format_table => "table"
  end.

(* ===================================================================== *)
(** * DotNetCliService (src/services/dotnetCliService.ts) *)
(* ===================================================================== *)

Module DotNetCliErrorCodes.
Definition SDK_NOT_FOUND : string := "DOTNET_SDK_NOT_FOUND".
Definition SDK_VERSION_INCOMPATIBLE : string := "DOTNET_SDK_VERSION_INCOMPATIBLE".
Definition PROJECT_NOT_FOUND : string := "DOTNET_PROJECT_NOT_FOUND".
Definition PROJECT_INVALID : string := "DOTNET_PROJECT_INVALID".
Definition RESTORE_FAILED : string := "DOTNET_RESTORE_FAILED".
Definition LIST_PACKAGES_FAILED : string := "DOTNET_LIST_PACKAGES_FAILED".
Definition VULNERABILITY_SCAN_FAILED : string := "DOTNET_VULNERABILITY_SCAN_FAILED".
Definition TIMEOUT : string := "DOTNET_COMMAND_TIMEOUT".
Definition PERMISSION_DENIED : string := "DOTNET_PERMISSION_DENIED".
Definition NETWORK_ERROR : string := "DOTNET_NETWORK_ERROR".
Definition UNKNOWN_ERROR : string := "DOTNET_UNKNOWN_ERROR".
End DotNetCliErrorCodes.

Module DotNetCliService.
Import DotNetCliErrorCodes.

Definition defaultTimeout : Z := 60000.
Definition quickTimeout : Z := 10000.

(** [new DotNetCliError(code, userMessage, technicalDetails, category,
    recoverable)]: the message of the error is the user message. *)
Definition createDotNetError (c userMsg : string) (details : option string)
    (cat : Category) (rec : bool) : ExtensionError :=
  {| name := "DotNetCliError"; message := userMsg; code := c;
     category := cat; recoverable := rec; userMessage := userMsg;
     technicalDetails := details |}.

(** Normalize severity values to match the expected enum. *)
Definition normalizeSeverity (severity : Js.value) : Severity :=
  match severity with
  | Js.Str s =>
      if negb (Js.truthy s) then Low
      else
        let normalized := Js.trim (Js.toLowerCase s) in
        if String.eqb normalized "critical" then Critical
        else if String.eqb normalized "high" then High
        else if String.eqb normalized "moderate" then Moderate
        else if String.eqb normalized "medium" then Moderate
        else if String.eqb normalized "low" then Low
        else Low
  | _ => Low
  end.

(** Extract CVE IDs from various formats. *)
Definition extractCveIds (cveData : Cli.CveData) : list string :=
  match cveData with
  | Cli.CveAbsent => []
  | Cli.CveString s => if Js.truthy s then [s] else []
  | Cli.CveArray items =>
      flat_map (fun item =>
                  match item with
                  | Js.Str s => if negb (String.eqb (Js.trim s) "") then [Js.trim s] else []
                  | _ => []
                  end) items
  | Cli.CveOther => []
  end.

Definition isCommandNotFoundError (errorStr : string) : bool :=
  let errorStr := Js.toLowerCase errorStr in
  Js.includes errorStr "command not found" ||
  Js.includes errorStr "is not recognized" ||
  Js.includes errorStr "not found" ||
  Js.includes errorStr "enoent" ||
  Js.includes errorStr "spawn dotnet".

Definition isTimeoutError (errorStr : string) : bool :=
  let errorStr := Js.toLowerCase errorStr in
  Js.includes errorStr "timeout" ||
  Js.includes errorStr "timed out" ||
  Js.includes errorStr "etimedout".

Definition isNetworkError (errorStr : string) : bool :=
  let errorStr := Js.toLowerCase errorStr in
  Js.includes errorStr "network" ||
  Js.includes errorStr "connection" ||
  Js.includes errorStr "dns" ||
  Js.includes errorStr "enotfound" ||
  Js.includes errorStr "econnrefused" ||
  Js.includes errorStr "econnreset" ||
  Js.includes errorStr "unable to load the service index".

(** [`${stderr} ${stdout}`.toLowerCase()] *)
Definition combinedOutput (result : CommandResult) : string :=
  Js.toLowerCase (stderr result +:+ " " +:+ stdout result).

(** [stderr || stdout] *)
Definition stderr_or_stdout (result : CommandResult) : string :=
  if Js.truthy (stderr result) then stderr result else stdout result.

(** Handle specific errors from [dotnet list package]: the function never
    returns; the model gives the error it throws. *)
Definition handleListPackagesError (result : CommandResult) (projectPath : string)
    : ExtensionError :=
  let combined := combinedOutput result in
  if Js.includes combined "could not find project" ||
     Js.includes combined "project file does not exist" then
    createDotNetError PROJECT_NOT_FOUND
      ("Project file not found: " +:+ projectPath +:+
       ". Please ensure the project file exists and is accessible.")
      (Some ("Command output: " +:+ stderr_or_stdout result))
      Validation false
  else if Js.includes combined "invalid project" ||
          Js.includes combined "malformed" ||
          Js.includes combined "xml" then
    createDotNetError PROJECT_INVALID
      ("Invalid or corrupted project file: " +:+ projectPath +:+
       ". Please check the project file format.")
      (Some ("Command output: " +:+ stderr_or_stdout result))
      Validation true
  else if Js.includes combined "access denied" ||
          Js.includes combined "permission denied" ||
          Js.includes combined "unauthorized" then
    createDotNetError PERMISSION_DENIED
      ("Permission denied accessing project: " +:+ projectPath +:+
       ". Please check file permissions.")
      (Some ("Command output: " +:+ stderr_or_stdout result))
      System true
  else if isNetworkError combined then
    createDotNetError NETWORK_ERROR
      "Network error while listing packages. Please check your internet connection and package sources."
      (Some ("Command output: " +:+ stderr_or_stdout result))
      System true
  else
    createDotNetError LIST_PACKAGES_FAILED
      "Failed to list packages. Please ensure the project is valid and the .NET SDK is properly configured."
      (Some ("Exit code: " +:+ Z_toString (exitCode result) +:+ ", Output: " +:+
             stderr_or_stdout result))
      Analysis true.

(** Handle specific errors from vulnerability scanning: an empty list for
    the three texts that say there is nothing to report, an error for the
    rest. *)
Definition handleVulnerabilityScanError (result : CommandResult) (projectPath : string)
    : outcome exn (list NuGetPackage) :=
  let combined := combinedOutput result in
  if Js.includes combined "no vulnerable packages found" ||
     Js.includes combined "no vulnerabilities found" ||
     Js.includes combined "no packages with known vulnerabilities" then
    Return []
  else if Js.includes combined "could not find project" ||
          Js.includes combined "project file does not exist" then
    Throw (DotNetCliError (createDotNetError PROJECT_NOT_FOUND
      ("Project file not found: " +:+ projectPath +:+
       ". Please ensure the project file exists and is accessible.")
      (Some ("Command output: " +:+ stderr_or_stdout result))
      Validation false))
  else if isNetworkError combined then
    Throw (DotNetCliError (createDotNetError NETWORK_ERROR
      "Network error during vulnerability scan. Please check your internet connection and try again."
      (Some ("Command output: " +:+ stderr_or_stdout result))
      System true))
  else if Js.includes combined "access denied" ||
          Js.includes combined "permission denied" then
    Throw (DotNetCliError (createDotNetError PERMISSION_DENIED
      ("Permission denied accessing project: " +:+ projectPath +:+
       ". Please check file permissions.")
      (Some ("Command output: " +:+ stderr_or_stdout result))
      System true))
  else
    Throw (DotNetCliError (createDotNetError VULNERABILITY_SCAN_FAILED
      "Failed to scan for vulnerabilities. Please ensure the project is valid and try again."
      (Some ("Exit code: " +:+ Z_toString (exitCode result) +:+ ", Output: " +:+
             stderr_or_stdout result))
      Analysis true)).

(** One entry of [topLevelPackages]: skipped without a truthy [id]. *)
Definition topLevelPackage (frameworkName : string) (pkg : Cli.Package)
    : list NuGetPackage :=
  match Cli.pkg_id pkg with
  | Some i =>
      if negb (Js.truthy i) then []
      else
        [ {| id := i;
             version := Js.or_default
                          (Js.or_opt (Cli.requestedVersion pkg) (Cli.resolvedVersion pkg))
                          "unknown";
             resolved := Cli.resolvedVersion pkg;
             dependencies := None;
             vulnerabilities := None;
             isTransitive := Some false;
             depth := Some 0;
             framework := Some frameworkName;
             source := None;
             isDevelopmentDependency := None |} ]
  | None => []
  end.

(** One entry of [transitivePackages]. *)
Definition transitivePackage (frameworkName : string) (pkg : Cli.Package)
    : list NuGetPackage :=
  match Cli.pkg_id pkg with
  | Some i =>
      if negb (Js.truthy i) then []
      else
        [ {| id := i;
             version := Js.or_default (Cli.resolvedVersion pkg) "unknown";
             resolved := Cli.resolvedVersion pkg;
             dependencies := None;
             vulnerabilities := None;
             isTransitive := Some true;
             depth := Some 1;
             framework := Some frameworkName;
             source := None;
             isDevelopmentDependency := None |} ]
  | None => []
  end.

(** The body of the loop over the frameworks of a project. *)
Definition frameworkPackages (fw : Cli.Framework) : list NuGetPackage :=
  let frameworkName := Js.or_default (Cli.framework fw) "unknown" in
  match Cli.topLevelPackages fw with
  | Some pkgs => flat_map (topLevelPackage frameworkName) pkgs
  | None => []
  end ++
  match Cli.transitivePackages fw with
  | Some pkgs => flat_map (transitivePackage frameworkName) pkgs
  | None => []
  end.

Definition projectPackages (project : Cli.Project) : list NuGetPackage :=
  match Cli.frameworks project with
  | Some fws => flat_map frameworkPackages fws
  | None => []
  end.

(** The message of the [TypeError] the engine raises on [null.projects]. *)
Definition nullProjectsTypeError : string :=
  "TypeError: Cannot read properties of null (reading 'projects')".

Definition parseJsonOutput `{ToolchainOutput} (output : string)
    : outcome exn (list NuGetPackage) :=
  if negb (Js.truthy output) || String.eqb (Js.trim output) "" then Return []
  else
    let rethrow (rendered : string) :=
      Throw (PlainError "Error"
               ("Failed to parse dotnet CLI JSON output: " +:+ rendered +:+
                ". Output was: " +:+ String.substring 0 200 output +:+ "...")) in
    match JSON_parse output with
    | Cli.SyntaxError rendered => rethrow rendered
    | Cli.JsonNull => rethrow nullProjectsTypeError
    | Cli.Document r =>
        match Cli.projects r with
        | None => Return []
        | Some ps => Return (flat_map projectPackages ps)
        end
    end.

(** One line of the tabular output: "> PackageName  Version  ResolvedVersion". *)
Definition parseTableLine (line : string) : list NuGetPackage :=
  let trimmed := Js.trim line in
  if Js.startsWith trimmed ">" then
    let parts := Js.splitWs (Js.trim (Js.substring1 trimmed)) in
    match parts with
    | p0 :: p1 :: rest =>
        if Js.truthy p0 && Js.truthy p1 then
          [ {| id := p0;
               version := p1;
               resolved := Some (Js.or_default (head rest) p1);
               dependencies := None;
               vulnerabilities := None;
               isTransitive := Some false;
               depth := Some 0;
               framework := None;
               source := None;
               isDevelopmentDependency := None |} ]
        else []
    | _ => []
    end
  else [].

Definition parseTableOutput (output : string) : list NuGetPackage :=
  fold_left (fun packages line => packages ++ parseTableLine line)
            (Js.split newline_char output) [].

(** One element of a [vulnerabilities] array; [i] is its position. *)
Definition parseVulnerability `{ToolchainOutput} (i : nat)
    (v : option Cli.Vulnerability) : list Vulnerability :=
  match v with
  | None => []
  | Some vuln =>
      [ {| vuln_id := Js.or_default
                        (Js.or_opt (Cli.advisoryUrl vuln) (Cli.id vuln))
                        (syntheticVulnId i);
           severity := normalizeSeverity (Cli.severity vuln);
           title := Js.or_default (Cli.title vuln) "Unknown vulnerability";
           description := Cli.description vuln;
           advisoryUrl := Cli.advisoryUrl vuln;
           cve := Some (extractCveIds (Cli.cve vuln));
           publishedDate := Cli.publishedDate vuln;
           lastModified := Cli.lastModified vuln |} ]
  end.

Definition vulnerablePackage `{ToolchainOutput} (frameworkName : string)
    (vulnPkg : Cli.Package) : list NuGetPackage :=
  match Cli.pkg_id vulnPkg with
  | Some i =>
      if negb (Js.truthy i) then []
      else
        [ {| id := i;
             version := Js.or_default
                          (Js.or_opt (Cli.resolvedVersion vulnPkg) (Cli.requestedVersion vulnPkg))
                          "unknown";
             resolved := Cli.resolvedVersion vulnPkg;
             dependencies := None;
             vulnerabilities :=
               Some match Cli.vulnerabilities vulnPkg with
                    | Some vs => concat (imap parseVulnerability vs)
                    | None => []
                    end;
             isTransitive := Some (default false (Cli.isTransitive vulnPkg));
             depth := Some (if default false (Cli.isTransitive vulnPkg) then 1 else 0);
             framework := Some frameworkName;
             source := None;
             isDevelopmentDependency := None |} ]
  | None => []
  end.

Definition parseVulnerablePackagesOutput `{ToolchainOutput} (output : string)
    : outcome exn (list NuGetPackage) :=
  if negb (Js.truthy output) || String.eqb (Js.trim output) "" then Return []
  else
    let rethrow (rendered : string) :=
      Throw (PlainError "Error"
               ("Failed to parse vulnerable packages JSON output: " +:+ rendered +:+
                ". Output was: " +:+ String.substring 0 200 output +:+ "...")) in
    match JSON_parse output with
    | Cli.SyntaxError rendered => rethrow rendered
    | Cli.JsonNull => rethrow nullProjectsTypeError
    | Cli.Document r =>
        match Cli.projects r with
        | None => Return []
        | Some ps =>
            Return
              (flat_map
                 (fun project =>
                    match Cli.frameworks project with
                    | None => []
                    | Some fws =>
                        flat_map
                          (fun fw =>
                             let frameworkName := Js.or_default (Cli.framework fw) "unknown" in
                             match Cli.vulnerablePackages fw with
                             | None => []
                             | Some vps => flat_map (vulnerablePackage frameworkName) vps
                             end) fws
                    end) ps)
        end
    end.

(** [options.timeout || this.defaultTimeout] *)
Definition timeout_or (o : option Z) (d : Z) : Z :=
  match o with
  | Some t => if t =? 0 then d else t
  | None => d
  end.

Definition noOptions : CommandExecutionOptions := {| cwd := None; timeout := None |}.

Definition listPackagesArgs (projectPath : string) (options : ListPackagesOptions)
    : list string :=
  ["list"; projectPath; "package"]
  ++ (if default false (includeTransitive options) then ["--include-transitive"] else [])
  ++ (if Js.truthy_opt (opt_framework options)
      then ["--framework"; default "" (opt_framework options)] else [])
  ++ (if Js.truthy_opt (opt_source options)
      then ["--source"; default "" (opt_source options)] else [])
  ++ match format options with
     | Some f => ["--format"; format_toString f]
     | None => []
     end.

Definition listPackages `{ICommandExecutor} `{ToolchainOutput}
    (projectPath : string) (options : ListPackagesOptions)
    : outcome exn (list NuGetPackage) :=
  if negb (Js.truthy projectPath) then
    Throw (DotNetCliError (createDotNetError PROJECT_INVALID
      "Invalid project path provided."
      (Some ("Project path is empty or not a string: " +:+ projectPath))
      Validation false))
  else
    let args := listPackagesArgs projectPath options in
    let attempt :=
      match executeCommand "dotnet" args
              {| cwd := None; timeout := Some defaultTimeout |} with
      | Throw error => Throw error
      | Return result =>
          if negb (exitCode result =? 0) then
            Throw (DotNetCliError (handleListPackagesError result projectPath))
          else
            match format options with
            | Some format_json => parseJsonOutput (stdout result)
            | _ => Return (parseTableOutput (stdout result))
            end
      end in
    match attempt with
    | Return packages => Return packages
    | Throw (DotNetCliError e) => Throw (DotNetCliError e)
    | Throw error =>
        if isTimeoutError (exn_toString error) then
          Throw (DotNetCliError (createDotNetError TIMEOUT
            "The package listing operation timed out. This may indicate a large project or network issues."
            (Some ("Command timed out after " +:+ Z_toString defaultTimeout +:+ "ms: " +:+
                   exn_toString error))
            System true))
        else if isCommandNotFoundError (exn_toString error) then
          Throw (DotNetCliError (createDotNetError SDK_NOT_FOUND
            "The .NET SDK is not installed or not accessible. Please install the .NET SDK to analyze dependencies."
            (Some ("Command not found: " +:+ exn_toString error))
            System false))
        else
          Throw (DotNetCliError (createDotNetError LIST_PACKAGES_FAILED
            "Failed to list packages. Please ensure the project file is valid and the .NET SDK is properly installed."
            (Some ("Unexpected error: " +:+ exn_toString error))
            Analysis true))
    end.

(** The arguments and the options [listVulnerablePackages] runs the scan
    with. *)
Definition scanArgs (projectPath : string) : list string :=
  ["list"; projectPath; "package"; "--vulnerable"; "--format"; "json"].

Definition scanExecOptions (options : CommandExecutionOptions) : CommandExecutionOptions :=
  {| cwd := if Js.truthy_opt (cwd options) then cwd options else None;
     timeout := Some (timeout_or (timeout options) defaultTimeout) |}.

Definition listVulnerablePackages `{ICommandExecutor} `{ToolchainOutput}
    (projectPath : string) (options : CommandExecutionOptions)
    : outcome exn (list NuGetPackage) :=
  if negb (Js.truthy projectPath) then
    Throw (DotNetCliError (createDotNetError PROJECT_INVALID
      "Invalid project path provided for vulnerability scanning."
      (Some ("Project path is empty or not a string: " +:+ projectPath))
      Validation false))
  else
    let args := scanArgs projectPath in
    let attempt :=
      let execOptions := scanExecOptions options in
      match executeCommand "dotnet" args execOptions with
      | Throw error => Throw error
      | Return result =>
          if negb (exitCode result =? 0) then
            handleVulnerabilityScanError result projectPath
          else parseVulnerablePackagesOutput (stdout result)
      end in
    match attempt with
    | Return packages => Return packages
    | Throw (DotNetCliError e) => Throw (DotNetCliError e)
    | Throw error =>
        if isTimeoutError (exn_toString error) then
          Throw (DotNetCliError (createDotNetError TIMEOUT
            "The vulnerability scan timed out. This may indicate network issues or a large project."
            (Some ("Vulnerability scan timed out after " +:+
                   Z_toString (timeout_or (timeout options) defaultTimeout) +:+ "ms: " +:+
                   exn_toString error))
            System true))
        else if isNetworkError (exn_toString error) then
          Throw (DotNetCliError (createDotNetError NETWORK_ERROR
            "Network error during vulnerability scan. Please check your internet connection and try again."
            (Some ("Network error: " +:+ exn_toString error))
            System true))
        else if isCommandNotFoundError (exn_toString error) then
          Throw (DotNetCliError (createDotNetError SDK_NOT_FOUND
            "The .NET SDK is not installed or not accessible. Please install the .NET SDK to scan for vulnerabilities."
            (Some ("Command not found: " +:+ exn_toString error))
            System false))
        else
          Throw (DotNetCliError (createDotNetError VULNERABILITY_SCAN_FAILED
            "Failed to scan for vulnerable packages. Please ensure the project is valid and try again."
            (Some ("Unexpected error: " +:+ exn_toString error))
            Analysis true))
    end.

Definition getVersion `{ICommandExecutor} : outcome exn string :=
  let attempt :=
    match executeCommand "dotnet" ["--version"]
            {| cwd := None; timeout := Some quickTimeout |} with
    | Throw error => Throw error
    | Return result =>
        if negb (exitCode result =? 0) then
          Throw (DotNetCliError (createDotNetError SDK_NOT_FOUND
            "The .NET SDK is not installed or not accessible. Please install the .NET SDK to use this extension."
            (Some ("Command failed with exit code " +:+ Z_toString (exitCode result) +:+
                   ": " +:+ stderr result))
            System false))
        else
          let version := Js.trim (stdout result) in
          if negb (Js.truthy version) then
            Throw (DotNetCliError (createDotNetError SDK_VERSION_INCOMPATIBLE
              "Unable to determine .NET SDK version. The installed version may be incompatible."
              (Some "Version command returned empty output")
              System false))
          else Return version
    end in
  match attempt with
  | Return version => Return version
  | Throw (DotNetCliError e) => Throw (DotNetCliError e)
  | Throw error =>
      if isCommandNotFoundError (exn_toString error) then
        Throw (DotNetCliError (createDotNetError SDK_NOT_FOUND
          "The .NET SDK is not installed or not in your system PATH. Please install the .NET SDK and ensure it's accessible from the command line."
          (Some ("Command execution failed: " +:+ exn_toString error))
          System false))
      else
        Throw (DotNetCliError (createDotNetError UNKNOWN_ERROR
          "Failed to check .NET SDK version. Please ensure the .NET SDK is properly installed."
          (Some ("Unexpected error: " +:+ exn_toString error))
          System true))
  end.

Definition isAvailable `{ICommandExecutor} : bool :=
  match executeCommand "dotnet" ["--version"]
          {| cwd := None; timeout := Some quickTimeout |} with
  | Return result => exitCode result =? 0
  | Throw _ => false
  end.

(** Handle specific errors from [dotnet restore]: the function never
    returns; the model gives the error it throws. *)
Definition handleRestoreError (result : CommandResult) (projectPath : string)
    : ExtensionError :=
  let combined := combinedOutput result in
  if Js.includes combined "could not find project" ||
     Js.includes combined "project file does not exist" then
    createDotNetError PROJECT_NOT_FOUND
      ("Project file not found: " +:+ projectPath +:+
       ". Please ensure the project file exists and is accessible.")
      (Some ("Command output: " +:+ stderr_or_stdout result))
      Validation false
  else if Js.includes combined "invalid project" ||
          Js.includes combined "malformed" ||
          Js.includes combined "xml" then
    createDotNetError PROJECT_INVALID
      ("Invalid or corrupted project file: " +:+ projectPath +:+
       ". Please check the project file format.")
      (Some ("Command output: " +:+ stderr_or_stdout result))
      Validation true
  else if isNetworkError combined then
    createDotNetError NETWORK_ERROR
      "Network error during package restore. Please check your internet connection and package sources."
      (Some ("Command output: " +:+ stderr_or_stdout result))
      System true
  else if Js.includes combined "access denied" ||
          Js.includes combined "permission denied" then
    createDotNetError PERMISSION_DENIED
      ("Permission denied during package restore: " +:+ projectPath +:+
       ". Please check file permissions.")
      (Some ("Command output: " +:+ stderr_or_stdout result))
      System true
  else if Js.includes combined "unable to load the service index" ||
          Js.includes combined "package source" then
    createDotNetError NETWORK_ERROR
      "Unable to access package sources. Please check your NuGet configuration and internet connection."
      (Some ("Command output: " +:+ stderr_or_stdout result))
      System true
  else
    createDotNetError RESTORE_FAILED
      "Failed to restore packages. Please ensure the project file is valid and package sources are accessible."
      (Some ("Exit code: " +:+ Z_toString (exitCode result) +:+ ", Output: " +:+
             stderr_or_stdout result))
      Analysis true.

(** The options [restorePackages] runs the restore with: twice the default
    timeout when the caller gives none. *)
Definition restoreExecOptions (options : CommandExecutionOptions) : CommandExecutionOptions :=
  {| cwd := if Js.truthy_opt (cwd options) then cwd options else None;
     timeout := Some (timeout_or (timeout options) (defaultTimeout * 2)) |}.

(** Execute [dotnet restore] with timeout support. *)
Definition restorePackages `{ICommandExecutor}
    (projectPath : string) (options : CommandExecutionOptions) : outcome exn unit :=
  if negb (Js.truthy projectPath) then
    Throw (DotNetCliError (createDotNetError PROJECT_INVALID
      "Invalid project path provided for package restore."
      (Some ("Project path is empty or not a string: " +:+ projectPath))
      Validation false))
  else
    let args := ["restore"; projectPath] in
    let attempt :=
      match executeCommand "dotnet" args (restoreExecOptions options) with
      | Throw error => Throw error
      | Return result =>
          if negb (exitCode result =? 0) then
            Throw (DotNetCliError (handleRestoreError result projectPath))
          else Return tt
      end in
    match attempt with
    | Return u => Return u
    | Throw (DotNetCliError e) => Throw (DotNetCliError e)
    | Throw error =>
        if isTimeoutError (exn_toString error) then
          Throw (DotNetCliError (createDotNetError TIMEOUT
            "The package restore operation timed out. This may indicate network issues or a large project."
            (Some ("Restore timed out after " +:+
                   Z_toString (timeout_or (timeout options) (defaultTimeout * 2)) +:+
                   "ms: " +:+ exn_toString error))
            System true))
        else if isNetworkError (exn_toString error) then
          Throw (DotNetCliError (createDotNetError NETWORK_ERROR
            "Network error during package restore. Please check your internet connection and try again."
            (Some ("Network error: " +:+ exn_toString error))
            System true))
        else if isCommandNotFoundError (exn_toString error) then
          Throw (DotNetCliError (createDotNetError SDK_NOT_FOUND
            "The .NET SDK is not installed or not accessible. Please install the .NET SDK to restore packages."
            (Some ("Command not found: " +:+ exn_toString error))
            System false))
        else
          Throw (DotNetCliError (createDotNetError RESTORE_FAILED
            "Failed to restore packages. Please ensure the project file is valid and try again."
            (Some ("Unexpected error: " +:+ exn_toString error))
            Analysis true))
    end.

(** Get detailed package information including dependencies: the package
    of the listing with the given identifier, or [None] for [null], with the
    vulnerabilities the scan reports for it. Whatever the listing throws is
    thrown again as a plain [Error]; a failed scan is ignored. *)
Definition getPackageDetails `{ICommandExecutor} `{ToolchainOutput}
    (projectPath packageId : string) (options : CommandExecutionOptions)
    : outcome exn (option NuGetPackage) :=
  let attempt :=
    match listPackages projectPath
            {| includeTransitive := Some true; opt_framework := None;
               opt_source := None; format := Some format_json |} with
    | Throw error => Throw error
    | Return packages =>
        match List.find (fun pkg => String.eqb (id pkg) packageId) packages with
        | None => Return None
        | Some targetPackage =>
            match listVulnerablePackages projectPath options with
            | Return vulnerablePackages =>
                match List.find (fun pkg => String.eqb (id pkg) packageId)
                                vulnerablePackages with
                | Some vulnerablePackage =>
                    match vulnerabilities vulnerablePackage with
                    | Some vulns =>
                        Return (Some (withVulnerabilities targetPackage (Some vulns)))
                    | None => Return (Some targetPackage)
                    end
                | None => Return (Some targetPackage)
                end
            | Throw _ => Return (Some targetPackage)
            end
        end
    end in
  match attempt with
  | Return r => Return r
  | Throw error =>
      Throw (PlainError "Error"
               ("Failed to get package details for " +:+ packageId +:+ ": " +:+
                exn_toString error))
  end.

End DotNetCliService.

(** Sequencing of calls that may throw: the first exception ends the block. *)
Definition bind {E A B : Type} (k : A -> outcome E B) (m : outcome E A) : outcome E B :=
  match m with
  | Return a => k a
  | Throw e => Throw e
  end.

#[global] Instance outcome_bind {E} : MBind (outcome E) := @bind E.
#[global] Instance outcome_ret {E} : MRet (outcome E) := @Return E.

(* ===================================================================== *)
(** * ProjectFileParser (src/services/projectFileParser.ts) *)
(* ===================================================================== *)

Inductive ProjectType := dotnet_core | dotnet_framework | dotnet_5plus | unknown_type.

Record ProjectValidationResult := {
  isValid : bool;
  errors : list string;
  warnings : list string;
  projectType : ProjectType;
  frameworks : list string
}.

(** The object [xml2js] builds from a project file, as far as the parser
    looks into it. [attrs] is the [$] property, absent on an element without
    attributes; [VersionElement] is the first [Version] child element. *)
Module Xml.

Record PackageReference := {
  Include : option string;
  Version : option string;
  VersionElement : option string
}.

Record Reference := {
  ref_Include : option string;
  HintPath : option string
}.

Record ItemGroup := {
  PackageReferences : list PackageReference;
  References : list Reference
}.

Record Attributes := {
  Sdk : option string;
  xmlns : option string;
  xmlns_xsi : option string
}.

Record Project := {
  attrs : option Attributes;
  ItemGroups : list ItemGroup
}.

Record Document := { root : option Project }.

End Xml.

Module ProjectFileErrorCodes.
Definition UNSUPPORTED_TYPE : string := "PROJECT_FILE_UNSUPPORTED_TYPE".
Definition CORRUPTED : string := "PROJECT_FILE_CORRUPTED".
Definition FILE_NOT_READABLE : string := "PROJECT_FILE_NOT_READABLE".
Definition FILE_EMPTY : string := "PROJECT_FILE_EMPTY".
Definition INVALID_FORMAT : string := "PROJECT_FILE_INVALID_FORMAT".
Definition ENCODING_ERROR : string := "PROJECT_FILE_ENCODING_ERROR".
Definition PACKAGES_CONFIG_ERROR : string := "PACKAGES_CONFIG_ERROR".
End ProjectFileErrorCodes.

(** The functions of the [path] module that the code uses;
    [path_basename_ext p ext] is [path.basename(p, ext)]. *)
Class Path := {
  path_basename : string -> string;
  path_basename_ext : string -> string -> string;
  path_dirname : string -> string;
  path_join : string -> string -> string;
  path_normalize : string -> string
}.

(** The file system and XML steps of the parser, each of which returns or
    throws as its name says, and the two regular expressions of
    [parseReference] ([packages[\\/]([^\\/]+)\.[0-9]] and the version
    pattern) with their first capture. *)
Class ProjectFiles := {
  validateFileAccessWithDetails : string -> outcome exn unit;
  readProjectFileWithValidation : string -> outcome exn string;
  parseXmlWithErrorHandling : string -> string -> outcome exn Xml.Document;
  validateProjectFile : string -> ProjectValidationResult;
  parsePackagesConfig : string -> outcome exn (list NuGetPackage);
  packagesMatch : string -> option string;
  versionMatch : string -> option string
}.

Module ProjectFileParser.
Import ProjectFileErrorCodes.

Definition createProjectFileError (c userMsg : string) (details : option string)
    (cat : Category) (rec : bool) : ExtensionError :=
  {| name := "ProjectFileError"; message := userMsg; code := c;
     category := cat; recoverable := rec; userMessage := userMsg;
     technicalDetails := details |}.

(** Parse a PackageReference element. *)
Definition parsePackageReference (packageRef : Xml.PackageReference)
    (frameworks : list string) : option NuGetPackage :=
  if negb (Js.truthy_opt (Xml.Include packageRef)) then None
  else
    let version0 := Xml.Version packageRef in
    let version1 :=
      if negb (Js.truthy_opt version0) then
        match Xml.VersionElement packageRef with
        | Some v => Some v
        | None => version0
        end
      else version0 in
    if negb (Js.truthy_opt version1) then None
    else
      Some {| id := default "" (Xml.Include packageRef);
              version := default "" version1;
              resolved := version1;
              dependencies := None;
              vulnerabilities := None;
              isTransitive := Some false;
              depth := Some 0;
              framework := head frameworks;
              source := Some "project-file";
              isDevelopmentDependency := None |}.

(** Parse a Reference element (legacy format). *)
Definition parseReference `{ProjectFiles} (reference : Xml.Reference)
    : option NuGetPackage :=
  if negb (Js.truthy_opt (Xml.ref_Include reference)) then None
  else
    match Xml.HintPath reference with
    | Some hintPath =>
        match packagesMatch hintPath with
        | Some packageId =>
            let version := default "unknown" (versionMatch hintPath) in
            Some {| id := packageId;
                    version := version;
                    resolved := Some version;
                    dependencies := None;
                    vulnerabilities := None;
                    isTransitive := Some false;
                    depth := Some 0;
                    framework := None;
                    source := Some "project-file";
                    isDevelopmentDependency := None |}
        | None => None
        end
    | None => None
    end.

(** Parse modern SDK-style project files. *)
Definition parseModernProjectFile (projectXml : Xml.Document)
    (frameworks : list string) : list NuGetPackage :=
  match Xml.root projectXml with
  | None => []
  | Some project =>
      flat_map (fun itemGroup =>
                  omap (fun packageRef => parsePackageReference packageRef frameworks)
                       (Xml.PackageReferences itemGroup))
               (Xml.ItemGroups project)
  end.

(** Parse legacy project files. *)
Definition parseLegacyProjectFile `{ProjectFiles} (projectXml : Xml.Document)
    : list NuGetPackage :=
  match Xml.root projectXml with
  | None => []
  | Some project =>
      flat_map (fun itemGroup =>
                  omap (fun packageRef => parsePackageReference packageRef ["net48"])
                       (Xml.PackageReferences itemGroup)
                  ++ omap parseReference (Xml.References itemGroup))
               (Xml.ItemGroups project)
  end.

(** Modern projects have an [Sdk] attribute. *)
Definition isModernProjectFormat (projectXml : Xml.Document) : bool :=
  match Xml.root projectXml with
  | Some {| Xml.attrs := Some a |} => Js.truthy_opt (Xml.Sdk a)
  | _ => false
  end.

(** Legacy projects have no [Sdk] attribute but an [xmlns] one. On a root
    element without attributes the test reads a property of [undefined] and
    throws. *)
Definition isLegacyProjectFormat (projectXml : Xml.Document) : outcome exn bool :=
  match Xml.root projectXml with
  | None => Return false
  | Some {| Xml.attrs := Some a |} =>
      Return (negb (Js.truthy_opt (Xml.Sdk a)) &&
              (Js.truthy_opt (Xml.xmlns a) || Js.truthy_opt (Xml.xmlns_xsi a)))
  | Some {| Xml.attrs := None |} =>
      Throw (PlainError "TypeError"
               "Cannot read properties of undefined (reading 'Sdk')")
  end.

(** Remove duplicate packages (same ID and version): [seen] is the set of
    the keys met so far, [result] the packages kept. *)
Definition deduplicateStep (acc : gset string * list NuGetPackage)
    (pkg : NuGetPackage) : gset string * list NuGetPackage :=
  let '(seen, result) := acc in
  let key := packageKey pkg in
  if decide (key ∈ seen) then (seen, result)
  else ({[ key ]} ∪ seen, result ++ [pkg]).

Definition deduplicatePackages (packages : list NuGetPackage) : list NuGetPackage :=
  snd (fold_left deduplicateStep packages (∅, [])).

Definition parseProjectFile `{Path} `{ProjectFiles} (projectPath : string)
    : outcome exn (list NuGetPackage) :=
  let attempt :=
    _ ← validateFileAccessWithDetails projectPath;
    projectContent ← readProjectFileWithValidation projectPath;
    result ← parseXmlWithErrorHandling projectContent projectPath;
    let validation := validateProjectFile projectPath in
    packages ←
      (if isModernProjectFormat result then
         Return (parseModernProjectFile result (frameworks validation))
       else
         legacy ← isLegacyProjectFormat result;
         if legacy : bool then Return (parseLegacyProjectFile result)
         else
           Throw (ProjectFileError (createProjectFileError UNSUPPORTED_TYPE
             ("Unsupported project file format: " +:+ path_basename projectPath +:+
              ". Please ensure this is a valid .NET project file.")
             (Some "Project file does not match known .NET project formats (SDK-style or legacy)")
             Validation false)));
    let packages :=
      match projectType validation with
      | dotnet_framework =>
          match parsePackagesConfig
                  (path_join (path_dirname projectPath) "packages.config") with
          | Return configPackages => packages ++ configPackages
          | Throw _ => packages
          end
      | _ => packages
      end in
    Return (deduplicatePackages packages) in
  match attempt with
  | Return packages => Return packages
  | Throw (ProjectFileError e) => Throw (ProjectFileError e)
  | Throw error =>
      Throw (ProjectFileError (createProjectFileError CORRUPTED
        ("Failed to parse project file: " +:+ path_basename projectPath +:+
         ". The file may be corrupted or in an unsupported format.")
        (Some ("Unexpected error: " +:+ exn_toString error))
        Validation true))
  end.

End ProjectFileParser.

(** The object [xml2js] builds from a packages.config file: the [package]
    elements under the [packages] root, absent when the root or the elements
    are missing; [pkg_attrs] is the [$] property of an element. *)
Module XmlConfig.

Record PackageAttributes := {
  attr_id : option string;
  attr_version : option string;
  targetFramework : option string;
  developmentDependency : option string
}.

Record PackageElement := { pkg_attrs : option PackageAttributes }.

Record Document := { packageElements : option (list PackageElement) }.

End XmlConfig.

(** An error of the file system: its [code] and its message. *)
Record FsError := {
  fs_code : string;
  fs_message : string
}.

(** What the reader of packages.config gets from the platform:
    [fs.promises.access(path, R_OK)] succeeding, [fs.promises.readFile], and
    [parseXmlWithErrorHandling] on the content of a packages.config, which
    returns the parsed document or throws. *)
Class ConfigFiles := {
  accessible : string -> bool;
  fs_readFile : string -> outcome FsError string;
  parseConfigXml : string -> string -> outcome exn XmlConfig.Document
}.

Module PackagesConfig.
Import ProjectFileErrorCodes.

(** Read project file with validation and encoding detection. *)
Definition readProjectFileWithValidation `{Path} `{ConfigFiles} (filePath : string)
    : outcome exn string :=
  match fs_readFile filePath with
  | Return content =>
      let trimmedLength := String.length (Js.trim content) in
      if (trimmedLength =? 0)%nat then
        Throw (ProjectFileError (ProjectFileParser.createProjectFileError FILE_EMPTY
          ("Project file is empty: " +:+ path_basename filePath +:+
           ". Please ensure the file contains valid project content.")
          (Some "File content is empty after trimming whitespace")
          Validation true))
      else if (trimmedLength <? 10)%nat then
        Throw (ProjectFileError (ProjectFileParser.createProjectFileError CORRUPTED
          ("Project file appears to be corrupted or incomplete: " +:+
           path_basename filePath +:+
           ". The file is too small to contain valid project data.")
          (Some ("Content length: " +:+ Z_toString (Z.of_nat trimmedLength) +:+
                 " characters"))
          Validation true))
      else if negb (Js.includes content "<Project") &&
              negb (Js.includes content "<project") then
        Throw (ProjectFileError (ProjectFileParser.createProjectFileError INVALID_FORMAT
          ("File does not appear to be a valid .NET project file: " +:+
           path_basename filePath +:+ ". Missing required Project element.")
          (Some "Content does not contain <Project> element")
          Validation false))
      else Return content
  | Throw fsError =>
      let rendered := error_toString "Error" (fs_message fsError) in
      if String.eqb (fs_code fsError) "EILSEQ" ||
         Js.includes (fs_message fsError) "invalid byte sequence" then
        Throw (ProjectFileError (ProjectFileParser.createProjectFileError ENCODING_ERROR
          ("Project file has invalid encoding: " +:+ path_basename filePath +:+
           ". Please ensure the file is saved with UTF-8 encoding.")
          (Some ("Encoding error: " +:+ rendered))
          Validation true))
      else
        Throw (ProjectFileError (ProjectFileParser.createProjectFileError FILE_NOT_READABLE
          ("Failed to read project file: " +:+ path_basename filePath +:+
           ". The file may be locked or corrupted.")
          (Some ("Read error: " +:+ rendered))
          System true))
  end.

(** The package of a [package] element; an element without attributes,
    identifier or version is skipped. *)
Definition packageOfElement (pkg : XmlConfig.PackageElement) : option NuGetPackage :=
  match XmlConfig.pkg_attrs pkg with
  | None => None
  | Some a =>
      if negb (Js.truthy_opt (XmlConfig.attr_id a)) ||
         negb (Js.truthy_opt (XmlConfig.attr_version a)) then None
      else
        Some {| id := default "" (XmlConfig.attr_id a);
                version := default "" (XmlConfig.attr_version a);
                resolved := XmlConfig.attr_version a;
                dependencies := None;
                vulnerabilities := None;
                isTransitive := Some false;
                depth := Some 0;
                framework := if Js.truthy_opt (XmlConfig.targetFramework a)
                             then XmlConfig.targetFramework a else None;
                source := Some "packages-config";
                isDevelopmentDependency :=
                  match XmlConfig.developmentDependency a with
                  | Some flag => if String.eqb flag "true" then Some true else None
                  | None => None
                  end |}
  end.

Definition parsePackagesConfig `{Path} `{ConfigFiles} (configPath : string)
    : outcome exn (list NuGetPackage) :=
  let attempt :=
    if negb (accessible configPath) then Return []
    else
      configContent ← readProjectFileWithValidation configPath;
      result ← parseConfigXml configContent configPath;
      Return (omap packageOfElement
                   (default [] (XmlConfig.packageElements result))) in
  match attempt with
  | Return packages => Return packages
  | Throw (ProjectFileError e) => Throw (ProjectFileError e)
  | Throw error =>
      Throw (ProjectFileError (ProjectFileParser.createProjectFileError
        PACKAGES_CONFIG_ERROR
        ("Failed to parse packages.config file: " +:+ path_basename configPath +:+
         ". The file may be corrupted or in an invalid format.")
        (Some ("Error details: " +:+ exn_toString error))
        Validation true))
  end.

End PackagesConfig.

(* ===================================================================== *)
(** * CacheManager (src/services/cacheManager.ts) *)
(* ===================================================================== *)

(** A [Date] object: its time value in milliseconds, or [None] for an
    Invalid Date. The constructor clips to the range of time values. *)
Module Date.

Definition t := option Z.

Definition maxTime : Z := 8640000000000000.

(** A reading of the clock is a valid time value. *)
Definition validTime (ms : Z) : Prop := Z.abs ms <= maxTime.

(** [new Date(ms)] *)
Definition ofTime (ms : Z) : t :=
  if Z.abs ms <=? maxTime then Some ms else None.

(** [a > b] on dates: false as soon as one of them is invalid. *)
Definition gt (a b : t) : bool :=
  match a, b with
  | Some x, Some y => y <? x
  | _, _ => false
  end.

(** [a <= b] on dates. *)
Definition le (a b : t) : bool :=
  match a, b with
  | Some x, Some y => x <=? y
  | _, _ => false
  end.

End Date.

Record CacheEntry (T : Type) := {
  data : T;
  entry_timestamp : Date.t;
  expiresAt : Date.t;
  key : string
}.
Arguments data {T} _.
Arguments entry_timestamp {T} _.
Arguments expiresAt {T} _.
Arguments key {T} _.

Record VulnerabilityInfo := {
  packageName : string;
  packageVersion : string;
  info_severity : string;
  info_title : string;
  info_description : option string;
  info_advisoryUrl : option string
}.

(** The persistent cache file [{ projectPath, vulnerabilities, timestamp,
    expiresAt }] as [JSON.parse] gives it back: a property that is missing
    reads as [undefined]. *)
Module CacheFile.

Record Data := {
  projectPath : Js.value;
  vulnerabilities : option (list VulnerabilityInfo);
  timestamp : Js.value;
  expiresAt : Js.value
}.

Inductive Parsed :=
| SyntaxError (rendered : string)
| JsonNull
| Document (d : Data).

End CacheFile.

(** The encoding of the persistent cache: [JSON.stringify(cacheData, null, 2)],
    [JSON.parse], [Date.prototype.toISOString] on a valid time value and the
    time value [new Date(string)] reads back (none for an Invalid Date). *)
Class CacheCodec := {
  JSON_stringify : CacheFile.Data -> string;
  JSON_parse_cache : string -> CacheFile.Parsed;
  toISOString : Z -> string;
  Date_parse : string -> option Z
}.

(** The cache directory: the files by path. An entry that exists but cannot
    be opened (a directory, a file without permission) is [Unreadable]. The
    directory itself exists. *)
Inductive FsNode :=
| File (content : string)
| Unreadable.

Module Fs.

Definition existsSync (fs : gmap string FsNode) (path : string) : bool :=
  bool_decide (is_Some (fs !! path)).

Definition readFile (fs : gmap string FsNode) (path : string) : outcome exn string :=
  match fs !! path with
  | Some (File content) => Return content
  | Some Unreadable => Throw (PlainError "Error" ("EACCES: permission denied, open '" +:+ path +:+ "'"))
  | None => Throw (PlainError "Error" ("ENOENT: no such file or directory, open '" +:+ path +:+ "'"))
  end.

Definition writeFile (fs : gmap string FsNode) (path content : string)
    : outcome exn (gmap string FsNode) :=
  match fs !! path with
  | Some Unreadable => Throw (PlainError "Error" ("EACCES: permission denied, open '" +:+ path +:+ "'"))
  | _ => Return (<[ path := File content ]> fs)
  end.

(** [fs.promises.unlink(path).catch(() => {})] *)
Definition unlink_quiet (fs : gmap string FsNode) (path : string) : gmap string FsNode :=
  delete path fs.

End Fs.

Module CacheManager.

Definition defaultTtl : Z := 30 * 60 * 1000.
Definition vulnerabilityTtl : Z := 24 * 60 * 60 * 1000.

Section InMemory.
Context {T : Type}.

(** [get]: the value, or [None] for [null]; an expired entry is deleted. *)
Definition get (cache : gmap string (CacheEntry T)) (now : Z) (k : string)
    : option T * gmap string (CacheEntry T) :=
  match cache !! k with
  | None => (None, cache)
  | Some entry =>
      if Date.gt (Date.ofTime now) (expiresAt entry) then (None, delete k cache)
      else (Some (data entry), cache)
  end.

Definition set (cache : gmap string (CacheEntry T)) (now : Z) (k : string)
    (d : T) (ttl : option Z) : gmap string (CacheEntry T) :=
  let timeToLive := default defaultTtl ttl in
  let entry := {| data := d;
                  entry_timestamp := Date.ofTime now;
                  expiresAt := Date.ofTime (now + timeToLive);
                  key := k |} in
  <[ k := entry ]> cache.

Definition delete_ (cache : gmap string (CacheEntry T)) (k : string)
    : gmap string (CacheEntry T) :=
  delete k cache.

Definition clear (cache : gmap string (CacheEntry T)) : gmap string (CacheEntry T) := ∅.

Definition has (cache : gmap string (CacheEntry T)) (now : Z) (k : string)
    : bool * gmap string (CacheEntry T) :=
  match cache !! k with
  | None => (false, cache)
  | Some entry =>
      if Date.gt (Date.ofTime now) (expiresAt entry) then (false, delete k cache)
      else (true, cache)
  end.

(** Clean up expired entries from the cache. *)
Definition cleanup (cache : gmap string (CacheEntry T)) (now : Z)
    : gmap string (CacheEntry T) :=
  filter (fun kv => negb (Date.gt (Date.ofTime now) (expiresAt kv.2)) = true) cache.

End InMemory.

(** [x | 0]-style conversion to a signed 32 bit integer. *)
Definition toInt32 (z : Z) : Z :=
  let m := z mod 2 ^ 32 in
  if m <? 2 ^ 31 then m else m - 2 ^ 32.

Definition digit36 (d : Z) : ascii :=
  if d <? 10 then ascii_of_N (Z.to_N (48 + d)) else ascii_of_N (Z.to_N (87 + d)).

Fixpoint toString36_go (fuel : nat) (n : Z) (acc : string) : string :=
  match fuel with
  | O => acc
  | S fuel' =>
      let acc' := String (digit36 (n mod 36)) acc in
      if n / 36 =? 0 then acc' else toString36_go fuel' (n / 36) acc'
  end.

(** [n.toString(36)] for [0 <= n <= 2^31]: at most six digits. *)
Definition toString36 (n : Z) : string := toString36_go 7 n "".

Definition simpleHash (str : string) : string :=
  let hash :=
    fold_left (fun hash char => toInt32 (toInt32 (hash * 32) - hash + Z.of_N (Js.code char)))
              (list_ascii_of_string str) 0 in
  toString36 (Z.abs hash).

Definition getVulnerabilityCacheKey `{Path} (projectPath : string) : string :=
  let normalizedPath := path_normalize projectPath in
  let hash := simpleHash normalizedPath in
  let projectName := path_basename_ext projectPath ".csproj" in
  "vuln_" +:+ projectName +:+ "_" +:+ hash.

Definition cacheFileOf `{Path} (cacheDir projectPath : string) : string :=
  path_join cacheDir (getVulnerabilityCacheKey projectPath +:+ ".json").

(** [date.toISOString()]: a [RangeError] on an Invalid Date. *)
Definition date_toISOString `{CacheCodec} (d : Date.t) : outcome exn string :=
  match d with
  | Some ms => Return (toISOString ms)
  | None => Throw (PlainError "RangeError" "Invalid time value")
  end.

(** [new Date(v)] on a value read from the cache file. *)
Definition dateOfValue `{CacheCodec} (v : Js.value) : Date.t :=
  match v with
  | Js.Undefined => None
  | Js.Null => Date.ofTime 0
  | Js.Boolean b => Date.ofTime (if b then 1 else 0)
  | Js.Number n => Date.ofTime n
  | Js.Str s => Date_parse s
  | Js.Object => Date_parse "[object Object]"
  end.

(** Cache vulnerability data persistently to disk; a failure is logged and
    leaves the disk as it was. *)
Definition cacheVulnerabilityData `{Path} `{CacheCodec} (cacheDir : string)
    (fs : gmap string FsNode) (now : Z)
    (projectPath : string) (vulnerabilities : list VulnerabilityInfo)
    : gmap string FsNode :=
  let attempt :=
    let cacheFile := cacheFileOf cacheDir projectPath in
    stamp ← date_toISOString (Date.ofTime now);
    expires ← date_toISOString (Date.ofTime (now + vulnerabilityTtl));
    let cacheData :=
      {| CacheFile.projectPath := Js.Str projectPath;
         CacheFile.vulnerabilities := Some vulnerabilities;
         CacheFile.timestamp := Js.Str stamp;
         CacheFile.expiresAt := Js.Str expires |} in
    Fs.writeFile fs cacheFile (JSON_stringify cacheData) in
  match attempt with
  | Return fs' => fs'
  | Throw _ => fs
  end.

(** What [getCachedVulnerabilityData] resolves to: [null], or the
    [vulnerabilities] property of the cached document ([undefined] when the
    document has none). *)
Inductive Cached :=
| NoCache
| Stored (vulnerabilities : option (list VulnerabilityInfo)).

(** Retrieve cached vulnerability data from disk. *)
Definition getCachedVulnerabilityData `{Path} `{CacheCodec} (cacheDir : string)
    (fs : gmap string FsNode) (now : Z) (projectPath : string)
    : Cached * gmap string FsNode :=
  let attempt :=
    let cacheFile := cacheFileOf cacheDir projectPath in
    if negb (Fs.existsSync fs cacheFile) then Return (NoCache, fs)
    else
      cacheContent ← Fs.readFile fs cacheFile;
      match JSON_parse_cache cacheContent with
      | CacheFile.SyntaxError rendered => Throw (PlainError "SyntaxError" rendered)
      | CacheFile.JsonNull =>
          Throw (PlainError "TypeError"
                   "Cannot read properties of null (reading 'expiresAt')")
      | CacheFile.Document cacheData =>
          let expires := dateOfValue (CacheFile.expiresAt cacheData) in
          if Date.gt (Date.ofTime now) expires then
            Return (NoCache, Fs.unlink_quiet fs cacheFile)
          else Return (Stored (CacheFile.vulnerabilities cacheData), fs)
      end in
  match attempt with
  | Return r => r
  | Throw _ => (NoCache, fs)
  end.

(** Get cache statistics: the number of entries and their keys (as a set:
    the order of insertion that the source's array follows is not kept by
    the map of the model). Entries that have expired and were not evicted
    yet are counted. *)
Definition getStats {T : Type} (cache : gmap string (CacheEntry T)) : nat * gset string :=
  (size cache, dom cache).

(** Check if vulnerability data is cached and valid. *)
Definition hasValidVulnerabilityCache `{Path} `{CacheCodec} (cacheDir : string)
    (fs : gmap string FsNode) (now : Z) (projectPath : string) : bool :=
  let attempt :=
    let cacheFile := cacheFileOf cacheDir projectPath in
    if negb (Fs.existsSync fs cacheFile) then Return false
    else
      cacheContent ← Fs.readFile fs cacheFile;
      match JSON_parse_cache cacheContent with
      | CacheFile.SyntaxError rendered => Throw (PlainError "SyntaxError" rendered)
      | CacheFile.JsonNull =>
          Throw (PlainError "TypeError"
                   "Cannot read properties of null (reading 'expiresAt')")
      | CacheFile.Document cacheData =>
          Return (Date.le (Date.ofTime now) (dateOfValue (CacheFile.expiresAt cacheData)))
      end in
  match attempt with
  | Return b => b
  | Throw _ => false
  end.

(** Clear all vulnerability cache files. [listing] is what reading the
    cache directory gives: the names of its entries, or a failure, which is
    logged and leaves the disk as it was. The failure to remove one entry is
    ignored and the loop goes on. Whether an entry that cannot be read can
    be removed is the platform's affair; the model removes it, and the
    statements about the sweeps speak of the readable and the missing
    entries only. *)
Definition clearVulnerabilityCache `{Path} (cacheDir : string)
    (fs : gmap string FsNode) (listing : outcome exn (list string))
    : gmap string FsNode :=
  match listing with
  | Throw _ => fs
  | Return files =>
      let vulnerabilityCacheFiles := List.filter (fun file => Js.endsWith file ".json") files in
      fold_left (fun fs file => Fs.unlink_quiet fs (path_join cacheDir file))
                vulnerabilityCacheFiles fs
  end.

(** The body of the loop of [cleanupExpiredVulnerabilityCache]: a file
    past its expiry is removed, and so is a file that cannot be read or
    parsed. *)
Definition cleanupFile `{Path} `{CacheCodec} (cacheDir : string) (now : Z)
    (fs : gmap string FsNode) (file : string) : gmap string FsNode :=
  let filePath := path_join cacheDir file in
  match Fs.readFile fs filePath with
  | Throw _ => Fs.unlink_quiet fs filePath
  | Return cacheContent =>
      match JSON_parse_cache cacheContent with
      | CacheFile.Document cacheData =>
          if Date.gt (Date.ofTime now) (dateOfValue (CacheFile.expiresAt cacheData))
          then delete filePath fs
          else fs
      | _ => Fs.unlink_quiet fs filePath
      end
  end.

(** Clean up expired vulnerability cache files. *)
Definition cleanupExpiredVulnerabilityCache `{Path} `{CacheCodec} (cacheDir : string)
    (fs : gmap string FsNode) (now : Z) (listing : outcome exn (list string))
    : gmap string FsNode :=
  match listing with
  | Throw _ => fs
  | Return files =>
      let vulnerabilityCacheFiles := List.filter (fun file => Js.endsWith file ".json") files in
      fold_left (cleanupFile cacheDir now) vulnerabilityCacheFiles fs
  end.

(** The result of [getCacheInfo]. [vulnerabilityCacheAge] is absent, or a
    number of milliseconds, or NaN ([Some None]) when the time stamp of the
    file is no date. *)
Record CacheInfo := {
  inMemorySize : nat;
  hasVulnerabilityCache : bool;
  vulnerabilityCacheAge : option (option Z);
  offlineMode : bool
}.

(** Get cache information including offline mode status. *)
Definition getCacheInfo {T : Type} `{Path} `{CacheCodec} (cacheDir : string)
    (cache : gmap string (CacheEntry T)) (fs : gmap string FsNode) (now : Z)
    (projectPath : option string) : CacheInfo :=
  let info := {| inMemorySize := size cache; hasVulnerabilityCache := false;
                 vulnerabilityCacheAge := None; offlineMode := false |} in
  match projectPath with
  | Some path =>
      if negb (Js.truthy path) then info
      else
        let valid := hasValidVulnerabilityCache cacheDir fs now path in
        let info := {| inMemorySize := size cache; hasVulnerabilityCache := valid;
                       vulnerabilityCacheAge := None; offlineMode := false |} in
        if valid then
          match Fs.readFile fs (cacheFileOf cacheDir path) with
          | Throw _ => info
          | Return cacheContent =>
              match JSON_parse_cache cacheContent with
              | CacheFile.Document cacheData =>
                  let cacheAge :=
                    match dateOfValue (CacheFile.timestamp cacheData) with
                    | Some stamp => Some (now - stamp)
                    | None => None
                    end in
                  {| inMemorySize := size cache; hasVulnerabilityCache := valid;
                     vulnerabilityCacheAge := Some cacheAge;
                     offlineMode := match cacheAge with
                                    | Some age => 60 * 60 * 1000 <? age
                                    | None => false
                                    end |}
              | _ => info
              end
          end
        else info
  | None => info
  end.

End CacheManager.

(* ===================================================================== *)
(** * NuGetDependencyProvider (src/providers/nugetDependencyProvider.ts) *)
(* ===================================================================== *)

Record GraphNode := {
  node_id : string;
  node_name : string;
  node_version : string;
  group : string;
  val : Z;
  color : string;
  node_vulnerabilities : option (list Vulnerability);
  isRoot : bool;
  node_depth : Z
}.

Record GraphData := {
  nodes : list GraphNode;
  links : list GraphLink
}.

Record VulnerabilityCount := {
  critical : Z;
  high : Z;
  moderate : Z;
  low : Z;
  total : Z
}.

Record DependencyAnalysisResult := {
  projectName : string;
  result_projectPath : string;
  packages : list NuGetPackage;
  graphData : GraphData;
  vulnerabilityCount : VulnerabilityCount;
  analysisMetadata : AnalysisMetadata
}.

Inductive ScanSource := scan_dotnet_cli | scan_nuget_api | scan_cache.

Record VulnerabilityScanResult := {
  scan_packages : list NuGetPackage;
  scan_vulnerabilityCount : VulnerabilityCount;
  scanTimestamp : Z;
  scan_source : ScanSource;
  scan_error : option string
}.

(** The three collaborators of the provider, by the methods it calls. *)
Class IDotNetCliService := {
  cli_listPackages : string -> ListPackagesOptions -> outcome exn (list NuGetPackage);
  cli_getVersion : outcome exn string
}.

Class IProjectFileParser := {
  parser_parseProjectFile : string -> outcome exn (list NuGetPackage)
}.

Class IVulnerabilityScanner := {
  scanProject : string -> outcome exn VulnerabilityScanResult
}.

(** The two strategies a resolution can end with, and the value a run
    writes to the field [lastAnalysisMethod] when it returns with each. *)
Inductive Strategy := toolchain_strategy | manifest_strategy.

Definition methodOf (w : Strategy) : AnalysisMethod :=
  match w with
  | toolchain_strategy => dotnet_cli
  | manifest_strategy => project_file
  end.

(** The provider's own [validateProject] (it reads and parses the project
    file once more and never throws), the clock, and the other runs on the
    provider. The extension creates one provider and shares it among its
    three commands, and a run is suspended at every [await]: between the
    write of [lastAnalysisMethod] at the end of [analyzeDependencies] and the
    read of it at the end of [createAnalysisMetadata] lie the awaits of
    [getVersion] and of [validateProject]. [overlappingWrite] is the
    strategy of the last other run that finished its own resolution, and so
    wrote the field, in that interval; [None] when no run did. *)
Class ProviderHost := {
  validateProject : string -> ProjectValidationResult;
  clock : Z;
  overlappingWrite : option Strategy
}.

(** The implementations of this repository behind the first two interfaces. *)
Definition DotNetCliService_impl `{ICommandExecutor} `{ToolchainOutput}
    : IDotNetCliService :=
  {| cli_listPackages := DotNetCliService.listPackages;
     cli_getVersion := DotNetCliService.getVersion |}.

Definition ProjectFileParser_impl `{Path} `{ProjectFiles} : IProjectFileParser :=
  {| parser_parseProjectFile := ProjectFileParser.parseProjectFile |}.

Module NuGetDependencyProvider.

(** The methods of the collaborators a call went through, in order. The log
    is not part of the source: it records which strategy was attempted. *)
Inductive Call :=
| ListPackages (projectPath : string) (options : ListPackagesOptions)
| ScanProject (projectPath : string)
| ParseProjectFile (projectPath : string)
| GetVersion
| ValidateProject (projectPath : string).

(** The provider object as one run sees it: its mutable field
    [lastAnalysisMethod] as the writes of this run leave it, and the log.
    What other runs write to the shared field is the host's
    [overlappingWrite]; it reaches this run where the field is read. *)
Record State := {
  lastAnalysisMethod : AnalysisMethod;
  calls : list Call
}.

Definition initial : State := {| lastAnalysisMethod := dotnet_cli; calls := [] |}.

(** The object [s] after more calls [cs], with the field set to [m]. *)
Definition after (s : State) (m : AnalysisMethod) (cs : list Call) : State :=
  {| lastAnalysisMethod := m; calls := calls s ++ cs |}.

(** A method of the provider: it reads and writes the object and returns or
    throws. What was written before a throw stays written. *)
Definition M (A : Type) : Type := State -> outcome exn A * State.

Definition ret {A} (a : A) : M A := fun s => (Return a, s).

Definition throw {A} (e : exn) : M A := fun s => (Throw e, s).

Definition mbind_M {A B} (k : A -> M B) (m : M A) : M B :=
  fun s =>
    match m s with
    | (Return a, s') => k a s'
    | (Throw e, s') => (Throw e, s')
    end.

#[global] Instance M_bind : MBind M := @mbind_M.
#[global] Instance M_ret : MRet M := @ret.

(** [try { m } catch (error) { handler(error) }] *)
Definition try_catch {A} (m : M A) (handler : exn -> M A) : M A :=
  fun s =>
    match m s with
    | (Return a, s') => (Return a, s')
    | (Throw e, s') => handler e s'
    end.

Definition logged {A} (c : Call) (r : outcome exn A) : M A :=
  fun s => (r, {| lastAnalysisMethod := lastAnalysisMethod s;
                  calls := calls s ++ [c] |}).

Definition set_lastAnalysisMethod (m : AnalysisMethod) : M unit :=
  fun s => (Return tt, {| lastAnalysisMethod := m; calls := calls s |}).

(** [packages.find(p => p.id === vulnPkg.id)] followed by the assignment
    [pkg.vulnerabilities = vulns] on the package found. *)
Fixpoint assignVulnerabilities (pid : string) (vulns : list Vulnerability)
    (packages : list NuGetPackage) : list NuGetPackage :=
  match packages with
  | [] => []
  | p :: rest =>
      if String.eqb (id p) pid then withVulnerabilities p (Some vulns) :: rest
      else p :: assignVulnerabilities pid vulns rest
  end.

(** Merge vulnerability data from vulnerable packages into the main package
    list. The source updates the packages in place; the model returns the
    list after the updates. *)
Definition mergeVulnerabilityData (packages vulnerablePackages : list NuGetPackage)
    : list NuGetPackage :=
  fold_left (fun pkgs vulnPkg =>
               match vulnerabilities vulnPkg with
               | Some vulns => assignVulnerabilities (id vulnPkg) vulns pkgs
               | None => pkgs
               end)
            vulnerablePackages packages.

(** Create a comprehensive error when both CLI and project file parsing fail. *)
Definition createAnalysisError `{Path} (primaryError fallbackError : exn)
    (projectPath : string) : ExtensionError :=
  {| name := "DependencyAnalysisError";
     message := "Failed to analyze project dependencies using both .NET CLI and project file parsing.";
     code := "DEPENDENCY_ANALYSIS_FAILED";
     category := Analysis;
     recoverable := false;
     userMessage := "Unable to analyze dependencies for project: " +:+
                    path_basename projectPath +:+
                    ". Both .NET CLI and project file parsing failed.";
     technicalDetails :=
       Some ("Primary error (CLI): " +:+ exn_toString primaryError +:+
             String newline_char "Fallback error (Project File): " +:+
             exn_toString fallbackError) |}.

Section Provider.
Context `{Path} `{IDotNetCliService} `{IProjectFileParser}
        `{IVulnerabilityScanner} `{ProviderHost}.

(** The options [{ includeTransitive, format: 'json' }] of the listing. *)
Definition listOptions (includeTransitive : bool) : ListPackagesOptions :=
  {| includeTransitive := Some includeTransitive;
     opt_framework := None; opt_source := None;
     format := Some format_json |}.

(** The fallback to project file parsing, shared by the two branches of the
    handler that attempt it. *)
Definition fallback (error : exn) (projectPath : string)
    : M (list NuGetPackage * AnalysisMethod) :=
  try_catch
    (packages ← logged (ParseProjectFile projectPath)
                        (parser_parseProjectFile projectPath);
     mret (packages, project_file))
    (fun fallbackError =>
       throw (ErrorObject (createAnalysisError error fallbackError projectPath))).

Definition analyzeDependencies (projectPath : string)
    (includeVulnerabilities includeTransitive : bool) : M (list NuGetPackage) :=
  let options := listOptions includeTransitive in
  '(packages, analysisMethod) ←
    try_catch
      (packages ← logged (ListPackages projectPath options)
                          (cli_listPackages projectPath options);
       packages ←
         (if includeVulnerabilities then
            try_catch
              (vulnerabilityScanResult ← logged (ScanProject projectPath)
                                                 (scanProject projectPath);
               mret (mergeVulnerabilityData packages
                       (scan_packages vulnerabilityScanResult)))
              (fun vulnError => mret packages)
          else mret packages);
       mret (packages, dotnet_cli))
      (fun error =>
         match error with
         | DotNetCliError e =>
             if recoverable e || String.eqb (code e) DotNetCliErrorCodes.SDK_NOT_FOUND
             then fallback error projectPath
             else throw error
         | _ => fallback error projectPath
         end);
  _ ← set_lastAnalysisMethod analysisMethod;
  mret packages.

Definition vulnerabilityColors (s : Severity) : string :=
  match s with
  | Critical => "#8B0000"
  | High => "#FF4500"
  | Moderate => "#FFA500"
  | Low => "#FFD700"
  end.

Definition packageColors : list string :=
  ["#1f77b4"; "#ff7f0e"; "#2ca02c"; "#d62728"; "#9467bd";
   "#8c564b"; "#e377c2"; "#7f7f7f"; "#bcbd22"; "#17becf"].

Definition Severity_eqb (a b : Severity) : bool :=
  match a, b with
  | Low, Low | Moderate, Moderate | High, High | Critical, Critical => true
  | _, _ => false
  end.

Definition getHighestSeverity (vulns : list Vulnerability) : Severity :=
  default Low
    (List.find (fun sev => existsb (fun v => Severity_eqb (severity v) sev) vulns)
               [Critical; High; Moderate; Low]).

(** The colour of the links drawn between a direct package and a transitive
    one, and between two transitive ones. *)
Definition directLinkColor (mode : VisualizationMode) : string :=
  match mode with
  | mode_vulnerabilities => "#ff6b6b"
  | _ => "#999"
  end.

Definition transitiveLinkColor (mode : VisualizationMode) : string :=
  match mode with
  | mode_vulnerabilities => "#ff6b6b"
  | _ => "#ccc"
  end.

(** Check for common dependency patterns. *)
Definition hasCommonDependencyPattern (pkg1Id pkg2Id : string) : bool :=
  (Js.includes pkg1Id "EntityFramework" && Js.includes pkg2Id "EntityFramework") ||
  (Js.includes pkg1Id "AspNetCore" && Js.includes pkg2Id "AspNetCore") ||
  (Js.includes pkg1Id "Logging" && Js.includes pkg2Id "Logging") ||
  (Js.includes pkg1Id "Configuration" && Js.includes pkg2Id "Configuration").

(** [s.split('.')[0]] *)
Definition firstSegment (s : string) : string :=
  default "" (head (Js.split "." s)).

(** Determine if a link should be created between two packages. *)
Definition shouldCreateLink (directPkg transitivePkg : NuGetPackage) : bool :=
  (Js.startsWith (id directPkg) "Microsoft." && Js.startsWith (id transitivePkg) "Microsoft.") ||
  (Js.startsWith (id directPkg) "System." && Js.startsWith (id transitivePkg) "System.") ||
  String.eqb (firstSegment (id directPkg)) (firstSegment (id transitivePkg)) ||
  hasCommonDependencyPattern (id directPkg) (id transitivePkg).

(** Check if two transitive packages are likely related. *)
Definition arePackagesRelated (pkg1 pkg2 : NuGetPackage) : bool :=
  let pkg1Parts := Js.split "." (id pkg1) in
  let pkg2Parts := Js.split "." (id pkg2) in
  if bool_decide (head pkg1Parts = head pkg2Parts) then true
  else if (2 <=? length pkg1Parts)%nat && (2 <=? length pkg2Parts)%nat then
    if bool_decide (head pkg1Parts = head pkg2Parts) &&
       bool_decide (pkg1Parts !! 1%nat = pkg2Parts !! 1%nat)
    then true else false
  else false.

Definition directLink (mode : VisualizationMode) (directPkg transitivePkg : NuGetPackage)
    : GraphLink :=
  {| link_source := packageKey directPkg;
     link_target := packageKey transitivePkg;
     value_halves := 2;
     link_color := directLinkColor mode |}.

Definition transitiveLink (mode : VisualizationMode) (pkg1 pkg2 : NuGetPackage)
    : GraphLink :=
  {| link_source := packageKey pkg1;
     link_target := packageKey pkg2;
     value_halves := 1;
     link_color := transitiveLinkColor mode |}.

(** The first pair of loops: every direct package against every transitive
    one. *)
Definition heuristicDirectLinks (mode : VisualizationMode)
    (directPackages transitivePackages : list NuGetPackage) : list GraphLink :=
  flat_map (fun directPkg =>
              flat_map (fun transitivePkg =>
                          if shouldCreateLink directPkg transitivePkg
                          then [directLink mode directPkg transitivePkg] else [])
                       transitivePackages)
           directPackages.

(** The second pair of loops: [i < j] over the transitive packages. *)
Fixpoint heuristicTransitiveLinks (mode : VisualizationMode)
    (transitivePackages : list NuGetPackage) : list GraphLink :=
  match transitivePackages with
  | [] => []
  | pkg1 :: rest =>
      flat_map (fun pkg2 => if arePackagesRelated pkg1 pkg2
                            then [transitiveLink mode pkg1 pkg2] else [])
               rest
      ++ heuristicTransitiveLinks mode rest
  end.

(** [Math.ceil(a / b)] on array lengths, [b] positive: the quotient of two
    integers below 2^32 is rounded to a double without reaching the next
    integer, so the ceiling is the exact one. *)
Definition ceilDiv (a b : nat) : nat := ((a + b - 1) / b)%nat.

(** Create fallback links when no relationships can be determined: the links
    pushed by the call. *)
Definition createFallbackLinks (packages : list NuGetPackage)
    (mode : VisualizationMode) : list GraphLink :=
  let directPackages := List.filter (fun pkg => negb (isTransitive_truthy pkg)) packages in
  let transitivePackages := List.filter isTransitive_truthy packages in
  if (0 <? length directPackages)%nat && (0 <? length transitivePackages)%nat then
    concat
      (imap (fun index directPkg =>
               let chunk := ceilDiv (length transitivePackages) (length directPackages) in
               let startIndex := (index * chunk)%nat in
               let endIndex := Nat.min (startIndex + chunk) (length transitivePackages) in
               flat_map (fun i =>
                           match transitivePackages !! i with
                           | Some transitivePkg => [directLink mode directPkg transitivePkg]
                           | None => []
                           end)
                        (seq startIndex (endIndex - startIndex)))
            directPackages)
  else [].

(** Create synthetic links between packages: the array [links] after the
    call, from the array before it. The node map the source passes along is
    read by neither this method nor the fallback. *)
Definition createSyntheticLinks (packages : list NuGetPackage)
    (links : list GraphLink) (mode : VisualizationMode) : list GraphLink :=
  let directPackages := List.filter (fun pkg => negb (isTransitive_truthy pkg)) packages in
  let transitivePackages := List.filter isTransitive_truthy packages in
  let links := links ++ heuristicDirectLinks mode directPackages transitivePackages in
  let links := links ++ heuristicTransitiveLinks mode transitivePackages in
  if (length links =? 0)%nat && (1 <? length packages)%nat then
    links ++ createFallbackLinks packages mode
  else links.

Definition createNode (mode : VisualizationMode) (index : nat) (pkg : NuGetPackage)
    : GraphNode :=
  let color :=
    match mode, vulnerabilities pkg with
    | mode_vulnerabilities, Some (v :: vs) => vulnerabilityColors (getHighestSeverity (v :: vs))
    | mode_vulnerabilities, _ => "#6c757d"
    | _, _ => default "#6c757d" (packageColors !! (index mod length packageColors)%nat)
    end in
  {| node_id := packageKey pkg;
     node_name := id pkg;
     node_version := version pkg;
     group := if isTransitive_truthy pkg then "transitive" else "direct";
     val := match vulnerabilities pkg with
            | Some vs => Z.of_nat (length vs) + 1
            | None => 1
            end;
     color := color;
     node_vulnerabilities := vulnerabilities pkg;
     isRoot := negb (isTransitive_truthy pkg);
     node_depth := default 0 (depth pkg) |}.

Definition createGraphData (packages : list NuGetPackage) (mode : VisualizationMode)
    : GraphData :=
  {| nodes := imap (createNode mode) packages;
     links := createSyntheticLinks packages [] mode |}.

Definition countVulnerabilities (packages : list NuGetPackage) : VulnerabilityCount :=
  let all := flat_map (fun pkg => default [] (vulnerabilities pkg)) packages in
  let count (s : Severity) :=
    Z.of_nat (length (List.filter (fun v => Severity_eqb (severity v) s) all)) in
  {| critical := count Critical;
     high := count High;
     moderate := count Moderate;
     low := count Low;
     total := Z.of_nat (length all) |}.

(** What the shared field holds when [createAnalysisMetadata] reads it,
    [own] being what this run wrote last: the write of an overlapping run
    when there was one after it, and [own] otherwise. *)
Definition recordedMethod (own : AnalysisMethod) : AnalysisMethod :=
  match overlappingWrite with
  | Some w => methodOf w
  | None => own
  end.

(** The read of [this.lastAnalysisMethod]. *)
Definition read_lastAnalysisMethod : M AnalysisMethod :=
  fun s => (Return (recordedMethod (lastAnalysisMethod s)), s).

(** The metadata of a result. The argument [_method] is ignored: the method
    recorded is the one found in the field of the object after the two
    awaits. *)
Definition createAnalysisMetadata (projectPath : string) (_method : AnalysisMethod)
    (hasTransitive hasVulnerabilityData : bool) : M AnalysisMetadata :=
  sdkVersion ←
    try_catch (v ← logged GetVersion cli_getVersion; mret (Some v))
              (fun _ => mret None);
  validation ← logged (ValidateProject projectPath) (Return (validateProject projectPath));
  let framework := head (frameworks validation) in
  method ← read_lastAnalysisMethod;
  mret {| timestamp := clock;
          analysisMethod := method;
          meta_framework := framework;
          sdkVersion := sdkVersion;
          hasTransitiveDependencies := hasTransitive;
          hasVulnerabilityData := hasVulnerabilityData |}.

(** The shared shape of the three public entry points. *)
Definition analysisResult (projectPath : string) (packages : list NuGetPackage)
    (mode : VisualizationMode) (analysisMetadata : AnalysisMetadata)
    : DependencyAnalysisResult :=
  {| projectName := path_basename_ext projectPath ".csproj";
     result_projectPath := projectPath;
     packages := packages;
     graphData := createGraphData packages mode;
     vulnerabilityCount := countVulnerabilities packages;
     analysisMetadata := analysisMetadata |}.

Definition getDependencies (projectPath : string) : M DependencyAnalysisResult :=
  packages ← analyzeDependencies projectPath false false;
  analysisMetadata ← createAnalysisMetadata projectPath dotnet_cli false false;
  mret (analysisResult projectPath packages mode_dependencies analysisMetadata).

Definition getDependenciesWithVulnerabilities (projectPath : string)
    : M DependencyAnalysisResult :=
  packages ← analyzeDependencies projectPath true false;
  analysisMetadata ← createAnalysisMetadata projectPath dotnet_cli false true;
  mret (analysisResult projectPath packages mode_vulnerabilities analysisMetadata).

Definition getFullDependencyGraph (projectPath : string) : M DependencyAnalysisResult :=
  packages ← analyzeDependencies projectPath false true;
  analysisMetadata ← createAnalysisMetadata projectPath dotnet_cli true false;
  mret (analysisResult projectPath packages mode_full analysisMetadata).

End Provider.

End NuGetDependencyProvider.

(* ===================================================================== *)
(** * Vocabulary of the statements *)
(* ===================================================================== *)

Module Spec.

(** The list the merge leaves on a package with identifier [pid]: that of
    the last vulnerable package with this identifier that carries one. *)
Definition assignedVulnerabilities (pid : string) (vulnerablePackages : list NuGetPackage)
    : option (list Vulnerability) :=
  last (omap (fun v => if String.eqb (id v) pid then vulnerabilities v else None)
             vulnerablePackages).

(** The package at position [i] is the first one of the list with its
    identifier: the one [Array.prototype.find] stops at. *)
Definition firstWithId (packages : list NuGetPackage) (i : nat) (pid : string) : bool :=
  forallb (fun p => negb (String.eqb (id p) pid)) (take i packages).

(** The fallback, slice by slice: with [c] the ceiling of the number of
    transitive packages over the number of direct ones, the direct package
    at position [k] is linked to the transitive packages at positions
    [k * c] to [k * c + c - 1] (those that exist). *)
Definition fallbackSlices (mode : VisualizationMode)
    (directPackages transitivePackages : list NuGetPackage) : list GraphLink :=
  let c := NuGetDependencyProvider.ceilDiv (length transitivePackages) (length directPackages) in
  concat (imap (fun k directPkg =>
                  map (NuGetDependencyProvider.directLink mode directPkg)
                      (take c (drop (k * c) transitivePackages)))
               directPackages).


(** The packages of a list that are the first with their key, given the
    keys [seen] before the list. *)
Fixpoint firstOccurrences (seen : gset string) (packages : list NuGetPackage)
    : list NuGetPackage :=
  match packages with
  | [] => []
  | pkg :: rest =>
      if decide (packageKey pkg ∈ seen) then firstOccurrences seen rest
      else pkg :: firstOccurrences ({[ packageKey pkg ]} ∪ seen) rest
  end.

(** No two entries share an identical [(id, version)] pair. *)
Definition uniquePackages (packages : list NuGetPackage) : Prop :=
  NoDup (map (fun pkg => (id pkg, version pkg)) packages).


(** The value of a digit of base 36 and of a numeral of base 36. *)
Definition digitValue36 (c : ascii) : Z :=
  let n := Z.of_N (Js.code c) in
  if n <? 58 then n - 48 else n - 87.

Definition parse36 (s : string) : Z :=
  fold_left (fun acc c => acc * 36 + digitValue36 c) (list_ascii_of_string s) 0.

(** A digit or a small letter. *)
Definition isDigit36 (c : ascii) : bool :=
  let n := Js.code c in
  (((48 <=? n) && (n <=? 57)) || ((97 <=? n) && (n <=? 122)))%N.

(** The signed 32 bit hash that [simpleHash] prints in base 36. *)
Definition hash32 (str : string) : Z :=
  fold_left (fun hash char =>
               CacheManager.toInt32 (CacheManager.toInt32 (hash * 32) - hash +
                                     Z.of_N (Js.code char)))
            (list_ascii_of_string str) 0.

(** A cache file that the sweep of the persistent cache removes at [now]:
    one that cannot be read, does not parse to a document, or is past its
    expiry. *)
Definition staleFile `{CacheCodec} (now : Z) (node : option FsNode) : bool :=
  match node with
  | Some (File content) =>
      match JSON_parse_cache content with
      | CacheFile.Document d =>
          Date.gt (Date.ofTime now) (CacheManager.dateOfValue (CacheFile.expiresAt d))
      | _ => true
      end
  | _ => true
  end.

(** The path is that of a listed file whose name ends in ".json". *)
Definition listedJson `{Path} (cacheDir : string) (files : list string) (path : string)
    : bool :=
  existsb (fun file => Js.endsWith file ".json" &&
                       String.eqb (path_join cacheDir file) path) files.

(** The document [cacheVulnerabilityData] writes at [now]. *)
Definition writtenCacheData `{CacheCodec} (projectPath : string)
    (vulns : list VulnerabilityInfo) (now : Z) : CacheFile.Data :=
  {| CacheFile.projectPath := Js.Str projectPath;
     CacheFile.vulnerabilities := Some vulns;
     CacheFile.timestamp := Js.Str (toISOString now);
     CacheFile.expiresAt := Js.Str (toISOString (now + CacheManager.vulnerabilityTtl)) |}.

(** The polynomial hash of a string over the integers: each code unit is
    added to 31 times the hash so far. *)
Definition polyHash (str : string) : Z :=
  fold_left (fun hash char => 31 * hash + Z.of_N (Js.code char))
            (list_ascii_of_string str) 0.

(** The ranks of the severities, from the mildest. *)
Definition severityRank (s : Severity) : nat :=
  match s with
  | Low => 0
  | Moderate => 1
  | High => 2
  | Critical => 3
  end.

(** Where a link comes from: a direct package paired with a transitive
    one, or two transitive packages. *)
Definition joins (packages : list NuGetPackage) (mode : VisualizationMode)
    (l : GraphLink) : Prop :=
  exists p q,
    In p packages /\ In q packages /\ isTransitive_truthy q = true /\
    l = (if isTransitive_truthy p then NuGetDependencyProvider.transitiveLink mode p q else NuGetDependencyProvider.directLink mode p q).

(** The errors of the listing after which the manifest is read: every
    error but a toolchain error that is neither recoverable nor
    sdk-not-found. *)
Definition attemptsFallback (error : exn) : bool :=
  match error with
  | DotNetCliError e =>
      recoverable e || String.eqb (code e) DotNetCliErrorCodes.SDK_NOT_FOUND
  | _ => true
  end.
End Spec.

(* ===================================================================== *)
(** * Stub collaborators and sample data *)
(* ===================================================================== *)

(** Small implementations of the interfaces, in the manner of test doubles,
    and the sample inputs the results below are instantiated at. *)
Module Examples.

(** The executor of this repository over a child process that always
    settles the same way. *)
Definition executor (settled : CommandExecutor.ExecSettled) : ICommandExecutor :=
  {| executeCommand := CommandExecutor.executeCommand (fun _ _ _ => settled) 12 |}.

(** An executor that rejects, as the interface allows. *)
Definition rejecting_executor (error : exn) : ICommandExecutor :=
  {| executeCommand := fun _ _ _ => Throw error |}.

(** A toolchain whose output is never JSON. *)
Definition not_json : ToolchainOutput :=
  {| JSON_parse := fun _ => Cli.SyntaxError "SyntaxError: Unexpected token N in JSON at position 0";
     syntheticVulnId := fun _ => "vuln-1700000000000-k3j9x2m1q" |}.

(** A toolchain whose output parses to the given document. *)
Definition json (r : Cli.Report) : ToolchainOutput :=
  {| JSON_parse := fun _ => Cli.Document r;
     syntheticVulnId := fun _ => "vuln-1700000000000-k3j9x2m1q" |}.

Definition tableOptions (transitive : bool) : ListPackagesOptions :=
  {| includeTransitive := Some transitive; opt_framework := None;
     opt_source := None; format := Some format_table |}.

Definition tableOutput : string :=
  "Project 'App' has the following package references" +:+ String newline_char
  "   [net8.0]: " +:+ String newline_char
  "   Top-level Package      Requested   Resolved" +:+ String newline_char
  "   > Newtonsoft.Json      13.0.1      13.0.3" +:+ String newline_char
  "   Transitive Package     Resolved" +:+ String newline_char
  "   > System.Memory        4.5.5".

(** Two ways a vulnerability scan ends with exit code 1. *)
Definition scan_nothing_found : CommandExecutor.ExecSettled :=
  CommandExecutor.Rejected
    (Some "The given project `App` has no vulnerable packages given the current sources.")
    (Some "No vulnerable packages found") (Some 1) "Command failed".

Definition scan_build_failed : CommandExecutor.ExecSettled :=
  CommandExecutor.Rejected (Some "") (Some "error MSB1009: build failed")
                           (Some 1) "Command failed".

(** Paths in the POSIX manner, for a project named App. *)
Definition posix : Path :=
  {| path_basename := fun _ => "App.csproj";
     path_basename_ext := fun _ _ => "App";
     path_dirname := fun _ => "/work/App";
     path_join := fun a b => a +:+ "/" +:+ b;
     path_normalize := fun p => p |}.

Definition scanTime : Z := 1700000000000.

Definition sampleVulnerabilities : list VulnerabilityInfo :=
  [ {| packageName := "Newtonsoft.Json"; packageVersion := "12.0.1";
       info_severity := "High";
       info_title := "Improper handling of exceptional conditions";
       info_description := None;
       info_advisoryUrl := Some "https://github.com/advisories/GHSA-5crp-9r3c-p9vr" |} ].

(** The document [cacheVulnerabilityData] writes for the sample at [scanTime]. *)
Definition sampleCacheData : CacheFile.Data :=
  {| CacheFile.projectPath := Js.Str "/work/App/App.csproj";
     CacheFile.vulnerabilities := Some sampleVulnerabilities;
     CacheFile.timestamp := Js.Str "2023-11-14T22:13:20.000Z";
     CacheFile.expiresAt := Js.Str "2023-11-15T22:13:20.000Z" |}.

Definition sampleCacheText : string := "{ sample cache document }".

(** A codec that knows the sample document and the two dates in it; any
    other text does not parse. *)
Definition sampleCodec : CacheCodec :=
  {| JSON_stringify := fun _ => sampleCacheText;
     JSON_parse_cache := fun text =>
       if String.eqb text sampleCacheText then CacheFile.Document sampleCacheData
       else CacheFile.SyntaxError "SyntaxError: Unexpected token";
     toISOString := fun ms =>
       if ms =? scanTime then "2023-11-14T22:13:20.000Z"
       else "2023-11-15T22:13:20.000Z";
     Date_parse := fun text =>
       if String.eqb text "2023-11-14T22:13:20.000Z" then Some scanTime
       else if String.eqb text "2023-11-15T22:13:20.000Z"
            then Some (scanTime + 24 * 60 * 60 * 1000)
       else None |}.

Definition package (i v : string) (transitive : bool) : NuGetPackage :=
  {| id := i; version := v; resolved := Some v; dependencies := None;
     vulnerabilities := None; isTransitive := Some transitive;
     depth := Some (if transitive then 1 else 0);
     framework := Some "net8.0"; source := None;
     isDevelopmentDependency := None |}.

Definition vulnerability (i : string) (s : Severity) : Vulnerability :=
  {| vuln_id := i; severity := s; title := "Unknown vulnerability";
     description := None; advisoryUrl := Some i; cve := Some [];
     publishedDate := None; lastModified := None |}.

Definition advisoryA : Vulnerability := vulnerability "GHSA-aaaa" High.
Definition advisoryB : Vulnerability := vulnerability "GHSA-bbbb" Low.

Definition json130 : NuGetPackage := package "Newtonsoft.Json" "13.0.1" false.
Definition serilog : NuGetPackage := package "Serilog" "3.1.1" false.

(** A manifest with the two package references of the end-to-end scenario. *)
Definition manifestXml : Xml.Document :=
  {| Xml.root := Some
       {| Xml.attrs := Some {| Xml.Sdk := Some "Microsoft.NET.Sdk";
                               Xml.xmlns := None; Xml.xmlns_xsi := None |};
          Xml.ItemGroups :=
            [ {| Xml.PackageReferences :=
                   [ {| Xml.Include := Some "Foo.Bar"; Xml.Version := Some "1.0.0";
                        Xml.VersionElement := None |};
                     {| Xml.Include := Some "Foo.Baz"; Xml.Version := Some "2.0.0";
                        Xml.VersionElement := None |} ];
                 Xml.References := [] |} ] |} |}.

Definition net8Validation : ProjectValidationResult :=
  {| isValid := true; errors := []; warnings := [];
     projectType := dotnet_5plus; frameworks := ["net8.0"] |}.

(** A readable project file that parses to the given document. *)
Definition projectFiles (doc : Xml.Document) : ProjectFiles :=
  {| validateFileAccessWithDetails := fun _ => Return tt;
     readProjectFileWithValidation := fun _ => Return "<Project Sdk='Microsoft.NET.Sdk'>";
     parseXmlWithErrorHandling := fun _ _ => Return doc;
     validateProjectFile := fun _ => net8Validation;
     parsePackagesConfig := fun _ => Return [];
     packagesMatch := fun _ => None;
     versionMatch := fun _ => None |}.

Definition offline_scanner : IVulnerabilityScanner :=
  {| scanProject := fun _ => Throw (PlainError "Error" "offline") |}.

Definition host : ProviderHost :=
  {| validateProject := fun _ => net8Validation; clock := scanTime;
     overlappingWrite := None |}.

(** The same host while another command runs on the provider: a run whose
    listing succeeded finishes its resolution between the write and the read
    of the field. *)
Definition busy_host : ProviderHost :=
  {| validateProject := fun _ => net8Validation; clock := scanTime;
     overlappingWrite := Some toolchain_strategy |}.

(** A listing that exits with code 0 and prints a warning instead of JSON. *)
Definition listingWarns : CommandExecutor.ExecSettled :=
  CommandExecutor.Resolved "warn : The package source was not found." "".

(** The machine has no toolchain: the executor rejects. *)
Definition no_toolchain : ICommandExecutor :=
  rejecting_executor (PlainError "Error" "spawn dotnet ENOENT").

(** The toolchain does not find the project. *)
Definition project_missing : CommandExecutor.ExecSettled :=
  CommandExecutor.Rejected (Some "")
    (Some "MSBUILD : error MSB1009: Project file does not exist.") (Some 1)
    "Command failed: dotnet list App.csproj package --format json".

(** The listing of a project that targets two frameworks with the same
    package reference: [dotnet list package] reports it once per framework. *)
Definition jsonEntry : Cli.Package :=
  {| Cli.pkg_id := Some "Newtonsoft.Json";
     Cli.requestedVersion := Some "13.0.1";
     Cli.resolvedVersion := Some "13.0.1";
     Cli.isTransitive := None;
     Cli.vulnerabilities := None |}.

Definition frameworkEntry (moniker : string) : Cli.Framework :=
  {| Cli.framework := Some moniker;
     Cli.topLevelPackages := Some [jsonEntry];
     Cli.transitivePackages := None;
     Cli.vulnerablePackages := None |}.

Definition multiTargetReport : Cli.Report :=
  {| Cli.projects :=
       Some [ {| Cli.frameworks := Some [frameworkEntry "net6.0"; frameworkEntry "net8.0"] |} ] |}.

Definition listingSucceeds : CommandExecutor.ExecSettled :=
  CommandExecutor.Resolved "{ listing of the two frameworks }" "".

Definition alpha : NuGetPackage := package "Alpha.Core" "1.0.0" false.
Definition beta : NuGetPackage := package "Beta.Tools" "2.0.0" false.
Definition zeta : NuGetPackage := package "Zeta.Lib" "0.9.0" true.
Definition theta : NuGetPackage := package "Theta.Net" "4.2.0" true.

(** The same package reported vulnerable under two frameworks. *)
Definition json130_net6 : NuGetPackage := withVulnerabilities json130 (Some [advisoryA]).
Definition json130_net8 : NuGetPackage := withVulnerabilities json130 (Some [advisoryB]).

(** A vulnerability report with one package per severity spelling. *)
Definition reportedVulnerability (sev : string) (url : string) : option Cli.Vulnerability :=
  Some {| Cli.severity := Js.Str sev;
          Cli.id := None;
          Cli.title := Some "Denial of service";
          Cli.description := None;
          Cli.advisoryUrl := Some url;
          Cli.cve := Cli.CveArray [Js.Str " CVE-2024-0001 "];
          Cli.publishedDate := None;
          Cli.lastModified := None |}.

Definition vulnerableEntry (i sev url : string) : Cli.Package :=
  {| Cli.pkg_id := Some i;
     Cli.requestedVersion := None;
     Cli.resolvedVersion := Some "1.0.0";
     Cli.isTransitive := None;
     Cli.vulnerabilities := Some [reportedVulnerability sev url] |}.

Definition vulnerabilityReport : Cli.Report :=
  {| Cli.projects :=
       Some [ {| Cli.frameworks :=
                   Some [ {| Cli.framework := Some "net8.0";
                             Cli.topLevelPackages := None;
                             Cli.transitivePackages := None;
                             Cli.vulnerablePackages :=
                               Some [ vulnerableEntry "Foo.Bar" "critical" "GHSA-1";
                                      vulnerableEntry "Foo.Baz" "Medium" "GHSA-2" ] |} ] |} ] |}.

End Examples.

(* ===================================================================== *)
(** * Properties *)
(* ===================================================================== *)

(** From here on the file holds lemmas only: the properties of the model
    above, one module per component. *)

(* ===================================================================== *)
(** * Severity normalization *)
(* ===================================================================== *)

Module SeverityFacts.
Import DotNetCliService.

Lemma truthy_toLowerCase (s : string) :
  Js.truthy (Js.toLowerCase s) = Js.truthy s.
Proof. destruct s; reflexivity. Qed.

(** The result on a string is a function of its lower-cased form alone. *)
Lemma normalizeSeverity_lower (s : string) :
  normalizeSeverity (Js.Str s) = normalizeSeverity (Js.Str (Js.toLowerCase s)).
Proof.
  assert (Hidem : forall c, Js.lower_char (Js.lower_char c) = Js.lower_char c).
  { intros c. destruct c as [[] [] [] [] [] [] [] []]; reflexivity. }
  assert (Hidem' : forall t, Js.toLowerCase (Js.toLowerCase t) = Js.toLowerCase t).
  { induction t as [|c t IH]; simpl; [reflexivity|]. now rewrite Hidem, IH. }
  unfold normalizeSeverity. rewrite truthy_toLowerCase, Hidem'. reflexivity.
Qed.

Lemma normalizeSeverity_of_lower (s w : string) (sev : Severity) :
  Js.toLowerCase s = w ->
  normalizeSeverity (Js.Str w) = sev ->
  normalizeSeverity (Js.Str s) = sev.
Proof.
  intros Hl Hw. rewrite normalizeSeverity_lower, Hl. exact Hw.
Qed.

(** C5. Severity normalization is a total function that never throws: it
    is case-insensitive (two strings with the same lower-cased form get the
    same severity); every casing of "critical", "high", "moderate" and "low"
    gives the severity of that name and every casing of "medium" gives
    Moderate; a string whose trimmed lower-cased form is none of these
    words, the empty string and every value that is not a string give Low. *)
Theorem normalizeSeverity_spec :
  (forall s1 s2 : string,
      Js.toLowerCase s1 = Js.toLowerCase s2 ->
      normalizeSeverity (Js.Str s1) = normalizeSeverity (Js.Str s2)) /\
  (forall s : string,
      (Js.toLowerCase s = "critical" -> normalizeSeverity (Js.Str s) = Critical) /\
      (Js.toLowerCase s = "high" -> normalizeSeverity (Js.Str s) = High) /\
      (Js.toLowerCase s = "moderate" -> normalizeSeverity (Js.Str s) = Moderate) /\
      (Js.toLowerCase s = "medium" -> normalizeSeverity (Js.Str s) = Moderate) /\
      (Js.toLowerCase s = "low" -> normalizeSeverity (Js.Str s) = Low)) /\
  (forall s : string,
      Js.trim (Js.toLowerCase s) <> "critical" ->
      Js.trim (Js.toLowerCase s) <> "high" ->
      Js.trim (Js.toLowerCase s) <> "moderate" ->
      Js.trim (Js.toLowerCase s) <> "medium" ->
      normalizeSeverity (Js.Str s) = Low) /\
  normalizeSeverity (Js.Str "") = Low /\
  (forall v : Js.value, (forall s, v <> Js.Str s) -> normalizeSeverity v = Low).
Proof.
  split; [|split; [|split; [|split]]].
  - intros s1 s2 Heq.
    rewrite (normalizeSeverity_lower s1), (normalizeSeverity_lower s2), Heq.
    reflexivity.
  - intros s. repeat split; intros Hl;
      apply (normalizeSeverity_of_lower _ _ _ Hl); reflexivity.
  - intros s Hc Hh Hmo Hme. unfold normalizeSeverity.
    destruct (negb (Js.truthy s)); [reflexivity|].
    apply String.eqb_neq in Hc, Hh, Hmo, Hme.
    rewrite Hc, Hh, Hmo, Hme.
    destruct (String.eqb _ "low"); reflexivity.
  - reflexivity.
  - intros v Hv. destruct v; try reflexivity. now destruct (Hv s).
Qed.

(** The instance of the specification's example: "HIGH" and "high" both
    give High, "MeDiUm" gives Moderate, an unknown word gives Low. *)
Lemma normalizeSeverity_spec_witness :
  normalizeSeverity (Js.Str "HIGH") = normalizeSeverity (Js.Str "high") /\
  normalizeSeverity (Js.Str "HIGH") = High /\
  normalizeSeverity (Js.Str "MeDiUm") = Moderate /\
  normalizeSeverity (Js.Str "severe") = Low /\
  normalizeSeverity (Js.Number 7) = Low.
Proof.
  destruct normalizeSeverity_spec as (Hci & Hwords & Hother & _ & Hnonstr).
  split; [apply Hci; reflexivity|].
  split; [apply (Hwords "HIGH"); reflexivity|].
  split; [apply (Hwords "MeDiUm"); reflexivity|].
  split; [apply Hother; vm_compute; discriminate|].
  apply Hnonstr; intros s; discriminate.
Defined.

End SeverityFacts.

(* ===================================================================== *)
(** * The tabular parser *)
(* ===================================================================== *)

Module TableFacts.
Import DotNetCliService.

Lemma fold_left_push {A B : Type} (f : A -> list B) (l : list A) (init : list B) :
  fold_left (fun acc x => acc ++ f x) l init = init ++ flat_map f l.
Proof.
  revert init. induction l as [|x l IH]; intros init; simpl.
  - now rewrite app_nil_r.
  - rewrite IH. now rewrite <- app_assoc.
Qed.

Lemma parseTableOutput_flat_map (output : string) :
  parseTableOutput output = flat_map parseTableLine (Js.split newline_char output).
Proof. unfold parseTableOutput. now rewrite fold_left_push. Qed.

Lemma parseTableLine_direct (line : string) (pkg : NuGetPackage) :
  In pkg (parseTableLine line) ->
  Js.startsWith (Js.trim line) ">" = true /\
  isTransitive pkg = Some false /\ depth pkg = Some 0.
Proof.
  unfold parseTableLine.
  destruct (Js.startsWith (Js.trim line) ">") eqn:Hstart; [|intros []].
  destruct (Js.splitWs _) as [|p0 [|p1 rest]]; try (intros []).
  destruct (Js.truthy p0 && Js.truthy p1); [|intros []].
  intros [<-|[]]. auto.
Qed.

Lemma parseTableOutput_direct (output : string) (pkg : NuGetPackage) :
  In pkg (parseTableOutput output) ->
  isTransitive pkg = Some false /\ depth pkg = Some 0 /\
  exists line, In line (Js.split newline_char output) /\
               Js.startsWith (Js.trim line) ">" = true /\
               In pkg (parseTableLine line).
Proof.
  rewrite parseTableOutput_flat_map, in_flat_map.
  intros (line & Hline & Hpkg).
  destruct (parseTableLine_direct _ _ Hpkg) as (Hs & Ht & Hd).
  repeat split; try assumption. exists line. auto.
Qed.

(** C10. Every package the tabular parser produces is direct
    ([isTransitive = false], [depth = 0]) and comes from a line whose
    trimmed text begins with '>'; and whenever [listPackages] is run with a
    format other than JSON and returns, whatever [includeTransitive] was,
    every package of the list is direct. *)
Theorem tabular_output_is_direct_only :
  (forall (output : string) (pkg : NuGetPackage),
      In pkg (parseTableOutput output) ->
      isTransitive pkg = Some false /\ depth pkg = Some 0 /\
      exists line, In line (Js.split newline_char output) /\
                   Js.startsWith (Js.trim line) ">" = true /\
                   In pkg (parseTableLine line)) /\
  (forall (E : ICommandExecutor) (T : ToolchainOutput)
          (projectPath : string) (options : ListPackagesOptions)
          (packages : list NuGetPackage),
      format options <> Some format_json ->
      listPackages projectPath options = Return packages ->
      forall pkg, In pkg packages ->
                  isTransitive pkg = Some false /\ depth pkg = Some 0).
Proof.
  split; [exact parseTableOutput_direct|].
  intros E T projectPath options packages Hfmt Hret pkg Hin.
  unfold listPackages in Hret.
  destruct (negb (Js.truthy projectPath)); [discriminate|].
  destruct (executeCommand _ _ _) as [result|error].
  - destruct (negb (exitCode result =? 0)); [discriminate|].
    destruct (format options) as [[]|]; try congruence;
      injection Hret as <-;
      destruct (parseTableOutput_direct _ _ Hin) as (? & ? & _); auto.
  - destruct error; try discriminate;
      repeat match type of Hret with
             | (if ?c then _ else _) = _ => destruct c
             end; discriminate.
Qed.

(** On the sample listing, run with and without [--include-transitive], the
    parser finds the two marked lines and reports both packages as direct. *)
Lemma tabular_output_is_direct_only_witness :
  let E := Examples.executor (CommandExecutor.Resolved Examples.tableOutput "") in
  let T := Examples.not_json in
  map id (parseTableOutput Examples.tableOutput) = ["Newtonsoft.Json"; "System.Memory"] /\
  (forall pkg, In pkg (parseTableOutput Examples.tableOutput) ->
               isTransitive pkg = Some false /\ depth pkg = Some 0) /\
  listPackages "App.csproj" (Examples.tableOptions true)
    = Return (parseTableOutput Examples.tableOutput) /\
  (forall pkg, In pkg (parseTableOutput Examples.tableOutput) ->
               isTransitive pkg = Some false /\ depth pkg = Some 0).
Proof.
  intros E T.
  destruct tabular_output_is_direct_only as (Hparse & Hlist).
  split; [reflexivity|].
  split; [intros pkg Hin; destruct (Hparse _ _ Hin) as (? & ? & _); auto|].
  split; [reflexivity|].
  apply (Hlist E T "App.csproj" (Examples.tableOptions true)).
  - discriminate.
  - reflexivity.
Defined.

End TableFacts.

(* ===================================================================== *)
(** * The vulnerability scan: nothing found against scan failed *)
(* ===================================================================== *)

Module ScanFacts.
Import DotNetCliService DotNetCliErrorCodes.

Lemma listVulnerablePackages_nonzero `{ICommandExecutor} `{ToolchainOutput}
    (projectPath : string) (options : CommandExecutionOptions) (result : CommandResult) :
  Js.truthy projectPath = true ->
  executeCommand "dotnet" (scanArgs projectPath) (scanExecOptions options) = Return result ->
  exitCode result <> 0 ->
  listVulnerablePackages projectPath options =
  handleVulnerabilityScanError result projectPath.
Proof.
  intros Hpath Hexec Hexit. unfold listVulnerablePackages.
  rewrite Hpath. simpl negb. cbv iota.
  rewrite Hexec.
  apply Z.eqb_neq in Hexit. rewrite Hexit. simpl negb. cbv iota.
  unfold handleVulnerabilityScanError.
  repeat match goal with
         | |- context [if ?c then _ else _] => destruct c
         end; reflexivity.
Qed.

(** C4. When the vulnerability scan exits with a non-zero code:
    if its combined output (stderr, a space, stdout, lower-cased) contains
    "no vulnerable packages found", "no vulnerabilities found" or "no
    packages with known vulnerabilities", [listVulnerablePackages] returns
    the empty list; otherwise it throws a [DotNetCliError] whose code is one
    of project-not-found, network-error, permission-denied and
    vulnerability-scan-failed, and so never returns a list. *)
Theorem scan_failure_is_never_an_empty_result
    (E : ICommandExecutor) (T : ToolchainOutput)
    (projectPath : string) (options : CommandExecutionOptions) (result : CommandResult) :
  Js.truthy projectPath = true ->
  executeCommand "dotnet" (scanArgs projectPath) (scanExecOptions options) = Return result ->
  exitCode result <> 0 ->
  let nothingFound :=
    Js.includes (combinedOutput result) "no vulnerable packages found" ||
    Js.includes (combinedOutput result) "no vulnerabilities found" ||
    Js.includes (combinedOutput result) "no packages with known vulnerabilities" in
  (nothingFound = true -> listVulnerablePackages projectPath options = Return []) /\
  (nothingFound = false ->
   exists e : ExtensionError,
     listVulnerablePackages projectPath options = Throw (DotNetCliError e) /\
     In (code e) [PROJECT_NOT_FOUND; NETWORK_ERROR; PERMISSION_DENIED;
                  VULNERABILITY_SCAN_FAILED]).
Proof.
  intros Hpath Hexec Hexit nothingFound.
  rewrite (listVulnerablePackages_nonzero _ _ _ Hpath Hexec Hexit).
  unfold handleVulnerabilityScanError. fold nothingFound.
  split; intros Hnf; rewrite Hnf.
  - reflexivity.
  - repeat match goal with
           | |- context [if ?c then _ else _] => destruct c
           end; eexists; (split; [reflexivity|]); simpl; auto.
Qed.

(** A scan that exits with code 1 after printing that nothing was found
    gives the empty list; one that exits with code 1 on a build failure
    throws vulnerability-scan-failed. *)
Lemma scan_failure_is_never_an_empty_result_witness :
  @listVulnerablePackages (Examples.executor Examples.scan_nothing_found)
     Examples.not_json "App.csproj" noOptions = Return [] /\
  exists e,
    @listVulnerablePackages (Examples.executor Examples.scan_build_failed)
       Examples.not_json "App.csproj" noOptions = Throw (DotNetCliError e) /\
    In (code e) [PROJECT_NOT_FOUND; NETWORK_ERROR; PERMISSION_DENIED;
                 VULNERABILITY_SCAN_FAILED].
Proof.
  split.
  - refine (proj1 (scan_failure_is_never_an_empty_result
                     (Examples.executor Examples.scan_nothing_found)
                     Examples.not_json "App.csproj" noOptions _
                     eq_refl eq_refl _) eq_refl).
    simpl. discriminate.
  - refine (proj2 (scan_failure_is_never_an_empty_result
                     (Examples.executor Examples.scan_build_failed)
                     Examples.not_json "App.csproj" noOptions _
                     eq_refl eq_refl _) eq_refl).
    simpl. discriminate.
Defined.

End ScanFacts.

(* ===================================================================== *)
(** * The in-memory cache *)
(* ===================================================================== *)

Module CacheFacts.
Import CacheManager.

Lemma ofTime_valid (ms : Z) : Date.validTime ms -> Date.ofTime ms = Some ms.
Proof.
  unfold Date.validTime, Date.ofTime. intros H.
  destruct (Z.leb_spec (Z.abs ms) Date.maxTime); [reflexivity|lia].
Qed.

Lemma gt_ofTime_false (a b : Z) : a <= b -> Date.gt (Date.ofTime a) (Date.ofTime b) = false.
Proof.
  intros Hle. unfold Date.gt, Date.ofTime.
  destruct (Z.abs a <=? Date.maxTime); [|reflexivity].
  destruct (Z.abs b <=? Date.maxTime); [|reflexivity].
  apply Z.ltb_ge. exact Hle.
Qed.

Section InMemory.
Context {T : Type}.
Implicit Types (cache : gmap string (CacheEntry T)) (k : string) (v : T).

Lemma get_set_live cache k v ttl now later :
  later <= now + default defaultTtl ttl ->
  get (set cache now k v ttl) later k = (Some v, set cache now k v ttl).
Proof.
  intros Hle. unfold get, set. rewrite lookup_insert_eq. simpl.
  now rewrite gt_ofTime_false.
Qed.

Lemma get_set_expired cache k v ttl now later :
  Date.validTime now -> Date.validTime later ->
  0 <= default defaultTtl ttl ->
  now + default defaultTtl ttl < later ->
  get (set cache now k v ttl) later k = (None, delete k cache).
Proof.
  intros Hnow Hlater Hpos Hlt. unfold get, set. rewrite lookup_insert_eq. simpl.
  rewrite (ofTime_valid later Hlater).
  rewrite (ofTime_valid (now + default defaultTtl ttl)).
  - simpl. destruct (Z.ltb_spec (now + default defaultTtl ttl) later); [|lia].
    now rewrite delete_insert_eq.
  - unfold Date.validTime in *. lia.
Qed.

Lemma has_deleted cache k now : has (delete k cache) now k = (false, delete k cache).
Proof. unfold has. now rewrite lookup_delete_eq. Qed.

End InMemory.

(** C8. For every key, value and time to live [t >= 0] (the default of 30
    minutes when none is given): [get] right after [set] returns the value,
    as does any [get] no later than [t] after the [set]; a [get] more than
    [t] after the [set] returns null and removes the entry, so that every
    later [has] returns false. *)
Theorem cache_roundtrip_and_expiry {T : Type}
    (cache : gmap string (CacheEntry T)) (k : string) (v : T) (ttl : option Z)
    (now later : Z) :
  Date.validTime now -> Date.validTime later ->
  0 <= default defaultTtl ttl ->
  let t := default defaultTtl ttl in
  let cache1 := set cache now k v ttl in
  get cache1 now k = (Some v, cache1) /\
  (later <= now + t -> get cache1 later k = (Some v, cache1)) /\
  (now + t < later ->
   (get cache1 later k).1 = None /\
   forall after : Z, (has (get cache1 later k).2 after k).1 = false).
Proof.
  intros Hnow Hlater Hpos t cache1. subst t cache1.
  split; [apply get_set_live; lia|].
  split; [apply get_set_live|].
  intros Hlt. rewrite (get_set_expired _ _ _ _ _ _ Hnow Hlater Hpos Hlt).
  split; [reflexivity|].
  intros after. simpl. now rewrite has_deleted.
Qed.

(** An entry stored at 5000 ms for 1000 ms: read back at once and at 6000 ms,
    gone at 6001 ms and in every later [has]. *)
Lemma cache_roundtrip_and_expiry_witness :
  let cache1 := set (∅ : gmap string (CacheEntry nat)) 5000 "deps" 42%nat (Some 1000) in
  get cache1 5000 "deps" = (Some 42%nat, cache1) /\
  get cache1 6000 "deps" = (Some 42%nat, cache1) /\
  (get cache1 6001 "deps").1 = None /\
  (has (get cache1 6001 "deps").2 6002 "deps").1 = false.
Proof.
  intros cache1.
  assert (Hv : forall z, Z.abs z <= 10000 -> Date.validTime z)
    by (unfold Date.validTime, Date.maxTime; lia).
  assert (Hpos : 0 <= default defaultTtl (Some 1000)) by (simpl; lia).
  pose proof (cache_roundtrip_and_expiry ∅ "deps" 42%nat (Some 1000) 5000 6000
                (Hv 5000 ltac:(lia)) (Hv 6000 ltac:(lia)) Hpos) as (Hnow & Hlive & _).
  pose proof (cache_roundtrip_and_expiry ∅ "deps" 42%nat (Some 1000) 5000 6001
                (Hv 5000 ltac:(lia)) (Hv 6001 ltac:(lia)) Hpos) as (_ & _ & Hexp).
  destruct Hexp as [Hnone Hhas]; [simpl; lia|].
  split; [exact Hnow|].
  split; [apply Hlive; simpl; lia|].
  split; [exact Hnone | exact (Hhas 6002)].
Defined.

End CacheFacts.

(* ===================================================================== *)
(** * The persistent vulnerability cache *)
(* ===================================================================== *)

Module PersistentCacheFacts.
Import CacheManager.

Section Persistent.
Context `{Path} `{CacheCodec}.
Implicit Types (fs : gmap string FsNode) (cacheDir projectPath : string).

(** The document written at [now]. *)
Lemma cacheVulnerabilityData_writes cacheDir fs now projectPath vulns :
  Date.validTime now -> Date.validTime (now + vulnerabilityTtl) ->
  fs !! cacheFileOf cacheDir projectPath <> Some Unreadable ->
  cacheVulnerabilityData cacheDir fs now projectPath vulns =
  <[ cacheFileOf cacheDir projectPath :=
       File (JSON_stringify
               {| CacheFile.projectPath := Js.Str projectPath;
                  CacheFile.vulnerabilities := Some vulns;
                  CacheFile.timestamp := Js.Str (toISOString now);
                  CacheFile.expiresAt := Js.Str (toISOString (now + vulnerabilityTtl)) |}) ]> fs.
Proof.
  intros Hnow Hexp Hnode. unfold cacheVulnerabilityData.
  rewrite (CacheFacts.ofTime_valid _ Hnow), (CacheFacts.ofTime_valid _ Hexp).
  simpl. unfold Fs.writeFile.
  destruct (fs !! cacheFileOf cacheDir projectPath) as [[content|]|]; congruence.
Qed.

Lemma getCached_document cacheDir fs later projectPath content d :
  fs !! cacheFileOf cacheDir projectPath = Some (File content) ->
  JSON_parse_cache content = CacheFile.Document d ->
  getCachedVulnerabilityData cacheDir fs later projectPath =
  if Date.gt (Date.ofTime later) (dateOfValue (CacheFile.expiresAt d))
  then (NoCache, delete (cacheFileOf cacheDir projectPath) fs)
  else (Stored (CacheFile.vulnerabilities d), fs).
Proof.
  intros Hfile Hparse. unfold getCachedVulnerabilityData, Fs.existsSync, Fs.readFile.
  rewrite Hfile. rewrite bool_decide_eq_true_2 by eauto. simpl. rewrite Hparse.
  unfold Fs.unlink_quiet. now destruct (Date.gt _ _).
Qed.

Lemma getCached_missing cacheDir fs later projectPath :
  fs !! cacheFileOf cacheDir projectPath = None ->
  getCachedVulnerabilityData cacheDir fs later projectPath = (NoCache, fs).
Proof.
  intros Hnone. unfold getCachedVulnerabilityData, Fs.existsSync.
  rewrite Hnone. rewrite bool_decide_eq_false_2; [reflexivity|].
  intros [x Hx]. discriminate.
Qed.

Lemma getCached_unreadable cacheDir fs later projectPath :
  fs !! cacheFileOf cacheDir projectPath = Some Unreadable ->
  getCachedVulnerabilityData cacheDir fs later projectPath = (NoCache, fs).
Proof.
  intros Hnode. unfold getCachedVulnerabilityData, Fs.existsSync, Fs.readFile.
  rewrite Hnode. rewrite bool_decide_eq_true_2 by eauto. reflexivity.
Qed.

Lemma getCached_unparseable cacheDir fs later projectPath content rendered :
  fs !! cacheFileOf cacheDir projectPath = Some (File content) ->
  JSON_parse_cache content = CacheFile.SyntaxError rendered ->
  getCachedVulnerabilityData cacheDir fs later projectPath = (NoCache, fs).
Proof.
  intros Hfile Hparse. unfold getCachedVulnerabilityData, Fs.existsSync, Fs.readFile.
  rewrite Hfile. rewrite bool_decide_eq_true_2 by eauto. simpl.
  now rewrite Hparse.
Qed.

Lemma getCached_null cacheDir fs later projectPath content :
  fs !! cacheFileOf cacheDir projectPath = Some (File content) ->
  JSON_parse_cache content = CacheFile.JsonNull ->
  getCachedVulnerabilityData cacheDir fs later projectPath = (NoCache, fs).
Proof.
  intros Hfile Hparse. unfold getCachedVulnerabilityData, Fs.existsSync, Fs.readFile.
  rewrite Hfile. rewrite bool_decide_eq_true_2 by eauto. simpl.
  now rewrite Hparse.
Qed.

End Persistent.

(** C9. The persistent vulnerability cache. Writing a list at [now] (the
    cache file can be written, and the document and its expiry date read
    back as they were written) and reading at a time [later]:
    up to 24 hours after [now] the read returns the list written and leaves
    the disk alone; after that it returns null and deletes the file. Reading
    when the file is missing, cannot be read, does not parse or holds the
    JSON value null returns null and leaves the disk alone. The read is a total function: it returns in
    every case and raises nothing. *)
Theorem persistent_cache_roundtrip (P : Path) (C : CacheCodec)
    (cacheDir projectPath : string) (fs : gmap string FsNode)
    (vulns : list VulnerabilityInfo) (now later : Z) :
  Date.validTime now -> Date.validTime (now + vulnerabilityTtl) ->
  Date.validTime later ->
  fs !! cacheFileOf cacheDir projectPath <> Some Unreadable ->
  JSON_parse_cache
    (JSON_stringify
       {| CacheFile.projectPath := Js.Str projectPath;
          CacheFile.vulnerabilities := Some vulns;
          CacheFile.timestamp := Js.Str (toISOString now);
          CacheFile.expiresAt := Js.Str (toISOString (now + vulnerabilityTtl)) |})
  = CacheFile.Document
       {| CacheFile.projectPath := Js.Str projectPath;
          CacheFile.vulnerabilities := Some vulns;
          CacheFile.timestamp := Js.Str (toISOString now);
          CacheFile.expiresAt := Js.Str (toISOString (now + vulnerabilityTtl)) |} ->
  Date_parse (toISOString (now + vulnerabilityTtl)) = Some (now + vulnerabilityTtl) ->
  let file := cacheFileOf cacheDir projectPath in
  let fs1 := cacheVulnerabilityData cacheDir fs now projectPath vulns in
  (later <= now + 24 * 60 * 60 * 1000 ->
   getCachedVulnerabilityData cacheDir fs1 later projectPath
   = (Stored (Some vulns), fs1)) /\
  (now + 24 * 60 * 60 * 1000 < later ->
   getCachedVulnerabilityData cacheDir fs1 later projectPath
   = (NoCache, delete file fs1)) /\
  (forall fs0 : gmap string FsNode,
      fs0 !! file = None \/ fs0 !! file = Some Unreadable \/
      (exists content,
          fs0 !! file = Some (File content) /\
          ((exists rendered, JSON_parse_cache content = CacheFile.SyntaxError rendered) \/
           JSON_parse_cache content = CacheFile.JsonNull)) ->
      getCachedVulnerabilityData cacheDir fs0 later projectPath = (NoCache, fs0)).
Proof.
  intros Hnow Hexp Hlater Hnode Hcodec Hdate file fs1.
  assert (Hfs1 : fs1 !! file = Some (File (JSON_stringify
            {| CacheFile.projectPath := Js.Str projectPath;
               CacheFile.vulnerabilities := Some vulns;
               CacheFile.timestamp := Js.Str (toISOString now);
               CacheFile.expiresAt := Js.Str (toISOString (now + vulnerabilityTtl)) |}))).
  { subst fs1 file. rewrite cacheVulnerabilityData_writes by assumption.
    apply lookup_insert_eq. }
  pose proof (getCached_document cacheDir fs1 later projectPath _ _ Hfs1 Hcodec) as Hget.
  simpl in Hget. rewrite Hdate, (CacheFacts.ofTime_valid _ Hlater) in Hget.
  simpl in Hget. change (24 * 60 * 60 * 1000) with vulnerabilityTtl.
  split; [|split].
  - intros Hle. rewrite Hget.
    destruct (Z.ltb_spec (now + vulnerabilityTtl) later); [lia|reflexivity].
  - intros Hlt. rewrite Hget.
    destruct (Z.ltb_spec (now + vulnerabilityTtl) later); [reflexivity|lia].
  - intros fs0 [Hmissing|[Hunreadable|(content & Hfile & [[rendered Hparse]|Hnull])]].
    + now apply getCached_missing.
    + now apply getCached_unreadable.
    + eapply getCached_unparseable; eassumption.
    + eapply getCached_null; eassumption.
Qed.

(** The sample list written at [Examples.scanTime] into an empty cache
    directory: read back one hour later, gone one millisecond after the 24
    hours; a file of garbage reads as no cache. *)
Lemma persistent_cache_roundtrip_witness :
  let P := Examples.posix in
  let C := Examples.sampleCodec in
  let now := Examples.scanTime in
  let file := cacheFileOf "/cache" "/work/App/App.csproj" in
  let fs1 := cacheVulnerabilityData "/cache" ∅ now "/work/App/App.csproj"
               Examples.sampleVulnerabilities in
  getCachedVulnerabilityData "/cache" fs1 (now + 3600000) "/work/App/App.csproj"
  = (Stored (Some Examples.sampleVulnerabilities), fs1) /\
  getCachedVulnerabilityData "/cache" fs1 (now + 86400001) "/work/App/App.csproj"
  = (NoCache, delete file fs1) /\
  getCachedVulnerabilityData "/cache" {[ file := File "not json" ]} (now + 5)
    "/work/App/App.csproj"
  = (NoCache, {[ file := File "not json" ]}).
Proof.
  intros P C now file fs1.
  assert (Hv : forall z, Z.abs z <= 1800000000000 -> Date.validTime z)
    by (unfold Date.validTime, Date.maxTime; lia).
  assert (Hnow : Date.validTime now) by (apply Hv; vm_compute; discriminate).
  assert (Hexp : Date.validTime (now + vulnerabilityTtl))
    by (apply Hv; vm_compute; discriminate).
  assert (Hnode : (∅ : gmap string FsNode) !! file <> Some Unreadable)
    by (rewrite lookup_empty; discriminate).
  pose proof (fun later Hl =>
    persistent_cache_roundtrip P C "/cache" "/work/App/App.csproj" ∅
      Examples.sampleVulnerabilities now later Hnow Hexp Hl Hnode
      eq_refl eq_refl) as Hthm.
  split; [|split].
  - apply (Hthm (now + 3600000)); [apply Hv|]; vm_compute; discriminate.
  - apply (Hthm (now + 86400001)); [apply Hv; vm_compute; discriminate|].
    vm_compute; reflexivity.
  - apply (Hthm (now + 5)); [apply Hv; vm_compute; discriminate|].
    right; right. exists "not json".
    split; [apply lookup_singleton_eq | left; eexists; reflexivity].
Defined.

End PersistentCacheFacts.

(* ===================================================================== *)
(** * The vulnerability merge *)
(* ===================================================================== *)

Module MergeFacts.
Import NuGetDependencyProvider Spec.

Lemma assignVulnerabilities_lookup (pid : string) (vulns : list Vulnerability)
    (packages : list NuGetPackage) (i : nat) (p : NuGetPackage) :
  packages !! i = Some p ->
  assignVulnerabilities pid vulns packages !! i =
  Some (if String.eqb (id p) pid && firstWithId packages i pid
        then withVulnerabilities p (Some vulns) else p).
Proof.
  revert i. induction packages as [|p0 rest IH]; intros i Hi; [discriminate|].
  destruct i as [|i]; simpl in Hi.
  - injection Hi as ->. unfold firstWithId. simpl.
    rewrite andb_true_r. now destruct (String.eqb (id p) pid).
  - unfold firstWithId in *. simpl.
    destruct (String.eqb (id p0) pid) eqn:Hp0; simpl.
    + now rewrite andb_false_r.
    + now apply IH.
Qed.

Lemma assignVulnerabilities_ids (pid : string) (vulns : list Vulnerability)
    (packages : list NuGetPackage) :
  map id (assignVulnerabilities pid vulns packages) = map id packages.
Proof.
  induction packages as [|p0 rest IH]; [reflexivity|]. simpl.
  destruct (String.eqb (id p0) pid); simpl; [reflexivity|]. now rewrite IH.
Qed.

Lemma mergeVulnerabilityData_ids (packages vulnerable : list NuGetPackage) :
  map id (mergeVulnerabilityData packages vulnerable) = map id packages.
Proof.
  unfold mergeVulnerabilityData. revert packages.
  induction vulnerable as [|v vl IH]; intros packages; [reflexivity|]. simpl.
  rewrite IH. destruct (vulnerabilities v); [|reflexivity].
  apply assignVulnerabilities_ids.
Qed.

Lemma firstWithId_ids (l1 l2 : list NuGetPackage) (i : nat) (pid : string) :
  map id l1 = map id l2 -> firstWithId l1 i pid = firstWithId l2 i pid.
Proof.
  unfold firstWithId. revert l2 i.
  induction l1 as [|a l1 IH]; intros [|b l2] i Hids; try discriminate; [reflexivity|].
  injection Hids as Hab Hrest. destruct i as [|i]; [reflexivity|]. simpl.
  rewrite Hab. f_equal. now apply IH.
Qed.

Lemma assignedVulnerabilities_snoc (pid : string) (vl : list NuGetPackage)
    (v : NuGetPackage) :
  assignedVulnerabilities pid (vl ++ [v]) =
  match (if String.eqb (id v) pid then vulnerabilities v else None) with
  | Some vulns => Some vulns
  | None => assignedVulnerabilities pid vl
  end.
Proof.
  unfold assignedVulnerabilities. rewrite omap_app. simpl.
  destruct (if String.eqb (id v) pid then vulnerabilities v else None) as [vulns|].
  - apply last_snoc.
  - now rewrite app_nil_r.
Qed.

(** What the merge leaves at each position. *)
Lemma mergeVulnerabilityData_lookup (packages vulnerable : list NuGetPackage)
    (i : nat) (p : NuGetPackage) :
  packages !! i = Some p ->
  mergeVulnerabilityData packages vulnerable !! i =
  Some (withVulnerabilities p
          (if firstWithId packages i (id p)
           then match assignedVulnerabilities (id p) vulnerable with
                | Some vulns => Some vulns
                | None => vulnerabilities p
                end
           else vulnerabilities p)).
Proof.
  intros Hp. induction vulnerable as [|v vl IH] using rev_ind.
  - simpl. rewrite Hp. f_equal.
    destruct p; unfold withVulnerabilities; simpl.
    now destruct (firstWithId _ _ _).
  - unfold mergeVulnerabilityData in *. rewrite fold_left_app. simpl.
    set (merged := fold_left _ vl packages) in *.
    assert (Hids : map id merged = map id packages)
      by apply mergeVulnerabilityData_ids.
    rewrite assignedVulnerabilities_snoc.
    destruct (vulnerabilities v) as [vulns|] eqn:Hv.
    + rewrite (assignVulnerabilities_lookup _ _ _ _ _ IH).
      rewrite (firstWithId_ids _ _ _ _ Hids). simpl id.
      destruct (String.eqb (id p) (id v)) eqn:Hid.
      * apply String.eqb_eq in Hid. rewrite <- Hid.
        rewrite String.eqb_refl. simpl.
        destruct (firstWithId packages i (id p)); reflexivity.
      * rewrite String.eqb_sym, Hid. reflexivity.
    + rewrite IH. now destruct (String.eqb (id v) (id p)).
Qed.

(** C7, as the code has it. The merge changes nothing but [vulnerabilities]
    fields, and keeps the number and order of the packages. A package gets a
    new list exactly when it is the first of the list with its identifier
    and some vulnerable package with that identifier (the version is not
    compared) carries a list: it then holds the list of the last such
    vulnerable package, whether or not it held a list before. *)
Theorem merge_changes_only_vulnerabilities
    (packages vulnerable : list NuGetPackage) :
  let merged := mergeVulnerabilityData packages vulnerable in
  length merged = length packages /\
  forall (i : nat) (p : NuGetPackage),
    packages !! i = Some p ->
    exists q : NuGetPackage,
      merged !! i = Some q /\
      id q = id p /\ version q = version p /\ resolved q = resolved p /\
      dependencies q = dependencies p /\ isTransitive q = isTransitive p /\
      depth q = depth p /\ framework q = framework p /\ source q = source p /\
      isDevelopmentDependency q = isDevelopmentDependency p /\
      vulnerabilities q =
        if firstWithId packages i (id p)
        then match assignedVulnerabilities (id p) vulnerable with
             | Some vulns => Some vulns
             | None => vulnerabilities p
             end
        else vulnerabilities p.
Proof.
  intros merged. split.
  - subst merged.
    rewrite <- (length_map id (mergeVulnerabilityData _ _)), <- (length_map id packages).
    now rewrite mergeVulnerabilityData_ids.
  - intros i p Hp. eexists. split.
    + subst merged. apply (mergeVulnerabilityData_lookup _ _ _ _ Hp).
    + repeat split.
Qed.

(** On [Newtonsoft.Json; Serilog] and one vulnerable entry for the first:
    the first package gets the entry's list, the second keeps all its
    fields. *)
Lemma merge_changes_only_vulnerabilities_witness :
  let packages := [Examples.json130; Examples.serilog] in
  let merged := mergeVulnerabilityData packages [Examples.json130_net6] in
  length merged = 2%nat /\
  (exists q, merged !! 0%nat = Some q /\ id q = "Newtonsoft.Json" /\
             vulnerabilities q = Some [Examples.advisoryA]) /\
  (exists q, merged !! 1%nat = Some q /\ id q = "Serilog" /\
             vulnerabilities q = None).
Proof.
  intros packages merged.
  destruct (merge_changes_only_vulnerabilities packages [Examples.json130_net6])
    as [Hlen Hframe].
  split; [exact Hlen|]. split.
  - destruct (Hframe 0%nat Examples.json130 eq_refl) as (q & Hq & Hid & Hrest).
    exists q. split; [exact Hq|]. split; [exact Hid|].
    apply Hrest.
  - destruct (Hframe 1%nat Examples.serilog eq_refl) as (q & Hq & Hid & Hrest).
    exists q. split; [exact Hq|]. split; [exact Hid|].
    apply Hrest.
Defined.

(** Two runs of the merge on the sample packages: a package that comes with
    a list, and a package without one that is reported vulnerable twice (once
    per target framework). In both the list already there is replaced. *)
Lemma merge_sample_runs :
  map vulnerabilities
      (mergeVulnerabilityData [Examples.json130_net6] [Examples.json130_net8])
  = [Some [Examples.advisoryB]] /\
  map vulnerabilities
      (mergeVulnerabilityData [Examples.json130]
         [Examples.json130_net6; Examples.json130_net8])
  = [Some [Examples.advisoryB]].
Proof. split; reflexivity. Qed.

(** The wording of the specification (the field is set only if absent) does
    not hold: it is not so that a package that holds a list of
    vulnerabilities before the merge holds the same list after it.
    [Newtonsoft.Json] with the advisory GHSA-aaaa, merged with a vulnerable
    entry for it that carries GHSA-bbbb, ends with GHSA-bbbb alone. *)
Lemma merge_overwrites_present_list :
  ~ (forall (packages vulnerable : list NuGetPackage) (i : nat) (p q : NuGetPackage),
        packages !! i = Some p ->
        mergeVulnerabilityData packages vulnerable !! i = Some q ->
        vulnerabilities p <> None ->
        vulnerabilities q = vulnerabilities p).
Proof.
  intros Hclaim.
  specialize (Hclaim [Examples.json130_net6] [Examples.json130_net8] 0%nat
                     Examples.json130_net6 Examples.json130_net8
                     eq_refl eq_refl ltac:(discriminate)).
  discriminate Hclaim.
Qed.

End MergeFacts.

(* ===================================================================== *)
(** * Synthetic links *)
(* ===================================================================== *)

Module LinkFacts.
Import NuGetDependencyProvider Spec.

(** The index loop over [startIndex .. endIndex) reads a slice. *)
Lemma index_loop_slice {A B : Type} (f : A -> B) (l : list A) (n start : nat) :
  flat_map (fun i => match l !! i with
                     | Some x => [f x]
                     | None => []
                     end) (seq start n)
  = map f (take n (drop start l)).
Proof.
  revert start. induction n as [|n IH]; intros start; [reflexivity|].
  simpl seq. simpl flat_map. rewrite IH.
  destruct (l !! start) as [x|] eqn:Hx.
  - rewrite (drop_S _ _ _ Hx). reflexivity.
  - apply lookup_ge_None in Hx.
    rewrite (drop_ge l start) by lia. rewrite (drop_ge l (S start)) by lia.
    now rewrite take_nil.
Qed.

Lemma slice_of_chunk {A : Type} (l : list A) (start chunk : nat) :
  take (Nat.min (start + chunk) (length l) - start) (drop start l)
  = take chunk (drop start l).
Proof.
  destruct (Nat.le_gt_cases (start + chunk) (length l)) as [Hle|Hgt].
  - rewrite Nat.min_l by lia. f_equal. lia.
  - rewrite Nat.min_r by lia.
    rewrite !take_ge; [reflexivity| |]; rewrite length_drop; lia.
Qed.

Lemma ceilDiv_pos (a b : nat) : (0 < a)%nat -> (0 < b)%nat -> (0 < ceilDiv a b)%nat.
Proof.
  intros Ha Hb. unfold ceilDiv. apply Nat.div_str_pos. lia.
Qed.

Lemma createFallbackLinks_slices (packages : list NuGetPackage) (mode : VisualizationMode) :
  let directPackages := List.filter (fun pkg => negb (isTransitive_truthy pkg)) packages in
  let transitivePackages := List.filter isTransitive_truthy packages in
  directPackages <> [] -> transitivePackages <> [] ->
  createFallbackLinks packages mode = fallbackSlices mode directPackages transitivePackages.
Proof.
  intros directPackages transitivePackages Hd Ht.
  unfold createFallbackLinks, fallbackSlices.
  fold directPackages transitivePackages.
  destruct directPackages as [|d ds] eqn:Ed; [congruence|].
  destruct transitivePackages as [|t ts] eqn:Et; [congruence|].
  change ((0 <? length (d :: ds))%nat && (0 <? length (t :: ts))%nat) with true.
  cbv iota. f_equal. apply imap_ext. intros k x _.
  cbv zeta. rewrite index_loop_slice. f_equal. apply slice_of_chunk.
Qed.

Lemma fallbackSlices_nonempty (mode : VisualizationMode)
    (directPackages transitivePackages : list NuGetPackage) :
  directPackages <> [] -> transitivePackages <> [] ->
  fallbackSlices mode directPackages transitivePackages <> [].
Proof.
  intros Hd Ht. unfold fallbackSlices.
  destruct directPackages as [|d ds]; [congruence|].
  destruct transitivePackages as [|t ts]; [congruence|].
  pose proof (ceilDiv_pos (length (t :: ts)) (length (d :: ds))
                ltac:(simpl; lia) ltac:(simpl; lia)) as Hc.
  destruct (ceilDiv _ _) as [|c]; [lia|].
  simpl. discriminate.
Qed.

Lemma filter_split_length {A : Type} (f : A -> bool) (l : list A) :
  (length (List.filter (fun x => negb (f x)) l) + length (List.filter f l)
   = length l)%nat.
Proof.
  induction l as [|x l IH]; [reflexivity|]. simpl.
  destruct (f x); simpl; lia.
Qed.

(** C6, as the code has it. For every package list with at least one direct
    and at least one transitive package, link synthesis produces at least
    one link; and when the heuristic rules yield none, the links are those
    of the even-distribution fallback: each direct package is linked to a
    contiguous slice of the transitive list. *)
Theorem links_exist_with_direct_and_transitive
    (packages : list NuGetPackage) (mode : VisualizationMode) :
  let directPackages := List.filter (fun pkg => negb (isTransitive_truthy pkg)) packages in
  let transitivePackages := List.filter isTransitive_truthy packages in
  directPackages <> [] -> transitivePackages <> [] ->
  links (createGraphData packages mode) <> [] /\
  (heuristicDirectLinks mode directPackages transitivePackages = [] ->
   heuristicTransitiveLinks mode transitivePackages = [] ->
   links (createGraphData packages mode)
   = fallbackSlices mode directPackages transitivePackages).
Proof.
  intros directPackages transitivePackages Hd Ht.
  assert (Hlen : (1 <? length packages)%nat = true).
  { apply Nat.ltb_lt.
    pose proof (filter_split_length isTransitive_truthy packages) as Hsplit.
    fold directPackages transitivePackages in Hsplit.
    destruct directPackages; [congruence|].
    destruct transitivePackages; [congruence|]. simpl in Hsplit. lia. }
  pose proof (createFallbackLinks_slices packages mode Hd Ht) as Hfb.
  pose proof (fallbackSlices_nonempty mode _ _ Hd Ht) as Hne.
  fold directPackages transitivePackages in Hfb.
  simpl links. unfold createSyntheticLinks.
  fold directPackages transitivePackages. rewrite Hlen, andb_true_r. simpl app.
  split.
  - destruct (heuristicDirectLinks mode directPackages transitivePackages ++
              heuristicTransitiveLinks mode transitivePackages) as [|l ls] eqn:Hh.
    + simpl. now rewrite Hfb.
    + simpl. discriminate.
  - intros H1 H2. rewrite H1, H2. simpl. exact Hfb.
Qed.

(** Two direct packages with three transitive ones of other families: the
    heuristics find nothing and the fallback gives the first direct package
    the slice of the first two transitive packages, the second the rest. *)
Lemma links_exist_with_direct_and_transitive_witness :
  let packages := [Examples.alpha; Examples.zeta; Examples.beta; Examples.theta;
                   Examples.package "Omega.Io" "1.1.0" true] in
  links (createGraphData packages mode_dependencies) <> [] /\
  map (fun l => (link_source l, link_target l))
      (links (createGraphData packages mode_dependencies))
  = [("Alpha.Core@1.0.0", "Zeta.Lib@0.9.0"); ("Alpha.Core@1.0.0", "Theta.Net@4.2.0");
     ("Beta.Tools@2.0.0", "Omega.Io@1.1.0")].
Proof.
  intros packages.
  destruct (links_exist_with_direct_and_transitive packages mode_dependencies)
    as [Hne Hfb]; [discriminate | discriminate |].
  split; [exact Hne|].
  rewrite Hfb; reflexivity.
Defined.

(** The wording of the specification (never edge-less with more than one
    package) does not hold: such a list can leave the graph without a link. Two direct packages of different families,
    [Alpha.Core] and [Beta.Tools], match no heuristic rule, and the fallback
    does nothing when there is no transitive package. *)
Lemma two_direct_packages_have_no_link :
  ~ (forall (packages : list NuGetPackage) (mode : VisualizationMode),
        (1 < length packages)%nat ->
        links (createGraphData packages mode) <> []).
Proof.
  intros Hclaim.
  apply (Hclaim [Examples.alpha; Examples.beta] mode_dependencies).
  - simpl. lia.
  - reflexivity.
Qed.

End LinkFacts.

(* ===================================================================== *)
(** * The acquisition state machine *)
(* ===================================================================== *)

Module ResolverFacts.
Import NuGetDependencyProvider DotNetCliErrorCodes.

Section Resolver.
Context `{Path} `{IDotNetCliService} `{IProjectFileParser}
        `{IVulnerabilityScanner} `{ProviderHost}.

(** A listing that fails with a non-recoverable error other than
    sdk-not-found ends the call at once. *)
Lemma analyzeDependencies_propagates (projectPath : string)
    (includeVulnerabilities includeTransitive : bool) (e : ExtensionError) (s : State) :
  cli_listPackages projectPath (listOptions includeTransitive) = Throw (DotNetCliError e) ->
  recoverable e = false -> code e <> SDK_NOT_FOUND ->
  analyzeDependencies projectPath includeVulnerabilities includeTransitive s
  = (Throw (DotNetCliError e),
     after s (lastAnalysisMethod s)
           [ListPackages projectPath (listOptions includeTransitive)]).
Proof.
  intros Hlist Hrec Hcode.
  unfold analyzeDependencies, try_catch, mbind, M_bind, mbind_M, logged.
  rewrite Hlist. simpl. rewrite Hrec. simpl.
  apply String.eqb_neq in Hcode. rewrite Hcode.
  reflexivity.
Qed.

(** A listing that fails with sdk-not-found, followed by a manifest that
    parses, gives the packages of the manifest and records the method. *)
Lemma analyzeDependencies_falls_back (projectPath : string)
    (includeVulnerabilities includeTransitive : bool) (e : ExtensionError)
    (pkgs : list NuGetPackage) (s : State) :
  cli_listPackages projectPath (listOptions includeTransitive) = Throw (DotNetCliError e) ->
  code e = SDK_NOT_FOUND ->
  parser_parseProjectFile projectPath = Return pkgs ->
  analyzeDependencies projectPath includeVulnerabilities includeTransitive s
  = (Return pkgs,
     after s project_file
           [ListPackages projectPath (listOptions includeTransitive);
            ParseProjectFile projectPath]).
Proof.
  intros Hlist Hcode Hparse.
  unfold analyzeDependencies, fallback, try_catch, mbind, M_bind, mbind_M, logged.
  rewrite Hlist. simpl. rewrite Hcode. rewrite String.eqb_refl, orb_true_r.
  simpl. rewrite Hparse. simpl. unfold after. simpl.
  now rewrite <- app_assoc.
Qed.

(** The metadata records the method found in the object: the one this run
    left there, unless an overlapping run wrote the field afterwards. *)
Lemma createAnalysisMetadata_method (projectPath : string) (m : AnalysisMethod)
    (hasT hasV : bool) (s : State) :
  exists (md : AnalysisMetadata) (s' : State),
    createAnalysisMetadata projectPath m hasT hasV s = (Return md, s') /\
    analysisMethod md = recordedMethod (lastAnalysisMethod s) /\
    hasTransitiveDependencies md = hasT /\
    hasVulnerabilityData md = hasV /\
    lastAnalysisMethod s' = lastAnalysisMethod s /\
    exists cs, calls s' = calls s ++ cs /\
               forall c, In c cs -> c = GetVersion \/ c = ValidateProject projectPath.
Proof.
  unfold createAnalysisMetadata, try_catch, mbind, M_bind, mbind_M, logged,
    read_lastAnalysisMethod.
  destruct cli_getVersion as [v|err]; simpl;
    (eexists; eexists; split; [reflexivity|]; simpl; repeat split;
     exists [GetVersion; ValidateProject projectPath];
     split; [now rewrite <- app_assoc | simpl; intuition]).
Qed.

(** The three public entry points after a fallback. *)
Lemma entry_points_fall_back (projectPath : string) (e : ExtensionError)
    (pkgs : list NuGetPackage) (s : State) :
  code e = SDK_NOT_FOUND ->
  parser_parseProjectFile projectPath = Return pkgs ->
  forall (entry : string -> M DependencyAnalysisResult) (includeTransitive : bool),
    (entry = getDependencies /\ includeTransitive = false) \/
    (entry = getDependenciesWithVulnerabilities /\ includeTransitive = false) \/
    (entry = getFullDependencyGraph /\ includeTransitive = true) ->
    cli_listPackages projectPath (listOptions includeTransitive) = Throw (DotNetCliError e) ->
    exists (r : DependencyAnalysisResult) (s' : State),
      entry projectPath s = (Return r, s') /\
      packages r = pkgs /\
      analysisMethod (analysisMetadata r) = recordedMethod project_file /\
      lastAnalysisMethod s' = project_file.
Proof.
  intros Hcode Hparse entry includeTransitive Hentry Hlist.
  pose proof (fun v => analyzeDependencies_falls_back projectPath v includeTransitive
                         e pkgs s Hlist Hcode Hparse) as Hrun.
  destruct Hentry as [[-> ->]|[[-> ->]|[-> ->]]];
    unfold getDependencies, getDependenciesWithVulnerabilities, getFullDependencyGraph;
    unfold mbind, M_bind, mbind_M; rewrite Hrun;
    match goal with
    | |- context [createAnalysisMetadata ?p ?m ?t ?v ?st] =>
        destruct (createAnalysisMetadata_method p m t v st)
          as (md & s' & -> & Hm & _ & _ & Hlast & _)
    end;
    eexists; exists s'; (split; [reflexivity|]); simpl; rewrite Hm, Hlast; auto.
Qed.

(** The three public entry points when the listing fails for good. *)
Lemma entry_points_propagate (projectPath : string) (e : ExtensionError) (s : State) :
  recoverable e = false -> code e <> SDK_NOT_FOUND ->
  forall (entry : string -> M DependencyAnalysisResult) (includeTransitive : bool),
    (entry = getDependencies /\ includeTransitive = false) \/
    (entry = getDependenciesWithVulnerabilities /\ includeTransitive = false) \/
    (entry = getFullDependencyGraph /\ includeTransitive = true) ->
    cli_listPackages projectPath (listOptions includeTransitive) = Throw (DotNetCliError e) ->
    entry projectPath s
    = (Throw (DotNetCliError e),
       after s (lastAnalysisMethod s)
             [ListPackages projectPath (listOptions includeTransitive)]).
Proof.
  intros Hrec Hcode entry includeTransitive Hentry Hlist.
  pose proof (fun v => analyzeDependencies_propagates projectPath v includeTransitive
                         e s Hlist Hrec Hcode) as Hrun.
  destruct Hentry as [[-> ->]|[[-> ->]|[-> ->]]];
    unfold getDependencies, getDependenciesWithVulnerabilities, getFullDependencyGraph;
    unfold mbind, M_bind, mbind_M; rewrite Hrun; reflexivity.
Qed.

End Resolver.

End ResolverFacts.

(* ===================================================================== *)
(** * How the toolchain client classifies a failed listing *)
(* ===================================================================== *)

Module ToolchainFacts.
Import DotNetCliService DotNetCliErrorCodes.

(** A rejection of the executor that is no timeout and reads as a missing
    command is classified sdk-not-found, a non-recoverable error. *)
Lemma listPackages_sdk_not_found `{ICommandExecutor} `{ToolchainOutput}
    (projectPath : string) (options : ListPackagesOptions) (n m : string) :
  Js.truthy projectPath = true ->
  executeCommand "dotnet" (listPackagesArgs projectPath options)
                 {| cwd := None; timeout := Some defaultTimeout |}
  = Throw (PlainError n m) ->
  isTimeoutError (exn_toString (PlainError n m)) = false ->
  isCommandNotFoundError (exn_toString (PlainError n m)) = true ->
  exists e, listPackages projectPath options = Throw (DotNetCliError e) /\
            code e = SDK_NOT_FOUND /\ recoverable e = false.
Proof.
  intros Hpath Hexec Htimeout Hnotfound. unfold listPackages.
  rewrite Hpath, Hexec. simpl negb. cbv iota.
  rewrite Htimeout, Hnotfound. eexists. split; [reflexivity|]. now split.
Qed.

(** A non-zero exit whose output says that the project does not exist is
    classified project-not-found, a non-recoverable error. *)
Lemma listPackages_project_not_found `{ICommandExecutor} `{ToolchainOutput}
    (projectPath : string) (options : ListPackagesOptions) (result : CommandResult) :
  Js.truthy projectPath = true ->
  executeCommand "dotnet" (listPackagesArgs projectPath options)
                 {| cwd := None; timeout := Some defaultTimeout |}
  = Return result ->
  exitCode result <> 0 ->
  Js.includes (combinedOutput result) "could not find project" ||
  Js.includes (combinedOutput result) "project file does not exist" = true ->
  exists e, listPackages projectPath options = Throw (DotNetCliError e) /\
            code e = PROJECT_NOT_FOUND /\ recoverable e = false.
Proof.
  intros Hpath Hexec Hexit Htext. unfold listPackages.
  rewrite Hpath, Hexec. simpl negb. cbv iota.
  apply Z.eqb_neq in Hexit. rewrite Hexit. simpl negb. cbv iota.
  unfold handleListPackagesError. rewrite Htext.
  eexists. split; [reflexivity|]. now split.
Qed.

(** Over the executor of this repository, which never rejects, every
    project-not-found error of [listPackages] is non-recoverable. *)
Lemma listPackages_project_not_found_unrecoverable `{ToolchainOutput}
    (execAsync : string -> Z -> option string -> CommandExecutor.ExecSettled)
    (elapsed : Z) (projectPath : string) (options : ListPackagesOptions)
    (e : ExtensionError) :
  @listPackages {| executeCommand := CommandExecutor.executeCommand execAsync elapsed |} _
                projectPath options = Throw (DotNetCliError e) ->
  code e = PROJECT_NOT_FOUND ->
  recoverable e = false.
Proof.
  unfold listPackages, executeCommand, CommandExecutor.executeCommand.
  destruct (negb (Js.truthy projectPath)).
  { intros [= <-]. reflexivity. }
  destruct (execAsync _ _ _) as [out err|out err c msg];
    match goal with
    | |- context [negb (exitCode ?r =? 0)] => destruct (negb (exitCode r =? 0))
    end.
  all: try (unfold handleListPackagesError;
            repeat match goal with
                   | |- context [if ?c then _ else _] => destruct c
                   end;
            intros [= <-]; simpl; (reflexivity || discriminate)).
  all: destruct (format options) as [[]|];
    try (intros [= <-]; fail);
    try discriminate.
  all: unfold parseJsonOutput;
    repeat match goal with
           | |- context [if ?c then _ else _] => destruct c
           | |- context [match JSON_parse ?o with _ => _ end] => destruct (JSON_parse o)
           | |- context [match Cli.projects ?r with _ => _ end] => destruct (Cli.projects r)
           end;
    try discriminate; intros [= <-]; simpl; (reflexivity || discriminate).
Qed.

End ToolchainFacts.

(* ===================================================================== *)
(** * Fallback and propagation *)
(* ===================================================================== *)

Module FallbackFacts.
Import NuGetDependencyProvider DotNetCliErrorCodes.

(** C2. If the toolchain listing fails with an error classified
    sdk-not-found and the manifest parses, the resolver returns the packages
    of the manifest: [analyzeDependencies] calls the listing, then the
    manifest parser, and writes the project-file method to the object; each
    public entry point returns a result whose packages are those of the
    manifest. The method that the metadata of that result records is the one
    found in the object after the awaits of [createAnalysisMetadata]: the
    project-file method when no other run on the provider wrote the field in
    between, and otherwise the method of that run. When a run whose listing
    succeeded overlaps, the result holds the packages of the manifest and
    records the dotnet-cli method, which is where the code departs from the
    claim. *)
Theorem sdk_not_found_falls_back_to_manifest
    (P : Path) (D : IDotNetCliService) (F : IProjectFileParser)
    (V : IVulnerabilityScanner) (Hst : ProviderHost)
    (projectPath : string) (e : ExtensionError) (pkgs : list NuGetPackage) (s : State) :
  code e = SDK_NOT_FOUND ->
  parser_parseProjectFile projectPath = Return pkgs ->
  (forall includeVulnerabilities includeTransitive : bool,
      cli_listPackages projectPath (listOptions includeTransitive)
      = Throw (DotNetCliError e) ->
      analyzeDependencies projectPath includeVulnerabilities includeTransitive s
      = (Return pkgs,
         after s project_file
               [ListPackages projectPath (listOptions includeTransitive);
                ParseProjectFile projectPath])) /\
  (forall (entry : string -> M DependencyAnalysisResult) (includeTransitive : bool),
      (entry = getDependencies /\ includeTransitive = false) \/
      (entry = getDependenciesWithVulnerabilities /\ includeTransitive = false) \/
      (entry = getFullDependencyGraph /\ includeTransitive = true) ->
      cli_listPackages projectPath (listOptions includeTransitive)
      = Throw (DotNetCliError e) ->
      exists (r : DependencyAnalysisResult) (s' : State),
        entry projectPath s = (Return r, s') /\
        packages r = pkgs /\
        analysisMethod (analysisMetadata r)
        = match overlappingWrite with
          | None => project_file
          | Some toolchain_strategy => dotnet_cli
          | Some manifest_strategy => project_file
          end).
Proof.
  intros Hcode Hparse. split.
  - intros v t Hlist.
    now apply ResolverFacts.analyzeDependencies_falls_back with (e := e).
  - intros entry t Hentry Hlist.
    destruct (ResolverFacts.entry_points_fall_back projectPath e pkgs s Hcode Hparse
                entry t Hentry Hlist) as (r & s' & Hrun & Hpkgs & Hmethod & _).
    exists r, s'. split; [exact Hrun|]. split; [exact Hpkgs|].
    rewrite Hmethod. unfold recordedMethod.
    now destruct overlappingWrite as [[]|].
Qed.

(** Two commands on the one provider. The listing of the first project
    exits with code 0 and prints a warning that is no JSON and reads "not
    found": the client of this repository classifies the failure
    sdk-not-found, and the parser of this repository reads a manifest with two
    package references. While this run awaits the version and the validation,
    a run for another project, whose listing succeeded, writes the field.
    The result of the first run holds the two packages of the manifest and
    records the dotnet-cli method, not the project-file one. *)
Lemma sdk_not_found_falls_back_to_manifest_witness :
  let P := Examples.posix in
  let D := @DotNetCliService_impl (Examples.executor Examples.listingWarns)
             Examples.not_json in
  let F := @ProjectFileParser_impl P (Examples.projectFiles Examples.manifestXml) in
  exists (r : DependencyAnalysisResult) (s' : State),
    @getDependencies P D F Examples.offline_scanner Examples.busy_host "App.csproj" initial
    = (Return r, s') /\
    map packageKey (packages r) = ["Foo.Bar@1.0.0"; "Foo.Baz@2.0.0"] /\
    (forall pkg, In pkg (packages r) -> source pkg = Some "project-file") /\
    analysisMethod (analysisMetadata r) = dotnet_cli /\
    analysisMethod (analysisMetadata r) <> project_file.
Proof.
  intros P D F.
  destruct (@cli_listPackages D "App.csproj" (listOptions false)) as [listed|[e0| | |]]
    eqn:Hlisting; try discriminate Hlisting.
  assert (Hcode : code e0 = SDK_NOT_FOUND) by (injection Hlisting as <-; reflexivity).
  pose (pkgs0 := ProjectFileParser.deduplicatePackages
                   (ProjectFileParser.parseModernProjectFile Examples.manifestXml ["net8.0"])).
  destruct (sdk_not_found_falls_back_to_manifest P D F Examples.offline_scanner
              Examples.busy_host "App.csproj" e0 pkgs0 initial Hcode eq_refl)
    as [_ Hentry].
  destruct (Hentry getDependencies false (or_introl (conj eq_refl eq_refl)) Hlisting)
    as (r & s' & Hrun & Hpkgs & Hmethod).
  exists r, s'. split; [exact Hrun|].
  simpl in Hmethod. rewrite Hmethod, Hpkgs.
  split; [reflexivity|]. split; [|split; [reflexivity|discriminate]].
  intros pkg [<-|[<-|[]]]; reflexivity.
Defined.

(** C3. If the toolchain listing fails with an error classified
    project-not-found, a non-recoverable error, the resolver stops there:
    [analyzeDependencies] and each public entry point throw that very error,
    the only collaborator call made is the listing (the manifest parser is
    not called), and the object keeps the method it had. *)
Theorem project_not_found_propagates
    (P : Path) (D : IDotNetCliService) (F : IProjectFileParser)
    (V : IVulnerabilityScanner) (Hst : ProviderHost)
    (projectPath : string) (e : ExtensionError) (s : State) :
  code e = PROJECT_NOT_FOUND ->
  recoverable e = false ->
  (forall includeVulnerabilities includeTransitive : bool,
      cli_listPackages projectPath (listOptions includeTransitive)
      = Throw (DotNetCliError e) ->
      analyzeDependencies projectPath includeVulnerabilities includeTransitive s
      = (Throw (DotNetCliError e),
         after s (lastAnalysisMethod s)
               [ListPackages projectPath (listOptions includeTransitive)])) /\
  (forall (entry : string -> M DependencyAnalysisResult) (includeTransitive : bool),
      (entry = getDependencies /\ includeTransitive = false) \/
      (entry = getDependenciesWithVulnerabilities /\ includeTransitive = false) \/
      (entry = getFullDependencyGraph /\ includeTransitive = true) ->
      cli_listPackages projectPath (listOptions includeTransitive)
      = Throw (DotNetCliError e) ->
      entry projectPath s
      = (Throw (DotNetCliError e),
         after s (lastAnalysisMethod s)
               [ListPackages projectPath (listOptions includeTransitive)])).
Proof.
  intros Hcode Hrec.
  assert (Hne : code e <> SDK_NOT_FOUND) by (rewrite Hcode; discriminate).
  split.
  - intros v t Hlist. now apply ResolverFacts.analyzeDependencies_propagates.
  - intros entry t Hentry Hlist.
    now apply ResolverFacts.entry_points_propagate.
Qed.

(** The toolchain reports that the project file does not exist: the client
    of this repository classifies the failure project-not-found, and the
    resolver throws that error although the manifest parser would have
    returned two packages. The log holds the listing alone. *)
Lemma project_not_found_propagates_witness :
  let P := Examples.posix in
  let D := @DotNetCliService_impl (Examples.executor Examples.project_missing)
                                  Examples.not_json in
  let F := @ProjectFileParser_impl P (Examples.projectFiles Examples.manifestXml) in
  exists e : ExtensionError,
    code e = PROJECT_NOT_FOUND /\
    @cli_listPackages D "App.csproj" (listOptions false) = Throw (DotNetCliError e) /\
    @getDependencies P D F Examples.offline_scanner Examples.host "App.csproj" initial
    = (Throw (DotNetCliError e),
       {| lastAnalysisMethod := dotnet_cli;
          calls := [ListPackages "App.csproj" (listOptions false)] |}) /\
    (exists pkgs, @parser_parseProjectFile F "App.csproj" = Return pkgs /\
                  length pkgs = 2%nat).
Proof.
  intros P D F.
  pose (e0 := DotNetCliService.createDotNetError PROJECT_NOT_FOUND
          "Project file not found: App.csproj. Please ensure the project file exists and is accessible."
          (Some "Command output: MSBUILD : error MSB1009: Project file does not exist.")
          Validation false).
  exists e0. split; [reflexivity|]. split; [reflexivity|]. split.
  - destruct (project_not_found_propagates P D F Examples.offline_scanner
                Examples.host "App.csproj" e0 initial eq_refl eq_refl)
      as [_ Hentry].
    exact (Hentry getDependencies false (or_introl (conj eq_refl eq_refl)) eq_refl).
  - eexists. split; reflexivity.
Defined.

End FallbackFacts.

(* ===================================================================== *)
(** * De-duplication *)
(* ===================================================================== *)

Module DedupFacts.
Import ProjectFileParser Spec.

Lemma fold_deduplicateStep (packages : list NuGetPackage)
    (seen : gset string) (result : list NuGetPackage) :
  snd (fold_left deduplicateStep packages (seen, result))
  = result ++ firstOccurrences seen packages.
Proof.
  revert seen result. induction packages as [|pkg rest IH]; intros seen result; simpl.
  - now rewrite app_nil_r.
  - destruct (decide (packageKey pkg ∈ seen)); rewrite IH; [reflexivity|].
    now rewrite <- app_assoc.
Qed.

Lemma deduplicatePackages_firstOccurrences (packages : list NuGetPackage) :
  deduplicatePackages packages = firstOccurrences ∅ packages.
Proof. unfold deduplicatePackages. now rewrite fold_deduplicateStep. Qed.

Lemma firstOccurrences_fresh (seen : gset string) (packages : list NuGetPackage)
    (q : NuGetPackage) :
  In q (firstOccurrences seen packages) -> (packageKey q ∉ seen) /\ In q packages.
Proof.
  revert seen. induction packages as [|pkg rest IH]; intros seen; simpl; [intros []|].
  destruct (decide (packageKey pkg ∈ seen)) as [Hin|Hout].
  - intros Hq. destruct (IH _ Hq); auto.
  - intros [<-|Hq]; [auto|]. destruct (IH _ Hq) as [Hfresh ?]. split; [|auto].
    intros Hseen. apply Hfresh. apply elem_of_union. now right.
Qed.

Lemma firstOccurrences_NoDup (seen : gset string) (packages : list NuGetPackage) :
  NoDup (map packageKey (firstOccurrences seen packages)).
Proof.
  revert seen. induction packages as [|pkg rest IH]; intros seen; simpl; [constructor|].
  destruct (decide (packageKey pkg ∈ seen)); [apply IH|].
  simpl. constructor; [|apply IH].
  rewrite list_elem_of_In, in_map_iff. intros (q & Hkey & Hq).
  destruct (firstOccurrences_fresh _ _ _ Hq) as [Hfresh _]. set_solver.
Qed.

Lemma firstOccurrences_first (seen : gset string) (packages : list NuGetPackage)
    (q : NuGetPackage) :
  In q (firstOccurrences seen packages) ->
  List.find (fun pkg => String.eqb (packageKey pkg) (packageKey q)) packages = Some q.
Proof.
  revert seen. induction packages as [|pkg rest IH]; intros seen; simpl; [intros []|].
  destruct (decide (packageKey pkg ∈ seen)) as [Hin|Hout].
  - intros Hq. destruct (firstOccurrences_fresh _ _ _ Hq) as [Hfresh _].
    destruct (String.eqb_spec (packageKey pkg) (packageKey q)) as [Heq|_];
      [rewrite Heq in Hin; contradiction | eauto].
  - intros [<-|Hq]; [now rewrite String.eqb_refl|].
    destruct (firstOccurrences_fresh _ _ _ Hq) as [Hfresh _].
    destruct (String.eqb_spec (packageKey pkg) (packageKey q)) as [Heq|_];
      [set_solver | eauto].
Qed.

Lemma firstOccurrences_covers (seen : gset string) (packages : list NuGetPackage)
    (p : NuGetPackage) :
  In p packages -> packageKey p ∉ seen ->
  In (packageKey p) (map packageKey (firstOccurrences seen packages)).
Proof.
  revert seen. induction packages as [|pkg rest IH]; intros seen; simpl; [intros []|].
  intros Hp Hfresh.
  destruct (decide (packageKey pkg ∈ seen)) as [Hin|Hout].
  - destruct Hp as [->|Hp]; [contradiction|]. now apply IH.
  - simpl. destruct (String.eqb_spec (packageKey pkg) (packageKey p)) as [Heq|Hne];
      [now left|right].
    destruct Hp as [->|Hp]; [congruence|]. apply IH; [assumption|].
    rewrite elem_of_union, elem_of_singleton. intros [Heq|Hseen]; congruence.
Qed.

Lemma unique_keys_unique_pairs (packages : list NuGetPackage) :
  NoDup (map packageKey packages) -> uniquePackages packages.
Proof.
  unfold uniquePackages. induction packages as [|pkg rest IH]; simpl; [constructor|].
  rewrite !NoDup_cons. intros [Hnotin Hrest]. split; [|auto].
  intros Hin. apply Hnotin.
  apply list_elem_of_In, in_map_iff in Hin. destruct Hin as (q & Hpair & Hq).
  apply list_elem_of_In, in_map_iff. exists q. split; [|assumption].
  injection Hpair as Hid Hver. unfold packageKey. now rewrite Hid, Hver.
Qed.

(** The manifest path: the de-duplication keeps, for every key of the list,
    the first package with that key and nothing else; whatever
    [parseProjectFile] returns has passed it and holds no two entries with
    the same [(id, version)]. *)
Lemma manifest_packages_are_unique :
  (forall packages : list NuGetPackage,
      uniquePackages (deduplicatePackages packages) /\
      (forall q, In q (deduplicatePackages packages) ->
                 List.find (fun pkg => String.eqb (packageKey pkg) (packageKey q)) packages
                 = Some q) /\
      (forall p, In p packages ->
                 In (packageKey p) (map packageKey (deduplicatePackages packages)))) /\
  (forall (P : Path) (F : ProjectFiles) (projectPath : string)
          (packages : list NuGetPackage),
      parseProjectFile projectPath = Return packages -> uniquePackages packages).
Proof.
  split.
  - intros packages. rewrite deduplicatePackages_firstOccurrences.
    split; [apply unique_keys_unique_pairs, firstOccurrences_NoDup|].
    split; [apply firstOccurrences_first|].
    intros p Hp. apply firstOccurrences_covers; [assumption|set_solver].
  - intros P F projectPath packages. unfold parseProjectFile.
    destruct (validateFileAccessWithDetails projectPath) as [[]|e1]; simpl;
      [|destruct e1; discriminate].
    destruct (readProjectFileWithValidation projectPath) as [content|e2]; simpl;
      [|destruct e2; discriminate].
    destruct (parseXmlWithErrorHandling content projectPath) as [doc|e3]; simpl;
      [|destruct e3; discriminate].
    assert (Hdedup : forall l, uniquePackages (deduplicatePackages l)).
    { intros l. rewrite deduplicatePackages_firstOccurrences.
      apply unique_keys_unique_pairs, firstOccurrences_NoDup. }
    destruct (isModernProjectFormat doc); simpl.
    + intros [= <-]. apply Hdedup.
    + destruct (isLegacyProjectFormat doc) as [[]|e4]; simpl;
        try (intros [= <-]; apply Hdedup); try discriminate.
      destruct e4; discriminate.
Qed.

(** C1, where the code departs from it. The toolchain path does not
    de-duplicate: on the listing of a project that targets net6.0 and net8.0
    with one package reference, [listPackages] (JSON format) returns the
    package twice, with the same [(id, version)]. *)
Theorem toolchain_list_repeats_a_package :
  let E := Examples.executor Examples.listingSucceeds in
  let T := Examples.json Examples.multiTargetReport in
  exists packages : list NuGetPackage,
    DotNetCliService.listPackages "App.csproj"
      (NuGetDependencyProvider.listOptions false) = Return packages /\
    map (fun pkg => (id pkg, version pkg)) packages
    = [("Newtonsoft.Json", "13.0.1"); ("Newtonsoft.Json", "13.0.1")] /\
    map framework packages = [Some "net6.0"; Some "net8.0"] /\
    ~ uniquePackages packages.
Proof.
  intros E T. eexists. split; [reflexivity|].
  split; [reflexivity|]. split; [reflexivity|].
  unfold uniquePackages. simpl. rewrite NoDup_cons.
  intros [Hnotin _]. apply Hnotin. left.
Qed.

End DedupFacts.

(* ===================================================================== *)
(** * The toolchain client: what it throws and what it returns *)
(* ===================================================================== *)

Module ClientFacts.
Import DotNetCliService DotNetCliErrorCodes.

(** Case analysis on the conditions of a goal, outermost first. *)
Ltac split_conditions :=
  repeat match goal with
         | |- context [if ?c then _ else _] => destruct c
         end.

(** X1. The four methods of the client that run the toolchain throw nothing
    but [DotNetCliError]s: whatever the executor rejects with, and whatever
    the parsers throw, is wrapped before it leaves the client. *)
Theorem client_failures_are_classified (E : ICommandExecutor) (T : ToolchainOutput) :
  (forall projectPath options x,
      listPackages projectPath options = Throw x -> exists e, x = DotNetCliError e) /\
  (forall projectPath options x,
      listVulnerablePackages projectPath options = Throw x ->
      exists e, x = DotNetCliError e) /\
  (forall projectPath options x,
      restorePackages projectPath options = Throw x -> exists e, x = DotNetCliError e) /\
  (forall x, getVersion = Throw x -> exists e, x = DotNetCliError e).
Proof.
  split; [|split; [|split]].
  - intros projectPath options x. unfold listPackages.
    destruct (negb (Js.truthy projectPath)); [intros [= <-]; eauto|].
    destruct (executeCommand _ _ _) as [result|error].
    + destruct (negb (exitCode result =? 0)); [intros [= <-]; eauto|].
      destruct (format options) as [[]|]; try discriminate.
      unfold parseJsonOutput.
      destruct (negb (Js.truthy (stdout result)) || _); [discriminate|].
      destruct (JSON_parse _) as [rendered| |r];
        try (split_conditions; intros [= <-]; eauto).
      destruct (Cli.projects r); discriminate.
    + destruct error; split_conditions; intros [= <-]; eauto.
  - intros projectPath options x. unfold listVulnerablePackages.
    destruct (negb (Js.truthy projectPath)); [intros [= <-]; eauto|].
    destruct (executeCommand _ _ _) as [result|error].
    + destruct (negb (exitCode result =? 0)).
      * unfold handleVulnerabilityScanError.
        split_conditions; try discriminate; intros [= <-]; eauto.
      * unfold parseVulnerablePackagesOutput.
        destruct (negb (Js.truthy (stdout result)) || _); [discriminate|].
        destruct (JSON_parse _) as [rendered| |r];
          try (split_conditions; intros [= <-]; eauto).
        destruct (Cli.projects r); discriminate.
    + destruct error; split_conditions; intros [= <-]; eauto.
  - intros projectPath options x. unfold restorePackages.
    destruct (negb (Js.truthy projectPath)); [intros [= <-]; eauto|].
    destruct (executeCommand _ _ _) as [result|error].
    + destruct (negb (exitCode result =? 0)); [intros [= <-]; eauto|discriminate].
    + destruct error; split_conditions; intros [= <-]; eauto.
  - intros x. unfold getVersion.
    destruct (executeCommand _ _ _) as [result|error].
    + split_conditions; try discriminate; intros [= <-]; eauto.
    + destruct error; split_conditions; intros [= <-]; eauto.
Qed.

(** An executor that rejects with a timeout: the listing throws a
    [DotNetCliError], here the timeout one. *)
Lemma client_failures_are_classified_witness :
  exists e,
    @listPackages (Examples.rejecting_executor (PlainError "Error" "ETIMEDOUT"))
                  Examples.not_json "App.csproj"
                  (NuGetDependencyProvider.listOptions true)
    = Throw (DotNetCliError e) /\ code e = TIMEOUT.
Proof.
  destruct (client_failures_are_classified
              (Examples.rejecting_executor (PlainError "Error" "ETIMEDOUT"))
              Examples.not_json) as (Hlist & _).
  destruct (Hlist "App.csproj" (NuGetDependencyProvider.listOptions true) _ eq_refl)
    as (e & He).
  exists e. injection He as <-. split; reflexivity.
Defined.

Lemma handleListPackagesError_codes (result : CommandResult) (projectPath : string) :
  In (code (handleListPackagesError result projectPath))
     [PROJECT_NOT_FOUND; PROJECT_INVALID; PERMISSION_DENIED;
      NETWORK_ERROR; LIST_PACKAGES_FAILED].
Proof. unfold handleListPackagesError. split_conditions; simpl; auto 10. Qed.

(** X2. The classification of a failed listing and of a failed restore:
    the error carries one of the listed codes, the name of the error class
    and technical details, and it is marked non-recoverable exactly when the
    code is project-not-found. *)
Theorem exit_classification_taxonomy (result : CommandResult) (projectPath : string) :
  let l := handleListPackagesError result projectPath in
  let r := handleRestoreError result projectPath in
  In (code l) [PROJECT_NOT_FOUND; PROJECT_INVALID; PERMISSION_DENIED;
               NETWORK_ERROR; LIST_PACKAGES_FAILED] /\
  In (code r) [PROJECT_NOT_FOUND; PROJECT_INVALID; PERMISSION_DENIED;
               NETWORK_ERROR; RESTORE_FAILED] /\
  (recoverable l = false <-> code l = PROJECT_NOT_FOUND) /\
  (recoverable r = false <-> code r = PROJECT_NOT_FOUND) /\
  name l = "DotNetCliError" /\ name r = "DotNetCliError" /\
  technicalDetails l <> None /\ technicalDetails r <> None.
Proof.
  unfold handleListPackagesError, handleRestoreError.
  repeat split; split_conditions; simpl; auto 10; try discriminate.
Qed.

(** X3. A restore with a non-empty path that the executor carries out
    succeeds exactly when the exit code is zero; with an empty path nothing
    is run and the error is project-invalid, non-recoverable. *)
Theorem restore_succeeds_iff_exit_zero (E : ICommandExecutor)
    (projectPath : string) (options : CommandExecutionOptions) (result : CommandResult) :
  Js.truthy projectPath = true ->
  executeCommand "dotnet" ["restore"; projectPath] (restoreExecOptions options)
  = Return result ->
  (restorePackages projectPath options = Return tt <-> exitCode result = 0) /\
  (exitCode result <> 0 ->
   restorePackages projectPath options
   = Throw (DotNetCliError (handleRestoreError result projectPath))) /\
  (exists e, restorePackages "" options = Throw (DotNetCliError e) /\
             code e = PROJECT_INVALID /\ recoverable e = false).
Proof.
  intros Hpath Hexec. unfold restorePackages at 1 2.
  rewrite Hpath, Hexec. simpl negb. cbv iota.
  destruct (Z.eqb_spec (exitCode result) 0) as [Hz|Hnz]; simpl.
  - split; [tauto|]. split; [congruence|]. eexists. split; [reflexivity|]. now split.
  - split; [split; [discriminate|congruence]|].
    split; [reflexivity|]. eexists. split; [reflexivity|]. now split.
Qed.

Lemma restore_succeeds_iff_exit_zero_witness :
  @restorePackages (Examples.executor (CommandExecutor.Resolved "Restored App.csproj" ""))
                   "App.csproj" noOptions = Return tt /\
  exists e,
    @restorePackages (Examples.executor Examples.project_missing) "App.csproj" noOptions
    = Throw (DotNetCliError e) /\ code e = PROJECT_NOT_FOUND.
Proof.
  split.
  - apply (restore_succeeds_iff_exit_zero
             (Examples.executor (CommandExecutor.Resolved "Restored App.csproj" ""))
             "App.csproj" noOptions _ eq_refl eq_refl).
    reflexivity.
  - eexists. split.
    + apply (restore_succeeds_iff_exit_zero
               (Examples.executor Examples.project_missing)
               "App.csproj" noOptions _ eq_refl eq_refl).
      simpl. discriminate.
    + reflexivity.
Defined.

(** X4. A version that [getVersion] returns is the trimmed, non-empty
    output of a run with exit code zero, and then [isAvailable] holds. The
    converse fails: a run with exit code zero and blank output makes
    [isAvailable] hold while [getVersion] throws sdk-version-incompatible. *)
Theorem getVersion_is_nonempty_and_implies_available (E : ICommandExecutor) :
  (forall version : string,
      getVersion = Return version ->
      version <> "" /\ isAvailable = true /\
      exists result,
        executeCommand "dotnet" ["--version"]
                       {| cwd := None; timeout := Some quickTimeout |} = Return result /\
        exitCode result = 0 /\ version = Js.trim (stdout result)) /\
  (forall result,
      executeCommand "dotnet" ["--version"]
                     {| cwd := None; timeout := Some quickTimeout |} = Return result ->
      exitCode result = 0 -> Js.trim (stdout result) = "" ->
      isAvailable = true /\
      exists e, getVersion = Throw (DotNetCliError e) /\
                code e = SDK_VERSION_INCOMPATIBLE /\ recoverable e = false).
Proof.
  split.
  - intros version. unfold getVersion, isAvailable.
    destruct (executeCommand _ _ _) as [result|error].
    + destruct (Z.eqb_spec (exitCode result) 0) as [Hz|Hnz]; simpl; [|discriminate].
      destruct (Js.truthy (Js.trim (stdout result))) eqn:Ht; simpl; [|discriminate].
      intros [= <-]. split; [|split; [reflexivity|eauto]].
      intros Hempty. rewrite Hempty in Ht. discriminate.
    + destruct error; split_conditions; discriminate.
  - intros result Hexec Hz Hblank. unfold getVersion, isAvailable.
    rewrite Hexec, Hz, Hblank. simpl. split; [reflexivity|].
    eexists. split; [reflexivity|]. now split.
Qed.

Lemma getVersion_is_nonempty_and_implies_available_witness :
  let E := Examples.executor (CommandExecutor.Resolved "8.0.100  " "") in
  getVersion = Return "8.0.100" /\ isAvailable = true.
Proof.
  intros E.
  destruct (getVersion_is_nonempty_and_implies_available E) as [Hret _].
  destruct (Hret "8.0.100" eq_refl) as (_ & Havail & _).
  split; [reflexivity | exact Havail].
Defined.

(** The listing [getPackageDetails] asks for. *)
Lemma find_some_id (packageId : string) (l : list NuGetPackage) (p : NuGetPackage) :
  List.find (fun pkg => String.eqb (id pkg) packageId) l = Some p ->
  In p l /\ id p = packageId.
Proof.
  intros Hfind. apply find_some in Hfind. destruct Hfind as [Hin Heq].
  split; [assumption|]. now apply String.eqb_eq.
Qed.

(** X5. [getPackageDetails] loses the classification of a failure: it
    throws nothing but a plain [Error]. When it returns a package, the
    package has the identifier asked for and is a package of the listing,
    up to its vulnerabilities; it returns null exactly when the listing
    succeeds without a package of that identifier; a failed vulnerability
    scan leaves the listed package as it is. *)
Theorem getPackageDetails_behaviour (E : ICommandExecutor) (T : ToolchainOutput)
    (projectPath packageId : string) (options : CommandExecutionOptions) :
  let listing :=
    listPackages projectPath
      {| includeTransitive := Some true; opt_framework := None;
         opt_source := None; format := Some format_json |} in
  (forall x, getPackageDetails projectPath packageId options = Throw x ->
             exists m, x = PlainError "Error" m) /\
  (forall p, getPackageDetails projectPath packageId options = Return (Some p) ->
             id p = packageId /\
             exists packages q,
               listing = Return packages /\ In q packages /\
               p = withVulnerabilities q (vulnerabilities p)) /\
  (getPackageDetails projectPath packageId options = Return None <->
   exists packages,
     listing = Return packages /\
     forall q, In q packages -> id q <> packageId) /\
  (forall packages q x,
      listing = Return packages ->
      List.find (fun pkg => String.eqb (id pkg) packageId) packages = Some q ->
      listVulnerablePackages projectPath options = Throw x ->
      getPackageDetails projectPath packageId options = Return (Some q)).
Proof.
  intros listing. unfold getPackageDetails. subst listing.
  destruct (listPackages projectPath _) as [packages|error].
  - destruct (List.find (fun pkg => String.eqb (id pkg) packageId) packages)
      as [target|] eqn:Hfind.
    + destruct (find_some_id _ _ _ Hfind) as [Hin Hid].
      assert (Hshape : forall r : option NuGetPackage,
                 (exists vulns, r = Some (withVulnerabilities target vulns)) ->
                 (forall p, Return r = Return (Some p) :> outcome exn _ ->
                            id p = packageId /\
                            exists packages0 q,
                              Return packages = Return packages0 :> outcome exn _ /\
                              In q packages0 /\
                              p = withVulnerabilities q (vulnerabilities p)) /\
                 (Return r = Return None :> outcome exn _ <->
                  exists packages0,
                    Return packages = Return packages0 :> outcome exn _ /\
                    forall q, In q packages0 -> id q <> packageId)).
      { intros r (vulns & ->). split.
        - intros p [= <-]. split; [exact Hid|].
          exists packages, target. repeat split; assumption.
        - split; [discriminate|].
          intros (packages0 & [= <-] & Hall). destruct (Hall _ Hin Hid). }
      assert (Hself : exists vulns, Some target = Some (withVulnerabilities target vulns)).
      { exists (vulnerabilities target). now destruct target. }
      destruct (listVulnerablePackages projectPath options) as [vps|verr].
      * destruct (List.find _ vps) as [vp|]; [destruct (vulnerabilities vp) as [vulns|]|].
        all: split; [discriminate|].
        all: match goal with
             | |- context [Return ?r = Return (Some _)] =>
                 destruct (Hshape r) as [Hsome Hnull]; [eauto|]
             end.
        all: split; [exact Hsome|]; split; [exact Hnull|].
        all: intros ? ? ? _ _ Hthrow; discriminate.
      * split; [discriminate|].
        destruct (Hshape (Some target) Hself) as [Hsome Hnull].
        split; [exact Hsome|]. split; [exact Hnull|].
        intros packages0 q x [= <-] Hq _. rewrite Hfind in Hq.
        injection Hq as <-. reflexivity.
    + split; [discriminate|]. split; [discriminate|].
      split; [|intros ? ? ? [= <-] Habs; rewrite Hfind in Habs; discriminate].
      split; [intros _|reflexivity].
      exists packages. split; [reflexivity|].
      intros q Hq Hid.
      pose proof (find_none _ _ Hfind q Hq) as Hneq. simpl in Hneq.
      rewrite Hid, String.eqb_refl in Hneq. discriminate.
  - split; [intros x [= <-]; eauto|]. split; [discriminate|].
    split; [|intros ? ? ? Habs; discriminate].
    split; [discriminate|]. intros (packages & Habs & _). discriminate.
Qed.

(** Without a toolchain the listing fails with sdk-not-found, a
    [DotNetCliError]; [getPackageDetails] throws a plain [Error] that only
    quotes it. *)
Lemma getPackageDetails_behaviour_witness :
  exists m,
    @getPackageDetails Examples.no_toolchain Examples.not_json
       "App.csproj" "Newtonsoft.Json" noOptions
    = Throw (PlainError "Error" m).
Proof.
  destruct (getPackageDetails_behaviour Examples.no_toolchain Examples.not_json
              "App.csproj" "Newtonsoft.Json" noOptions) as (Hthrow & _).
  destruct (Hthrow _ eq_refl) as (m & Hm).
  exists m. now rewrite <- Hm.
Defined.

(** X6. Over the executor of this repository a child process that fails
    (non-zero exit code, or none at all as after a timeout) makes
    [listPackages] throw the error [handleListPackagesError] builds from the
    output: never timeout, never sdk-not-found. *)
Theorem failed_child_is_classified_by_output (T : ToolchainOutput)
    (execAsync : string -> Z -> option string -> CommandExecutor.ExecSettled)
    (elapsed : Z) (projectPath : string) (options : ListPackagesOptions)
    (out err : option string) (c : option Z) (msg : string) :
  Js.truthy projectPath = true ->
  execAsync (CommandExecutor.fullCommand "dotnet" (listPackagesArgs projectPath options))
            defaultTimeout None
  = CommandExecutor.Rejected out err c msg ->
  default 1 c <> 0 ->
  exists e,
    @listPackages {| executeCommand := CommandExecutor.executeCommand execAsync elapsed |} T
                  projectPath options = Throw (DotNetCliError e) /\
    In (code e) [PROJECT_NOT_FOUND; PROJECT_INVALID; PERMISSION_DENIED;
                 NETWORK_ERROR; LIST_PACKAGES_FAILED] /\
    code e <> TIMEOUT /\ code e <> SDK_NOT_FOUND.
Proof.
  intros Hpath Hexec Hcode. unfold listPackages, executeCommand,
    CommandExecutor.executeCommand.
  rewrite Hpath. simpl negb. cbv iota.
  change (default CommandExecutor.defaultTimeout
            (timeout {| cwd := None; timeout := Some defaultTimeout |}))
    with defaultTimeout.
  change (cwd {| cwd := None; timeout := Some defaultTimeout |}) with (@None string).
  rewrite Hexec.
  simpl exitCode. apply Z.eqb_neq in Hcode. rewrite Hcode. simpl negb. cbv iota.
  eexists. split; [reflexivity|].
  match goal with
  | |- context [handleListPackagesError ?r ?p] =>
      pose proof (handleListPackagesError_codes r p) as Hin;
      set (e := handleListPackagesError r p) in *
  end.
  split; [exact Hin|].
  simpl in Hin.
  split; intros Heq; rewrite Heq in Hin;
    repeat (destruct Hin as [Hin|Hin]; [discriminate Hin|]); exact Hin.
Qed.

(** A child process killed by the timeout of the executor (no exit code, no
    output): the listing reports list-packages-failed. *)
Lemma failed_child_is_classified_by_output_witness :
  exists e,
    @listPackages
       (Examples.executor (CommandExecutor.Rejected (Some "") (Some "") None
                             "Command failed: dotnet list App.csproj package"))
       Examples.not_json "App.csproj" (NuGetDependencyProvider.listOptions false)
    = Throw (DotNetCliError e) /\ code e = LIST_PACKAGES_FAILED.
Proof.
  destruct (failed_child_is_classified_by_output Examples.not_json
              (fun _ _ _ => CommandExecutor.Rejected (Some "") (Some "") None
                              "Command failed: dotnet list App.csproj package")
              12 "App.csproj" (NuGetDependencyProvider.listOptions false)
              (Some "") (Some "") None
              "Command failed: dotnet list App.csproj package"
              eq_refl eq_refl ltac:(discriminate)) as (e & Hrun & _).
  exists e. split; [exact Hrun|].
  injection Hrun as <-. reflexivity.
Defined.

End ClientFacts.

(* ===================================================================== *)
(** * The JSON parsers of the toolchain client *)
(* ===================================================================== *)

Module ParserFacts.
Import DotNetCliService.

Lemma truthy_nonempty (s : string) : Js.truthy s = true -> s <> "".
Proof. intros Ht ->. discriminate. Qed.

Lemma or_default_nonempty (a : option string) (d : string) :
  d <> "" -> Js.or_default a d <> "".
Proof.
  intros Hd. unfold Js.or_default. destruct a as [s|]; [|assumption].
  destruct (Js.truthy s) eqn:Ht; [now apply truthy_nonempty|assumption].
Qed.

Lemma trimEnd_idempotent (s : string) : Js.trimEnd (Js.trimEnd s) = Js.trimEnd s.
Proof.
  induction s as [|c s IH]; [reflexivity|]. simpl.
  destruct (Js.trimEnd s) as [|d t] eqn:Ht.
  - destruct (Js.is_ws c) eqn:Hc; [reflexivity|]. simpl. now rewrite Hc.
  - change (Js.trimEnd (String c (String d t))) with
      (match Js.trimEnd (String d t) with
       | EmptyString => if Js.is_ws c then EmptyString else String c EmptyString
       | r => String c r
       end).
    now rewrite IH.
Qed.

Lemma trimEnd_keeps_head (c : ascii) (s : string) :
  Js.is_ws c = false -> exists r, Js.trimEnd (String c s) = String c r.
Proof.
  intros Hc. simpl. destruct (Js.trimEnd s); rewrite ?Hc; eauto.
Qed.

Lemma trimStart_trimEnd_trimStart (s : string) :
  Js.trimStart (Js.trimEnd (Js.trimStart s)) = Js.trimEnd (Js.trimStart s).
Proof.
  induction s as [|c s IH]; [reflexivity|].
  simpl Js.trimStart at 2 3. destruct (Js.is_ws c) eqn:Hc; [exact IH|].
  destruct (trimEnd_keeps_head c s Hc) as (r & ->). simpl. now rewrite Hc.
Qed.

(** [trim] is idempotent. *)
Lemma trim_idempotent (s : string) : Js.trim (Js.trim s) = Js.trim s.
Proof.
  unfold Js.trim. rewrite trimStart_trimEnd_trimStart. apply trimEnd_idempotent.
Qed.

(** X7. What the JSON listing parser returns. Blank output gives the empty
    list without a parse. Every package returned has a non-empty identifier,
    version and framework name and no vulnerabilities, and is either direct
    at depth 0 or transitive at depth 1. *)
Theorem parseJsonOutput_packages_are_well_formed (T : ToolchainOutput) :
  (forall output, Js.trim output = "" -> parseJsonOutput output = Return []) /\
  (forall output packages pkg,
      parseJsonOutput output = Return packages -> In pkg packages ->
      id pkg <> "" /\ version pkg <> "" /\
      (exists fw, framework pkg = Some fw /\ fw <> "") /\
      vulnerabilities pkg = None /\
      ((isTransitive pkg = Some false /\ depth pkg = Some 0) \/
       (isTransitive pkg = Some true /\ depth pkg = Some 1))).
Proof.
  split.
  - intros output Hblank. unfold parseJsonOutput. rewrite Hblank.
    simpl. now rewrite orb_true_r.
  - intros output packages pkg. unfold parseJsonOutput.
    destruct (negb (Js.truthy output) || _); [intros [= <-] []|].
    destruct (JSON_parse output) as [rendered| |r]; try discriminate.
    destruct (Cli.projects r) as [ps|]; [|intros [= <-] []].
    intros [= <-] Hin.
    apply in_flat_map in Hin. destruct Hin as (project & _ & Hin).
    unfold projectPackages in Hin.
    destruct (Cli.frameworks project) as [fws|]; [|destruct Hin].
    apply in_flat_map in Hin. destruct Hin as (fw & _ & Hin).
    unfold frameworkPackages in Hin. apply in_app_or in Hin.
    assert (Hfw : Js.or_default (Cli.framework fw) "unknown" <> "")
      by (apply or_default_nonempty; discriminate).
    destruct Hin as [Hin|Hin].
    + destruct (Cli.topLevelPackages fw) as [pkgs|]; [|destruct Hin].
      apply in_flat_map in Hin. destruct Hin as (entry & _ & Hin).
      unfold topLevelPackage in Hin.
      destruct (Cli.pkg_id entry) as [i|]; [|destruct Hin].
      destruct (Js.truthy i) eqn:Hi; simpl in Hin; [|destruct Hin].
      destruct Hin as [<-|[]]. simpl.
      split; [now apply truthy_nonempty|].
      split; [apply or_default_nonempty; discriminate|].
      split; [eauto|]. split; [reflexivity|]. now left.
    + destruct (Cli.transitivePackages fw) as [pkgs|]; [|destruct Hin].
      apply in_flat_map in Hin. destruct Hin as (entry & _ & Hin).
      unfold transitivePackage in Hin.
      destruct (Cli.pkg_id entry) as [i|]; [|destruct Hin].
      destruct (Js.truthy i) eqn:Hi; simpl in Hin; [|destruct Hin].
      destruct Hin as [<-|[]]. simpl.
      split; [now apply truthy_nonempty|].
      split; [apply or_default_nonempty; discriminate|].
      split; [eauto|]. split; [reflexivity|]. now right.
Qed.

(** The listing of the two frameworks: both entries are well formed. *)
Lemma parseJsonOutput_packages_are_well_formed_witness :
  let T := Examples.json Examples.multiTargetReport in
  exists packages pkg,
    parseJsonOutput "{ listing of the two frameworks }" = Return packages /\
    In pkg packages /\ framework pkg = Some "net8.0" /\
    id pkg <> "" /\ version pkg <> "" /\ depth pkg = Some 0.
Proof.
  intros T.
  destruct (parseJsonOutput_packages_are_well_formed T) as [_ Hwf].
  eexists. eexists. split; [reflexivity|].
  assert (Hin : In (hd Examples.json130 (topLevelPackage "net8.0" Examples.jsonEntry))
                   (flat_map projectPackages
                      (default [] (Cli.projects Examples.multiTargetReport))))
    by (right; left; reflexivity).
  split; [exact Hin|]. split; [reflexivity|].
  destruct (Hwf "{ listing of the two frameworks }" _ _ eq_refl Hin)
    as (Hid & Hver & _).
  split; [exact Hid|]. split; [exact Hver|reflexivity].
Defined.

Lemma extractCveIds_nonempty (cveData : Cli.CveData) (e : string) :
  In e (extractCveIds cveData) -> e <> "".
Proof.
  destruct cveData as [|s|items|]; simpl; try (intros []).
  - destruct (Js.truthy s) eqn:Hs; [|intros []].
    intros [<-|[]]. now apply truthy_nonempty.
  - intros Hin. apply in_flat_map in Hin. destruct Hin as (item & Hitem & Hin).
    destruct item as [| | | |s|]; try (destruct Hin).
    destruct (String.eqb_spec (Js.trim s) "") as [|Hne]; simpl in Hin; [destruct Hin|].
    now destruct Hin as [<-|[]].
Qed.

(** X8. The identifiers [extractCveIds] returns are never empty; from an
    array they are the trimmed strings of the array that are not blank, so
    that trimming them again changes nothing. *)
Theorem extractCveIds_are_clean (cveData : Cli.CveData) (e : string) :
  In e (extractCveIds cveData) ->
  e <> "" /\
  (forall items, cveData = Cli.CveArray items ->
                 Js.trim e = e /\ exists s, In (Js.Str s) items /\ e = Js.trim s).
Proof.
  destruct cveData as [|s|items|]; simpl; try (intros []).
  - destruct (Js.truthy s) eqn:Hs; [|intros []].
    intros [<-|[]]. split; [now apply truthy_nonempty|discriminate].
  - intros Hin. apply in_flat_map in Hin. destruct Hin as (item & Hitem & Hin).
    destruct item as [| | | |s|]; try (destruct Hin).
    destruct (String.eqb_spec (Js.trim s) "") as [|Hne]; simpl in Hin; [destruct Hin|].
    destruct Hin as [<-|[]]. split; [assumption|].
    intros items0 [= <-]. split; [apply trim_idempotent|eauto].
Qed.

Lemma extractCveIds_are_clean_witness :
  extractCveIds (Cli.CveArray [Js.Str " CVE-2024-0001 "; Js.Number 7; Js.Str "  "])
  = ["CVE-2024-0001"] /\
  Js.trim "CVE-2024-0001" = "CVE-2024-0001".
Proof.
  split; [reflexivity|].
  destruct (extractCveIds_are_clean
              (Cli.CveArray [Js.Str " CVE-2024-0001 "; Js.Number 7; Js.Str "  "])
              "CVE-2024-0001" (or_introl eq_refl)) as [_ Harray].
  exact (proj1 (Harray _ eq_refl)).
Defined.

(** X9. What the vulnerability parser returns: every package has a
    non-empty identifier and version and a vulnerability list (possibly
    empty, never absent), its depth is 1 when it is marked transitive and 0
    otherwise, and every vulnerability has a non-empty title and a list of
    CVE identifiers none of which is empty. *)
Theorem parseVulnerablePackagesOutput_packages_are_well_formed
    (T : ToolchainOutput) (output : string) (packages : list NuGetPackage)
    (pkg : NuGetPackage) :
  parseVulnerablePackagesOutput output = Return packages -> In pkg packages ->
  id pkg <> "" /\ version pkg <> "" /\
  (exists b, isTransitive pkg = Some b /\ depth pkg = Some (if b then 1 else 0)) /\
  exists vulns,
    vulnerabilities pkg = Some vulns /\
    forall v, In v vulns ->
              title v <> "" /\
              exists ids, cve v = Some ids /\ forall i, In i ids -> i <> "".
Proof.
  unfold parseVulnerablePackagesOutput.
  destruct (negb (Js.truthy output) || _); [intros [= <-] []|].
  destruct (JSON_parse output) as [rendered| |r]; try discriminate.
  destruct (Cli.projects r) as [ps|]; [|intros [= <-] []].
  intros [= <-] Hin.
  apply in_flat_map in Hin. destruct Hin as (project & _ & Hin).
  destruct (Cli.frameworks project) as [fws|]; [|destruct Hin].
  apply in_flat_map in Hin. destruct Hin as (fw & _ & Hin).
  destruct (Cli.vulnerablePackages fw) as [vps|]; [|destruct Hin].
  apply in_flat_map in Hin. destruct Hin as (entry & _ & Hin).
  unfold vulnerablePackage in Hin.
  destruct (Cli.pkg_id entry) as [i|]; [|destruct Hin].
  destruct (Js.truthy i) eqn:Hi; simpl in Hin; [|destruct Hin].
  destruct Hin as [<-|[]]. simpl.
  split; [now apply truthy_nonempty|].
  split; [apply or_default_nonempty; discriminate|].
  split; [eauto|]. eexists. split; [reflexivity|].
  intros v Hv.
  assert (Hone : exists k cv, In v (parseVulnerability k cv)).
  { destruct (Cli.vulnerabilities entry) as [vs|]; [|destruct Hv].
    apply in_concat in Hv. destruct Hv as (chunk & Hchunk & Hvin).
    apply list_elem_of_In, elem_of_lookup_imap in Hchunk.
    destruct Hchunk as (k & cv & -> & _). eauto. }
  destruct Hone as (k & [vuln|] & Hk); [|destruct Hk].
  destruct Hk as [<-|[]]. simpl.
  split; [apply or_default_nonempty; discriminate|].
  eexists. split; [reflexivity|].
  intros c Hc. now apply (extractCveIds_nonempty _ _ Hc).
Qed.

(** The report with a "critical" and a "Medium" advisory: two packages,
    each with one vulnerability, of severity Critical and Moderate. *)
Lemma parseVulnerablePackagesOutput_packages_are_well_formed_witness :
  let T := Examples.json Examples.vulnerabilityReport in
  exists packages,
    parseVulnerablePackagesOutput "{ report }" = Return packages /\
    map (fun pkg => map severity (default [] (vulnerabilities pkg))) packages
    = [[Critical]; [Moderate]] /\
    forall pkg, In pkg packages -> id pkg <> "" /\ vulnerabilities pkg <> None.
Proof.
  intros T. eexists. split; [reflexivity|]. split; [reflexivity|].
  intros pkg Hin.
  destruct (parseVulnerablePackagesOutput_packages_are_well_formed T "{ report }"
              _ pkg eq_refl Hin) as (Hid & _ & _ & vulns & Hv & _).
  split; [exact Hid|]. rewrite Hv. discriminate.
Defined.

End ParserFacts.

(* ===================================================================== *)
(** * The command executor *)
(* ===================================================================== *)

Module ExecutorFacts.
Import CommandExecutor.

(** X10. The executor never rejects: whatever the child process does, the
    call returns a result that names the full command line; a child that
    settles normally has exit code 0 and one that fails without an exit code
    has exit code 1. A command is reported available exactly when its
    version can be read. *)
Theorem executor_always_returns
    (execAsync : string -> Z -> option string -> ExecSettled) (elapsed : Z)
    (cmd : string) (args : list string) (options : CommandExecutionOptions) :
  (exists result,
      executeCommand execAsync elapsed cmd args options = Return result /\
      command result = fullCommand cmd args /\
      match execAsync (fullCommand cmd args)
              (default defaultTimeout (timeout options)) (cwd options) with
      | Resolved out err => exitCode result = 0 /\ stdout result = out
      | Rejected _ _ None _ => exitCode result = 1
      | Rejected _ _ (Some c) _ => exitCode result = c
      end) /\
  (isCommandAvailable execAsync elapsed cmd = true <->
   exists version, getCommandVersion execAsync elapsed cmd = Return version).
Proof.
  split.
  - unfold executeCommand.
    destruct (execAsync _ _ _) as [out err|out err [c|] msg];
      eexists; (split; [reflexivity|]); simpl; auto.
  - unfold isCommandAvailable, getCommandVersion, executeCommand.
    destruct (execAsync _ _ _) as [out err|out err c msg]; simpl.
    + split; eauto.
    + destruct (default 1 c =? 0); simpl.
      * split; eauto.
      * split; [discriminate|]. intros (version & Habs). discriminate.
Qed.

End ExecutorFacts.

(* ===================================================================== *)
(** * The in-memory cache as a map with expiry *)
(* ===================================================================== *)

Module MemoryCacheFacts.
Import CacheManager.

Section InMemory.
Context {T : Type}.
Implicit Types (cache : gmap string (CacheEntry T)) (k : string) (v : T).

(** An entry is live at [now] when the comparison that evicts it fails. *)
Lemma cleanup_lookup cache now k e :
  cleanup cache now !! k = Some e <->
  cache !! k = Some e /\ Date.gt (Date.ofTime now) (expiresAt e) = false.
Proof.
  unfold cleanup. rewrite map_lookup_filter_Some. simpl.
  rewrite negb_true_iff. reflexivity.
Qed.

Lemma get_value cache now k :
  (get cache now k).1 =
  match cache !! k with
  | Some e => if Date.gt (Date.ofTime now) (expiresAt e) then None else Some (data e)
  | None => None
  end.
Proof. unfold get. destruct (cache !! k) as [e|]; [|reflexivity]. now destruct (Date.gt _ _). Qed.

(** [get] and [has] leave the same map: the one they found, or that map
    without the key. *)
Lemma has_state cache now k : (has cache now k).2 = (get cache now k).2.
Proof.
  unfold has, get. destruct (cache !! k) as [e|]; [|reflexivity].
  now destruct (Date.gt _ _).
Qed.

Lemma get_state cache now k :
  (get cache now k).2 = cache \/ (get cache now k).2 = delete k cache.
Proof.
  unfold get. destruct (cache !! k) as [e|]; [|now left].
  destruct (Date.gt _ _); [now right|now left].
Qed.

End InMemory.

(** X11. [has] and [get] agree: [has] answers true exactly when [get]
    returns a value, and both leave the same map behind (the entry evicted
    when it has expired, nothing changed otherwise). *)
Theorem has_agrees_with_get {T : Type} (cache : gmap string (CacheEntry T))
    (now : Z) (k : string) :
  (has cache now k).1 = bool_decide (is_Some (get cache now k).1) /\
  (has cache now k).2 = (get cache now k).2 /\
  ((get cache now k).2 = cache \/ (get cache now k).2 = delete k cache).
Proof.
  unfold has, get. destruct (cache !! k) as [e|]; simpl.
  - destruct (Date.gt _ _); simpl.
    + repeat split; auto.
    + repeat split; auto.
  - repeat split; auto.
Qed.

(** X12. The sweep removes exactly the entries that have expired at the
    time of the sweep. A reader at that time sees no difference: every
    [get] returns what it returned before the sweep, and evicts nothing
    more. Sweeping twice is sweeping once. *)
Theorem cleanup_removes_exactly_the_expired {T : Type}
    (cache : gmap string (CacheEntry T)) (now : Z) :
  (forall k e,
      cleanup cache now !! k = Some e <->
      cache !! k = Some e /\ Date.gt (Date.ofTime now) (expiresAt e) = false) /\
  (forall k,
      (get (cleanup cache now) now k).1 = (get cache now k).1 /\
      (get (cleanup cache now) now k).2 = cleanup cache now) /\
  cleanup (cleanup cache now) now = cleanup cache now.
Proof.
  split; [intros k e; apply cleanup_lookup|]. split.
  - intros k. rewrite !get_value. unfold get.
    destruct (cleanup cache now !! k) as [e|] eqn:Hc.
    + apply cleanup_lookup in Hc. destruct Hc as [Hk Hlive].
      rewrite Hk, Hlive. auto.
    + destruct (cache !! k) as [e|] eqn:Hk; [|auto].
      destruct (Date.gt (Date.ofTime now) (expiresAt e)) eqn:Hlive; [auto|].
      assert (Hsome : cleanup cache now !! k = Some e) by (apply cleanup_lookup; auto).
      congruence.
  - apply map_eq. intros k. apply option_eq. intros e.
    rewrite !cleanup_lookup. tauto.
Qed.

(** X13. Operations on one key do not disturb another: after [set],
    [get], [has] or [delete] on [k], a [get] of a different key returns
    what it would have returned before. *)
Theorem other_keys_are_untouched {T : Type} (cache : gmap string (CacheEntry T))
    (now later : Z) (k k' : string) (v : T) (ttl : option Z) :
  k <> k' ->
  (get (set cache now k v ttl) later k').1 = (get cache later k').1 /\
  (get (get cache now k).2 later k').1 = (get cache later k').1 /\
  (get (has cache now k).2 later k').1 = (get cache later k').1 /\
  (get (delete_ cache k) later k').1 = (get cache later k').1.
Proof.
  intros Hne.
  assert (Hdel : (get (delete k cache) later k').1 = (get cache later k').1).
  { rewrite !MemoryCacheFacts.get_value. now rewrite lookup_delete_ne. }
  split; [|split; [|split]].
  - rewrite !MemoryCacheFacts.get_value. unfold set. now rewrite lookup_insert_ne.
  - destruct (MemoryCacheFacts.get_state cache now k) as [-> | ->]; auto.
  - rewrite MemoryCacheFacts.has_state.
    destruct (MemoryCacheFacts.get_state cache now k) as [-> | ->]; auto.
  - exact Hdel.
Qed.

Lemma other_keys_are_untouched_witness :
  let cache := set (∅ : gmap string (CacheEntry nat)) 5000 "deps" 42%nat (Some 1000) in
  (get (set cache 5500 "graph" 7%nat None) 5600 "deps").1 = Some 42%nat /\
  (get (delete_ cache "graph") 5600 "deps").1 = Some 42%nat.
Proof.
  intros cache.
  destruct (other_keys_are_untouched cache 5500 5600 "graph" "deps" 7%nat None)
    as (Hset & _ & _ & Hdel); [discriminate|].
  rewrite Hset, Hdel. split; reflexivity.
Defined.

(** X14. The cache is a map: a second [set] on a key replaces the first
    (the value read is the second one, and the key is counted once); a key
    that is deleted reads as null at any time; a cleared cache has no entry
    and every [get] on it returns null. [getStats] counts a new key and does
    not look at expiry. *)
Theorem set_delete_clear_compose {T : Type} (cache : gmap string (CacheEntry T))
    (k : string) (v1 v2 : T) (ttl1 ttl2 : option Z) (now1 now2 later : Z) :
  (0 <= default defaultTtl ttl2 ->
   (get (set (set cache now1 k v1 ttl1) now2 k v2 ttl2) now2 k).1 = Some v2) /\
  (getStats (set (set cache now1 k v1 ttl1) now2 k v2 ttl2)).1
  = (getStats (set cache now1 k v1 ttl1)).1 /\
  (getStats (set cache now1 k v1 ttl1)).1
  = (if bool_decide (is_Some (cache !! k)) then size cache else S (size cache)) /\
  (get (delete_ (set cache now1 k v1 ttl1) k) later k).1 = None /\
  (has (delete_ (set cache now1 k v1 ttl1) k) later k).1 = false /\
  getStats (clear cache) = (0%nat, ∅) /\
  (forall k', (get (clear cache) later k').1 = None).
Proof.
  assert (Hsize : forall (c : gmap string (CacheEntry T)) e,
             size (<[k := e]> c)
             = if bool_decide (is_Some (c !! k)) then size c else S (size c)).
  { intros c e. destruct (c !! k) as [e0|] eqn:Hk.
    - rewrite bool_decide_eq_true_2 by eauto.
      rewrite <- (insert_delete_id c k e0 Hk) at 2.
      rewrite <- (insert_delete_eq c k e).
      rewrite !map_size_insert_None by apply lookup_delete_eq. reflexivity.
    - rewrite bool_decide_eq_false_2 by (intros [? ?]; discriminate).
      now apply map_size_insert_None. }
  split; [|split; [|split; [|split; [|split; [|split]]]]].
  - intros Hpos. rewrite MemoryCacheFacts.get_value. unfold set.
    rewrite lookup_insert_eq. simpl.
    now rewrite CacheFacts.gt_ofTime_false by lia.
  - unfold getStats, set. simpl. rewrite Hsize, lookup_insert_eq.
    now rewrite bool_decide_eq_true_2 by eauto.
  - unfold getStats, set. simpl. apply Hsize.
  - rewrite MemoryCacheFacts.get_value. unfold delete_. now rewrite lookup_delete_eq.
  - unfold has, delete_. now rewrite lookup_delete_eq.
  - unfold getStats, clear. simpl. now rewrite map_size_empty, dom_empty_L.
  - intros k'. rewrite MemoryCacheFacts.get_value. unfold clear.
    now rewrite lookup_empty.
Qed.

Lemma set_delete_clear_compose_witness :
  (get (set (set (∅ : gmap string (CacheEntry nat)) 5000 "deps" 1%nat None)
            5100 "deps" 2%nat (Some 60000)) 5100 "deps").1 = Some 2%nat.
Proof.
  apply (set_delete_clear_compose ∅ "deps" 1%nat 2%nat None (Some 60000) 5000 5100 0).
  simpl. lia.
Defined.

End MemoryCacheFacts.

(* ===================================================================== *)
(** * The persistent cache: validity, information and sweeps *)
(* ===================================================================== *)

Module DiskCacheFacts.
Import CacheManager Spec.

Section Disk.
Context `{Path} `{CacheCodec}.
Implicit Types (fs : gmap string FsNode) (cacheDir projectPath : string).

Lemma hasValid_document cacheDir fs now projectPath content d :
  fs !! cacheFileOf cacheDir projectPath = Some (File content) ->
  JSON_parse_cache content = CacheFile.Document d ->
  hasValidVulnerabilityCache cacheDir fs now projectPath
  = Date.le (Date.ofTime now) (dateOfValue (CacheFile.expiresAt d)).
Proof.
  intros Hfile Hparse. unfold hasValidVulnerabilityCache, Fs.existsSync, Fs.readFile.
  rewrite Hfile. rewrite bool_decide_eq_true_2 by eauto. simpl. now rewrite Hparse.
Qed.

Lemma hasValid_true_inv cacheDir fs now projectPath :
  hasValidVulnerabilityCache cacheDir fs now projectPath = true ->
  exists content d,
    fs !! cacheFileOf cacheDir projectPath = Some (File content) /\
    JSON_parse_cache content = CacheFile.Document d /\
    Date.le (Date.ofTime now) (dateOfValue (CacheFile.expiresAt d)) = true.
Proof.
  unfold hasValidVulnerabilityCache, Fs.existsSync, Fs.readFile.
  destruct (fs !! cacheFileOf cacheDir projectPath) as [[content|]|] eqn:Hfile.
  - rewrite bool_decide_eq_true_2 by eauto. simpl.
    destruct (JSON_parse_cache content) as [r| |d] eqn:Hparse; try discriminate.
    intros Hle. eauto.
  - rewrite bool_decide_eq_true_2 by eauto. discriminate.
  - rewrite bool_decide_eq_false_2; [discriminate|]. intros [? ?]; discriminate.
Qed.

Lemma le_true_gt_false (a b : Date.t) : Date.le a b = true -> Date.gt a b = false.
Proof.
  destruct a as [x|], b as [y|]; simpl; try discriminate.
  intros Hle. apply Z.leb_le in Hle. apply Z.ltb_ge. exact Hle.
Qed.

End Disk.

(** X15. The validity check and the read agree when the file carries a
    date: with a valid cache the read returns the stored list and leaves the
    disk alone, and at a valid clock reading a dated file is valid exactly
    when the read returns something. They disagree on a file whose expiry is
    no date: the check says invalid, the read serves the file all the same. *)
Theorem validity_check_agrees_with_read (P : Path) (C : CacheCodec)
    (cacheDir projectPath : string) (fs : gmap string FsNode) (now : Z) :
  (hasValidVulnerabilityCache cacheDir fs now projectPath = true ->
   exists v, getCachedVulnerabilityData cacheDir fs now projectPath = (Stored v, fs)) /\
  (forall content d,
      fs !! cacheFileOf cacheDir projectPath = Some (File content) ->
      JSON_parse_cache content = CacheFile.Document d ->
      Date.validTime now ->
      (dateOfValue (CacheFile.expiresAt d) <> None ->
       (hasValidVulnerabilityCache cacheDir fs now projectPath = true <->
        (getCachedVulnerabilityData cacheDir fs now projectPath).1 <> NoCache)) /\
      (dateOfValue (CacheFile.expiresAt d) = None ->
       hasValidVulnerabilityCache cacheDir fs now projectPath = false /\
       getCachedVulnerabilityData cacheDir fs now projectPath
       = (Stored (CacheFile.vulnerabilities d), fs))).
Proof.
  split.
  - intros Hvalid. destruct (hasValid_true_inv _ _ _ _ Hvalid)
      as (content & d & Hfile & Hparse & Hle).
    rewrite (PersistentCacheFacts.getCached_document _ _ _ _ _ _ Hfile Hparse).
    rewrite (le_true_gt_false _ _ Hle). eauto.
  - intros content d Hfile Hparse Hnow.
    rewrite (hasValid_document _ _ _ _ _ _ Hfile Hparse).
    rewrite (PersistentCacheFacts.getCached_document _ _ _ _ _ _ Hfile Hparse).
    rewrite (CacheFacts.ofTime_valid _ Hnow).
    destruct (dateOfValue (CacheFile.expiresAt d)) as [y|]; simpl.
    + split; [intros _|congruence].
      destruct (Z.leb_spec now y) as [Hle|Hlt], (Z.ltb_spec y now) as [Hlt'|Hle'];
        simpl; try lia.
      * split; [discriminate|reflexivity].
      * split; [discriminate|congruence].
    + split; [congruence|auto].
Qed.

Lemma validity_check_agrees_with_read_witness :
  let P := Examples.posix in
  let C := Examples.sampleCodec in
  let fs1 := cacheVulnerabilityData "/cache" ∅ Examples.scanTime "/work/App/App.csproj"
               Examples.sampleVulnerabilities in
  hasValidVulnerabilityCache "/cache" fs1 (Examples.scanTime + 5) "/work/App/App.csproj"
  = true /\
  exists v, getCachedVulnerabilityData "/cache" fs1 (Examples.scanTime + 5)
              "/work/App/App.csproj" = (Stored v, fs1).
Proof.
  intros P C fs1. split; [reflexivity|].
  apply (validity_check_agrees_with_read P C "/cache" "/work/App/App.csproj" fs1
           (Examples.scanTime + 5)).
  reflexivity.
Defined.

(** X16. The cache information after a write at [now], asked at [later]
    (the file can be written, and the document and its two dates read back as
    written). Up to 24 hours after the write the cache is reported present
    with age [later - now], and offline mode is on exactly when the age
    exceeds one hour; after 24 hours the cache is reported absent, without
    age, and offline mode is off. Without a project path nothing is looked
    up. The in-memory size is the number of entries in every case. *)
Theorem cache_info_after_write {T : Type} (P : Path) (C : CacheCodec)
    (cacheDir projectPath : string) (cache : gmap string (CacheEntry T))
    (fs : gmap string FsNode) (vulns : list VulnerabilityInfo) (now later : Z) :
  Date.validTime now -> Date.validTime (now + vulnerabilityTtl) ->
  Date.validTime later ->
  Js.truthy projectPath = true ->
  fs !! cacheFileOf cacheDir projectPath <> Some Unreadable ->
  JSON_parse_cache (JSON_stringify (writtenCacheData projectPath vulns now))
  = CacheFile.Document (writtenCacheData projectPath vulns now) ->
  Date_parse (toISOString now) = Some now ->
  Date_parse (toISOString (now + vulnerabilityTtl)) = Some (now + vulnerabilityTtl) ->
  let fs1 := cacheVulnerabilityData cacheDir fs now projectPath vulns in
  let info := getCacheInfo cacheDir cache fs1 later (Some projectPath) in
  inMemorySize info = size cache /\
  (later <= now + 24 * 60 * 60 * 1000 ->
   hasVulnerabilityCache info = true /\
   vulnerabilityCacheAge info = Some (Some (later - now)) /\
   offlineMode info = bool_decide (60 * 60 * 1000 < later - now)) /\
  (now + 24 * 60 * 60 * 1000 < later ->
   hasVulnerabilityCache info = false /\
   vulnerabilityCacheAge info = None /\ offlineMode info = false) /\
  getCacheInfo cacheDir cache fs1 later None
  = {| inMemorySize := size cache; hasVulnerabilityCache := false;
       vulnerabilityCacheAge := None; offlineMode := false |}.
Proof.
  intros Hnow Hexp Hlater Hpath Hnode Hcodec Hstamp Hdate fs1 info.
  assert (Hfs1 : fs1 !! cacheFileOf cacheDir projectPath
                 = Some (File (JSON_stringify (writtenCacheData projectPath vulns now)))).
  { subst fs1. rewrite PersistentCacheFacts.cacheVulnerabilityData_writes by assumption.
    apply lookup_insert_eq. }
  pose proof (hasValid_document cacheDir fs1 later projectPath _ _ Hfs1 Hcodec) as Hvalid.
  simpl in Hvalid. rewrite Hdate, (CacheFacts.ofTime_valid _ Hlater) in Hvalid.
  simpl in Hvalid.
  subst info. unfold getCacheInfo. rewrite Hpath. simpl negb. cbv iota.
  rewrite Hvalid. unfold Fs.readFile. rewrite Hfs1, Hcodec.
  simpl CacheFile.timestamp. simpl dateOfValue. rewrite Hstamp.
  change (24 * 60 * 60 * 1000) with vulnerabilityTtl.
  destruct (Z.leb_spec later (now + vulnerabilityTtl)) as [Hle|Hgt]; simpl.
  - split; [reflexivity|]. split; [|split; [lia|reflexivity]].
    intros _. split; [reflexivity|]. split; [reflexivity|].
    destruct (Z.ltb_spec (60 * 60 * 1000) (later - now)) as [Hold|Hfresh].
    + rewrite bool_decide_eq_true_2 by lia. reflexivity.
    + rewrite bool_decide_eq_false_2 by lia. reflexivity.
  - split; [reflexivity|]. split; [lia|]. split; [auto|reflexivity].
Qed.

(** The sample written at [Examples.scanTime]: half an hour later the
    cache is fresh, two hours later it is served in offline mode. *)
Lemma cache_info_after_write_witness :
  let P := Examples.posix in
  let C := Examples.sampleCodec in
  let now := Examples.scanTime in
  let fs1 := cacheVulnerabilityData "/cache" ∅ now "/work/App/App.csproj"
               Examples.sampleVulnerabilities in
  offlineMode (getCacheInfo "/cache" (∅ : gmap string (CacheEntry nat)) fs1
                 (now + 1800000) (Some "/work/App/App.csproj")) = false /\
  offlineMode (getCacheInfo "/cache" (∅ : gmap string (CacheEntry nat)) fs1
                 (now + 7200000) (Some "/work/App/App.csproj")) = true.
Proof.
  intros P C now fs1.
  assert (Hv : forall z, Z.abs z <= 1800000000000 -> Date.validTime z)
    by (unfold Date.validTime, Date.maxTime; lia).
  assert (Hnow : Date.validTime now) by (apply Hv; vm_compute; discriminate).
  assert (Hexp : Date.validTime (now + vulnerabilityTtl))
    by (apply Hv; vm_compute; discriminate).
  assert (Hnode : (∅ : gmap string FsNode) !! cacheFileOf "/cache" "/work/App/App.csproj"
                  <> Some Unreadable) by (rewrite lookup_empty; discriminate).
  pose proof (fun later Hl =>
    @cache_info_after_write nat P C "/cache" "/work/App/App.csproj" ∅ ∅
      Examples.sampleVulnerabilities now later Hnow Hexp Hl eq_refl Hnode
      eq_refl eq_refl eq_refl) as Hthm.
  split.
  - destruct (Hthm (now + 1800000)) as (_ & Hfresh & _); [apply Hv; vm_compute; discriminate|].
    destruct Hfresh as (_ & _ & Hoff); [vm_compute; discriminate|].
    exact (eq_trans Hoff eq_refl).
  - destruct (Hthm (now + 7200000)) as (_ & Hfresh & _); [apply Hv; vm_compute; discriminate|].
    destruct Hfresh as (_ & _ & Hoff); [vm_compute; discriminate|].
    exact (eq_trans Hoff eq_refl).
Defined.

End DiskCacheFacts.

(* ===================================================================== *)
(** * The sweeps of the persistent cache *)
(* ===================================================================== *)

Module SweepFacts.
Import CacheManager Spec.

Lemma substring_whole (p : string) : String.substring 0 (String.length p) p = p.
Proof. induction p as [|d p IHp]; simpl; [reflexivity|]. now rewrite IHp. Qed.

Lemma substring_app_suffix (s p : string) :
  String.substring (String.length s) (String.length p) (s +:+ p) = p.
Proof. induction s as [|c s IH]; simpl; [apply substring_whole|exact IH]. Qed.

Lemma length_app_string (s p : string) :
  String.length (s +:+ p) = (String.length s + String.length p)%nat.
Proof. induction s as [|c s IH]; simpl; [reflexivity|]. now rewrite IH. Qed.

(** A name built with a suffix ends with it. *)
Lemma endsWith_app (s p : string) : Js.endsWith (s +:+ p) p = true.
Proof.
  unfold Js.endsWith. rewrite length_app_string.
  replace (String.length s + String.length p - String.length p)%nat
    with (String.length s) by lia.
  rewrite substring_app_suffix, String.eqb_refl.
  rewrite andb_true_r. apply Nat.leb_le. lia.
Qed.

Section Sweeps.
Context `{Path} `{CacheCodec}.
Implicit Types (fs : gmap string FsNode) (cacheDir path : string) (files : list string).

Lemma listedJson_cons cacheDir file files path :
  listedJson cacheDir (file :: files) path
  = (Js.endsWith file ".json" && String.eqb (path_join cacheDir file) path)
    || listedJson cacheDir files path.
Proof. reflexivity. Qed.

Lemma cleanupFile_lookup cacheDir now fs file path :
  cleanupFile cacheDir now fs file !! path
  = if String.eqb (path_join cacheDir file) path && staleFile now (fs !! path)
    then None else fs !! path.
Proof.
  unfold cleanupFile, Fs.readFile, Fs.unlink_quiet, staleFile.
  destruct (String.eqb_spec (path_join cacheDir file) path) as [->|Hne]; simpl.
  - destruct (fs !! path) as [[content|]|] eqn:Hnode.
    + destruct (JSON_parse_cache content) as [r| |d]; try apply lookup_delete_eq.
      destruct (Date.gt _ _); [apply lookup_delete_eq|exact Hnode].
    + apply lookup_delete_eq.
    + apply lookup_delete_eq.
  - destruct (fs !! path_join cacheDir file) as [[content|]|];
      try (now apply lookup_delete_ne).
    destruct (JSON_parse_cache content) as [r| |d]; try (now apply lookup_delete_ne).
    destruct (Date.gt _ _); [now apply lookup_delete_ne|reflexivity].
Qed.

Lemma sweep_lookup cacheDir now files fs path :
  cleanupExpiredVulnerabilityCache cacheDir fs now (Return files) !! path
  = if listedJson cacheDir files path && staleFile now (fs !! path)
    then None else fs !! path.
Proof.
  unfold cleanupExpiredVulnerabilityCache.
  revert fs. induction files as [|file files IH]; intros fs; [reflexivity|].
  rewrite listedJson_cons. simpl List.filter.
  destruct (Js.endsWith file ".json"); simpl.
  - rewrite IH, cleanupFile_lookup.
    destruct (String.eqb (path_join cacheDir file) path); simpl; [|reflexivity].
    destruct (staleFile now (fs !! path)) eqn:Hstale; simpl.
    + now rewrite andb_true_r, Tauto.if_same.
    + rewrite Hstale, andb_false_r. reflexivity.
  - apply IH.
Qed.

Lemma clear_lookup cacheDir files fs path :
  clearVulnerabilityCache cacheDir fs (Return files) !! path
  = if listedJson cacheDir files path then None else fs !! path.
Proof.
  unfold clearVulnerabilityCache.
  revert fs. induction files as [|file files IH]; intros fs; [reflexivity|].
  rewrite listedJson_cons. simpl List.filter.
  destruct (Js.endsWith file ".json"); simpl; [|apply IH].
  rewrite IH. unfold Fs.unlink_quiet.
  destruct (String.eqb_spec (path_join cacheDir file) path) as [->|Hne]; simpl.
  - rewrite lookup_delete_eq. now rewrite Tauto.if_same.
  - now rewrite lookup_delete_ne.
Qed.

(** The file of a project is listed when its name is. *)
Lemma listedJson_cacheFile cacheDir files projectPath :
  In (getVulnerabilityCacheKey projectPath +:+ ".json") files ->
  listedJson cacheDir files (cacheFileOf cacheDir projectPath) = true.
Proof.
  intros Hin. unfold listedJson. apply existsb_exists.
  exists (getVulnerabilityCacheKey projectPath +:+ ".json"). split; [exact Hin|].
  rewrite endsWith_app. unfold cacheFileOf. now rewrite String.eqb_refl.
Qed.

End Sweeps.

Section Reads.
Context `{Path} `{CacheCodec}.
Implicit Types (fs : gmap string FsNode) (cacheDir projectPath : string).

(** What a read returns depends on the cache file of the project alone. *)
Lemma getCached_fst cacheDir fs now projectPath :
  (getCachedVulnerabilityData cacheDir fs now projectPath).1
  = match fs !! cacheFileOf cacheDir projectPath with
    | Some (File content) =>
        match JSON_parse_cache content with
        | CacheFile.Document d =>
            if Date.gt (Date.ofTime now) (dateOfValue (CacheFile.expiresAt d))
            then NoCache else Stored (CacheFile.vulnerabilities d)
        | _ => NoCache
        end
    | _ => NoCache
    end.
Proof.
  destruct (fs !! cacheFileOf cacheDir projectPath) as [[content|]|] eqn:Hnode.
  - destruct (JSON_parse_cache content) as [r| |d] eqn:Hparse.
    + now rewrite (PersistentCacheFacts.getCached_unparseable _ _ _ _ _ _ Hnode Hparse).
    + now rewrite (PersistentCacheFacts.getCached_null _ _ _ _ _ Hnode Hparse).
    + rewrite (PersistentCacheFacts.getCached_document _ _ _ _ _ _ Hnode Hparse).
      now destruct (Date.gt _ _).
  - now rewrite (PersistentCacheFacts.getCached_unreadable _ _ _ _ Hnode).
  - now rewrite (PersistentCacheFacts.getCached_missing _ _ _ _ Hnode).
Qed.

(** A read changes the disk only by deleting a document past its expiry. *)
Lemma getCached_snd cacheDir fs now projectPath :
  staleFile now (fs !! cacheFileOf cacheDir projectPath) = false \/
  fs !! cacheFileOf cacheDir projectPath = None ->
  (getCachedVulnerabilityData cacheDir fs now projectPath).2 = fs.
Proof.
  unfold staleFile.
  destruct (fs !! cacheFileOf cacheDir projectPath) as [[content|]|] eqn:Hnode.
  - destruct (JSON_parse_cache content) as [r| |d] eqn:Hparse;
      intros [Hfresh|Hnone]; try discriminate.
    rewrite (PersistentCacheFacts.getCached_document _ _ _ _ _ _ Hnode Hparse).
    now rewrite Hfresh.
  - intros [?|?]; discriminate.
  - intros _. now rewrite (PersistentCacheFacts.getCached_missing _ _ _ _ Hnode).
Qed.

Lemma hasValid_lookup cacheDir fs now projectPath :
  hasValidVulnerabilityCache cacheDir fs now projectPath
  = match fs !! cacheFileOf cacheDir projectPath with
    | Some (File content) =>
        match JSON_parse_cache content with
        | CacheFile.Document d =>
            Date.le (Date.ofTime now) (dateOfValue (CacheFile.expiresAt d))
        | _ => false
        end
    | _ => false
    end.
Proof.
  unfold hasValidVulnerabilityCache, Fs.existsSync, Fs.readFile.
  destruct (fs !! cacheFileOf cacheDir projectPath) as [[content|]|] eqn:Hnode.
  - rewrite bool_decide_eq_true_2 by eauto. simpl.
    now destruct (JSON_parse_cache content).
  - rewrite bool_decide_eq_true_2 by eauto. reflexivity.
  - rewrite bool_decide_eq_false_2; [reflexivity|]. intros [? ?]; discriminate.
Qed.

Lemma valid_is_not_stale cacheDir fs now projectPath :
  hasValidVulnerabilityCache cacheDir fs now projectPath = true ->
  staleFile now (fs !! cacheFileOf cacheDir projectPath) = false.
Proof.
  rewrite hasValid_lookup. unfold staleFile.
  destruct (fs !! cacheFileOf cacheDir projectPath) as [[content|]|]; try discriminate.
  destruct (JSON_parse_cache content) as [r| |d]; try discriminate.
  apply DiskCacheFacts.le_true_gt_false.
Qed.

End Reads.

(** X17. The sweep of expired cache files, given the names the cache
    directory lists. A path that is readable or missing is removed exactly
    when it is that of a listed name ending in ".json" whose file does not
    parse to a document or is past its expiry; nothing is created or
    rewritten. A cache that the validity check accepts survives the sweep and
    stays valid; what a read returns is the same before and after the sweep;
    and after the sweep a read of a listed cache has nothing left to delete.
    When the directory cannot be listed the disk is left as it was. *)
Theorem sweep_removes_exactly_the_stale (P : Path) (C : CacheCodec)
    (cacheDir : string) (fs : gmap string FsNode) (now : Z) (files : list string) :
  let fs' := cleanupExpiredVulnerabilityCache cacheDir fs now (Return files) in
  (forall path,
      fs !! path <> Some Unreadable ->
      fs' !! path = if listedJson cacheDir files path && staleFile now (fs !! path)
                    then None else fs !! path) /\
  fs' ⊆ fs /\
  (forall projectPath,
      hasValidVulnerabilityCache cacheDir fs now projectPath = true ->
      fs' !! cacheFileOf cacheDir projectPath = fs !! cacheFileOf cacheDir projectPath /\
      hasValidVulnerabilityCache cacheDir fs' now projectPath = true) /\
  (forall projectPath,
      (getCachedVulnerabilityData cacheDir fs' now projectPath).1
      = (getCachedVulnerabilityData cacheDir fs now projectPath).1) /\
  (forall projectPath,
      In (getVulnerabilityCacheKey projectPath +:+ ".json") files ->
      (getCachedVulnerabilityData cacheDir fs' now projectPath).2 = fs') /\
  (forall e, cleanupExpiredVulnerabilityCache cacheDir fs now (Throw e) = fs).
Proof.
  intros fs'.
  assert (Hlookup : forall path,
             fs' !! path = if listedJson cacheDir files path && staleFile now (fs !! path)
                           then None else fs !! path)
    by (intros path; apply sweep_lookup).
  split; [intros path _; apply Hlookup|].
  split.
  { apply map_subseteq_spec. intros path node. rewrite Hlookup.
    destruct (_ && _); [discriminate|auto]. }
  split.
  { intros projectPath Hvalid.
    assert (Hsame : fs' !! cacheFileOf cacheDir projectPath
                    = fs !! cacheFileOf cacheDir projectPath).
    { rewrite Hlookup, (valid_is_not_stale _ _ _ _ Hvalid). now rewrite andb_false_r. }
    split; [exact Hsame|]. rewrite hasValid_lookup, Hsame, <- hasValid_lookup.
    exact Hvalid. }
  split.
  { intros projectPath. rewrite !getCached_fst, Hlookup.
    destruct (listedJson cacheDir files (cacheFileOf cacheDir projectPath)); simpl;
      [|reflexivity].
    destruct (staleFile now (fs !! cacheFileOf cacheDir projectPath)) eqn:Hstale;
      [|reflexivity].
    unfold staleFile in Hstale.
    destruct (fs !! cacheFileOf cacheDir projectPath) as [[content|]|]; try reflexivity.
    destruct (JSON_parse_cache content) as [r| |d]; try reflexivity.
    now rewrite Hstale. }
  split; [|reflexivity].
  intros projectPath Hin. apply getCached_snd.
  rewrite Hlookup, (listedJson_cacheFile _ _ _ Hin). simpl.
  destruct (staleFile now (fs !! cacheFileOf cacheDir projectPath)) eqn:Hstale; auto.
Qed.

(** X18. Clearing the persistent cache, given the names the cache
    directory lists. A path that is readable or missing is removed exactly
    when it is that of a listed name ending in ".json"; nothing is created or
    rewritten. A project whose cache file is listed has no valid cache
    afterwards and a read for it returns null, at any time, and leaves the
    disk alone. When the directory cannot be listed the disk is left as it
    was. *)
Theorem clear_removes_the_listed_files (P : Path) (C : CacheCodec)
    (cacheDir : string) (fs : gmap string FsNode) (files : list string) :
  let fs' := clearVulnerabilityCache cacheDir fs (Return files) in
  (forall path,
      fs !! path <> Some Unreadable ->
      fs' !! path = if listedJson cacheDir files path then None else fs !! path) /\
  fs' ⊆ fs /\
  (forall projectPath now,
      In (getVulnerabilityCacheKey projectPath +:+ ".json") files ->
      hasValidVulnerabilityCache cacheDir fs' now projectPath = false /\
      getCachedVulnerabilityData cacheDir fs' now projectPath = (NoCache, fs')) /\
  (forall e, clearVulnerabilityCache cacheDir fs (Throw e) = fs).
Proof.
  intros fs'.
  assert (Hlookup : forall path,
             fs' !! path = if listedJson cacheDir files path then None else fs !! path)
    by (intros path; apply clear_lookup).
  split; [intros path _; apply Hlookup|].
  split.
  { apply map_subseteq_spec. intros path node. rewrite Hlookup.
    destruct (listedJson _ _ _); [discriminate|auto]. }
  split; [|reflexivity].
  intros projectPath now Hin.
  assert (Hgone : fs' !! cacheFileOf cacheDir projectPath = None)
    by (rewrite Hlookup; now rewrite (listedJson_cacheFile _ _ _ Hin)).
  split.
  - now rewrite hasValid_lookup, Hgone.
  - now apply PersistentCacheFacts.getCached_missing.
Qed.

(** A cache directory with the sample written at [Examples.scanTime], a
    file that is no JSON and a file of another kind: five milliseconds later
    the sweep removes the second and keeps the other two. *)
Lemma sweep_removes_exactly_the_stale_witness :
  let P := Examples.posix in
  let C := Examples.sampleCodec in
  let now := Examples.scanTime in
  let project := "/work/App/App.csproj" in
  let fs := <[ "/cache/junk.json" := File "garbage" ]>
            (<[ "/cache/notes.txt" := File "garbage" ]>
             (cacheVulnerabilityData "/cache" ∅ now project Examples.sampleVulnerabilities)) in
  let files := [getVulnerabilityCacheKey project +:+ ".json"; "junk.json"; "notes.txt"] in
  let fs' := cleanupExpiredVulnerabilityCache "/cache" fs (now + 5) (Return files) in
  fs' !! "/cache/junk.json" = None /\
  fs' !! "/cache/notes.txt" = Some (File "garbage") /\
  hasValidVulnerabilityCache "/cache" fs' (now + 5) project = true.
Proof.
  intros P C now project fs files fs'.
  destruct (sweep_removes_exactly_the_stale P C "/cache" fs (now + 5) files)
    as (Hlookup & _ & Hvalid & _).
  split; [|split].
  - subst fs'. rewrite (Hlookup "/cache/junk.json"); [reflexivity|].
    vm_compute. discriminate.
  - subst fs'. rewrite (Hlookup "/cache/notes.txt"); [reflexivity|].
    vm_compute. discriminate.
  - apply (Hvalid project). reflexivity.
Defined.

(** The same directory cleared: the two JSON files are gone, the file of
    another kind stays, and the project has no cache. *)
Lemma clear_removes_the_listed_files_witness :
  let P := Examples.posix in
  let C := Examples.sampleCodec in
  let now := Examples.scanTime in
  let project := "/work/App/App.csproj" in
  let fs := <[ "/cache/junk.json" := File "garbage" ]>
            (<[ "/cache/notes.txt" := File "garbage" ]>
             (cacheVulnerabilityData "/cache" ∅ now project Examples.sampleVulnerabilities)) in
  let files := [getVulnerabilityCacheKey project +:+ ".json"; "junk.json"; "notes.txt"] in
  let fs' := clearVulnerabilityCache "/cache" fs (Return files) in
  fs' !! "/cache/junk.json" = None /\
  fs' !! "/cache/notes.txt" = Some (File "garbage") /\
  hasValidVulnerabilityCache "/cache" fs (now + 5) project = true /\
  getCachedVulnerabilityData "/cache" fs' (now + 5) project = (NoCache, fs').
Proof.
  intros P C now project fs files fs'.
  destruct (clear_removes_the_listed_files P C "/cache" fs files)
    as (Hlookup & _ & Hgone & _).
  split; [|split; [|split]].
  - subst fs'. rewrite (Hlookup "/cache/junk.json"); [reflexivity|].
    vm_compute. discriminate.
  - subst fs'. rewrite (Hlookup "/cache/notes.txt"); [reflexivity|].
    vm_compute. discriminate.
  - reflexivity.
  - apply (Hgone project (now + 5)). left. reflexivity.
Defined.

End SweepFacts.

(* ===================================================================== *)
(** * The hash of the cache key *)
(* ===================================================================== *)

Module HashFacts.
Import CacheManager Spec.

Lemma toInt32_mod (z : Z) : toInt32 z mod 2 ^ 32 = z mod 2 ^ 32.
Proof.
  unfold toInt32. destruct (_ <? _).
  - apply Z.mod_mod. lia.
  - replace (z mod 2 ^ 32 - 2 ^ 32) with (z mod 2 ^ 32 + (-1) * 2 ^ 32) by lia.
    rewrite Z.mod_add by lia. apply Z.mod_mod. lia.
Qed.

Lemma toInt32_congr (x y : Z) : x mod 2 ^ 32 = y mod 2 ^ 32 -> toInt32 x = toInt32 y.
Proof. intros Heq. unfold toInt32. now rewrite Heq. Qed.

Lemma toInt32_range (z : Z) : - 2 ^ 31 <= toInt32 z < 2 ^ 31.
Proof.
  unfold toInt32. pose proof (Z.mod_pos_bound z (2 ^ 32) ltac:(lia)) as Hm.
  destruct (Z.ltb_spec (z mod 2 ^ 32) (2 ^ 31)); lia.
Qed.

(** One turn of the loop: the shift and the mask compute [31 * hash + char]
    in 32 bits. *)
Lemma hash_step (hash char : Z) :
  toInt32 (toInt32 (hash * 32) - hash + char) = toInt32 (31 * hash + char).
Proof.
  apply toInt32_congr.
  rewrite Zplus_mod, Zminus_mod, toInt32_mod, <- Zminus_mod, <- Zplus_mod.
  f_equal. lia.
Qed.

Lemma hash_fold (chars : list ascii) (h p : Z) :
  h = toInt32 p ->
  fold_left (fun hash char => toInt32 (toInt32 (hash * 32) - hash + Z.of_N (Js.code char)))
            chars h
  = toInt32 (fold_left (fun hash char => 31 * hash + Z.of_N (Js.code char)) chars p).
Proof.
  revert h p. induction chars as [|c chars IH]; intros h p Hh; [exact Hh|].
  simpl. apply IH. rewrite hash_step. apply toInt32_congr.
  rewrite Hh. rewrite Zplus_mod, Zmult_mod, toInt32_mod, <- Zmult_mod, <- Zplus_mod.
  reflexivity.
Qed.

Lemma hash32_polyHash (str : string) : hash32 str = toInt32 (polyHash str).
Proof. unfold hash32, polyHash. now apply hash_fold. Qed.

(** The digits of base 36. *)
Lemma digit36_ok (d : Z) :
  0 <= d < 36 -> isDigit36 (digit36 d) = true /\ digitValue36 (digit36 d) = d.
Proof.
  intros Hd.
  assert (Hall : Forall (fun d => isDigit36 (digit36 d) = true /\
                                  digitValue36 (digit36 d) = d)
                        (map Z.of_nat (seq 0 36)))
    by (repeat constructor).
  rewrite Forall_forall in Hall. apply Hall.
  apply list_elem_of_In, in_map_iff. exists (Z.to_nat d).
  split; [lia|]. apply in_seq. lia.
Qed.

Lemma parse36_fold (chars : list ascii) (a : Z) :
  fold_left (fun acc c => acc * 36 + digitValue36 c) chars a
  = a * 36 ^ Z.of_nat (length chars)
    + fold_left (fun acc c => acc * 36 + digitValue36 c) chars 0.
Proof.
  revert a. induction chars as [|c chars IH]; intros a; [simpl; lia|].
  cbn [fold_left length]. rewrite IH, (IH (0 * 36 + digitValue36 c)).
  rewrite Nat2Z.inj_succ, Z.pow_succ_r by lia. lia.
Qed.

Lemma parse36_String (c : ascii) (s : string) :
  parse36 (String c s) = digitValue36 c * 36 ^ Z.of_nat (String.length s) + parse36 s.
Proof.
  unfold parse36. simpl. rewrite parse36_fold.
  replace (length (list_ascii_of_string s)) with (String.length s); [lia|].
  induction s as [|d s IHs]; simpl; congruence.
Qed.

(** The numeral printed for [n] in front of [acc]: its value, its digits
    and its length. *)
Lemma toString36_go_spec (fuel : nat) :
  forall (k : nat) (n : Z) (acc : string),
    (1 <= k <= fuel)%nat -> 0 <= n < 36 ^ Z.of_nat k ->
    let s := toString36_go fuel n acc in
    parse36 s = n * 36 ^ Z.of_nat (String.length acc) + parse36 acc /\
    (Forall (fun c => isDigit36 c = true) (list_ascii_of_string acc) ->
     Forall (fun c => isDigit36 c = true) (list_ascii_of_string s)) /\
    (String.length acc < String.length s <= k + String.length acc)%nat.
Proof.
  induction fuel as [|fuel IH]; intros k n acc Hk Hn; [lia|].
  cbn [toString36_go].
  destruct (digit36_ok (n mod 36) (Z.mod_pos_bound n 36 ltac:(lia))) as [Hdig Hval].
  assert (Hacc' : parse36 (String (digit36 (n mod 36)) acc)
                  = n mod 36 * 36 ^ Z.of_nat (String.length acc) + parse36 acc)
    by (now rewrite parse36_String, Hval).
  pose proof (Z.div_mod n 36 ltac:(lia)) as Hdiv.
  destruct (Z.eqb_spec (n / 36) 0) as [Hzero|Hmore]; cbv zeta.
  - rewrite Hacc'. split; [f_equal; f_equal; lia|].
    split; [intros Hacc; simpl; constructor; assumption|]. simpl. lia.
  - assert (Hpos : 0 < n / 36) by (pose proof (Z.div_pos n 36 ltac:(lia) ltac:(lia)); lia).
    destruct k as [|[|k]]; [lia| |].
    + simpl in Hn. assert (n / 36 = 0) by (apply Z.div_small; lia). lia.
    + assert (Hbound : 0 <= n / 36 < 36 ^ Z.of_nat (S k)).
      { split; [lia|]. apply Z.div_lt_upper_bound; [lia|].
        rewrite <- Z.pow_succ_r by lia. rewrite <- Nat2Z.inj_succ. lia. }
      destruct (IH (S k) (n / 36) (String (digit36 (n mod 36)) acc) ltac:(lia) Hbound)
        as (Hvalue & Hdigits & Hlen).
      split; [|split].
      * rewrite Hvalue, Hacc'. simpl String.length.
        rewrite Nat2Z.inj_succ, Z.pow_succ_r by lia. lia.
      * intros Hacc. apply Hdigits. simpl. constructor; assumption.
      * simpl String.length in Hlen. lia.
Qed.

Lemma list_ascii_app (s t : string) :
  list_ascii_of_string (s +:+ t) = list_ascii_of_string s ++ list_ascii_of_string t.
Proof. induction s as [|c s IH]; simpl; [reflexivity|]. now rewrite IH. Qed.

(** Two code units can be traded for two others with the same weight. *)
Lemma polyHash_trade (pre suf : string) (a b a' b' : ascii) :
  31 * Z.of_N (Js.code a) + Z.of_N (Js.code b)
  = 31 * Z.of_N (Js.code a') + Z.of_N (Js.code b') ->
  polyHash (pre +:+ String a (String b suf)) = polyHash (pre +:+ String a' (String b' suf)).
Proof.
  intros Hweight. unfold polyHash. rewrite !list_ascii_app, !fold_left_app.
  simpl. f_equal. lia.
Qed.

(** X19. [simpleHash] prints, in base 36, the absolute value of the
    polynomial hash with multiplier 31 reduced to a signed 32 bit integer:
    the shift and the mask of the loop compute nothing else. The text has
    one to six characters, each a digit or a small letter, and reads back as
    that number; two strings that differ in two adjacent code units of the
    same weight have the same hash. *)
Theorem simpleHash_prints_the_polynomial_hash (str : string) :
  let h := toInt32 (polyHash str) in
  simpleHash str = toString36 (Z.abs h) /\
  parse36 (simpleHash str) = Z.abs h /\
  Forall (fun c => isDigit36 c = true) (list_ascii_of_string (simpleHash str)) /\
  (1 <= String.length (simpleHash str) <= 6)%nat /\
  (forall pre suf a b a' b',
      str = pre +:+ String a (String b suf) ->
      31 * Z.of_N (Js.code a) + Z.of_N (Js.code b)
      = 31 * Z.of_N (Js.code a') + Z.of_N (Js.code b') ->
      simpleHash (pre +:+ String a' (String b' suf)) = simpleHash str).
Proof.
  intros h.
  assert (Hhash : forall s, simpleHash s = toString36 (Z.abs (toInt32 (polyHash s)))).
  { intros s. unfold simpleHash. fold (hash32 s). now rewrite hash32_polyHash. }
  pose proof (toInt32_range (polyHash str)) as Hrange. fold h in Hrange.
  assert (Habs : 0 <= Z.abs h < 36 ^ Z.of_nat 6) by (simpl; lia).
  destruct (toString36_go_spec 7 6 (Z.abs h) "" ltac:(lia) Habs)
    as (Hvalue & Hdigits & Hlen).
  rewrite Hhash. fold h. unfold toString36.
  split; [reflexivity|]. split; [|split; [|split]].
  - rewrite Hvalue. unfold parse36. simpl. lia.
  - apply Hdigits. constructor.
  - change (String.length "") with 0%nat in Hlen. lia.
  - intros pre suf a b a' b' -> Hweight. rewrite Hhash.
    rewrite (polyHash_trade pre suf a' b' a b) by lia. reflexivity.
Qed.

Lemma simpleHash_prints_the_polynomial_hash_witness :
  simpleHash "/work/AqQ/App.csproj" = simpleHash "/work/App/App.csproj" /\
  parse36 (simpleHash "Aa") = 2112.
Proof.
  split.
  - apply (proj2 (proj2 (proj2 (proj2
             (simpleHash_prints_the_polynomial_hash "/work/App/App.csproj"))))
             "/work/A" "/App.csproj" "p"%char "p"%char "q"%char "Q"%char);
      reflexivity.
  - exact (proj1 (proj2 (simpleHash_prints_the_polynomial_hash "Aa"))).
Defined.

(** X20. The cache file of a project is named after the project name and
    the hash alone, and a read never compares the path stored in the file
    with the path asked for. Two paths with the same project name whose
    normalised paths have hashes of the same absolute value therefore share
    one cache: what was written for the first is served for the second while
    it has not expired, and the validity check accepts it. *)
Theorem colliding_paths_share_the_cache (P : Path) (C : CacheCodec)
    (cacheDir first second : string) (fs : gmap string FsNode)
    (vulns : list VulnerabilityInfo) (now later : Z) :
  path_basename_ext first ".csproj" = path_basename_ext second ".csproj" ->
  Z.abs (hash32 (path_normalize first)) = Z.abs (hash32 (path_normalize second)) ->
  Date.validTime now -> Date.validTime (now + vulnerabilityTtl) ->
  Date.validTime later ->
  fs !! cacheFileOf cacheDir first <> Some Unreadable ->
  JSON_parse_cache (JSON_stringify (writtenCacheData first vulns now))
  = CacheFile.Document (writtenCacheData first vulns now) ->
  Date_parse (toISOString (now + vulnerabilityTtl)) = Some (now + vulnerabilityTtl) ->
  later <= now + vulnerabilityTtl ->
  let fs1 := cacheVulnerabilityData cacheDir fs now first vulns in
  cacheFileOf cacheDir first = cacheFileOf cacheDir second /\
  getCachedVulnerabilityData cacheDir fs1 later second = (Stored (Some vulns), fs1) /\
  hasValidVulnerabilityCache cacheDir fs1 later second = true.
Proof.
  intros Hname Hhash Hnow Hexp Hlater Hnode Hcodec Hdate Hfresh fs1.
  assert (Hfile : cacheFileOf cacheDir first = cacheFileOf cacheDir second).
  { unfold cacheFileOf, getVulnerabilityCacheKey, simpleHash.
    fold (hash32 (path_normalize first)). fold (hash32 (path_normalize second)).
    now rewrite Hname, Hhash. }
  assert (Hfs1 : fs1 !! cacheFileOf cacheDir second
                 = Some (File (JSON_stringify (writtenCacheData first vulns now)))).
  { subst fs1. rewrite PersistentCacheFacts.cacheVulnerabilityData_writes by assumption.
    rewrite <- Hfile. apply lookup_insert_eq. }
  split; [exact Hfile|]. split.
  - rewrite (PersistentCacheFacts.getCached_document _ _ _ _ _ _ Hfs1 Hcodec).
    simpl. rewrite Hdate, (CacheFacts.ofTime_valid _ Hlater). simpl.
    destruct (Z.ltb_spec (now + vulnerabilityTtl) later); [lia|reflexivity].
  - rewrite (DiskCacheFacts.hasValid_document _ _ _ _ _ _ Hfs1 Hcodec).
    simpl. rewrite Hdate, (CacheFacts.ofTime_valid _ Hlater). simpl.
    apply Z.leb_le. lia.
Qed.

(** The sample written for one project is served for a project in another
    directory: "pp" and "qQ" weigh the same. *)
Lemma colliding_paths_share_the_cache_witness :
  let P := Examples.posix in
  let C := Examples.sampleCodec in
  let now := Examples.scanTime in
  let fs1 := cacheVulnerabilityData "/cache" ∅ now "/work/App/App.csproj"
               Examples.sampleVulnerabilities in
  "/work/App/App.csproj" <> "/work/AqQ/App.csproj" /\
  getCachedVulnerabilityData "/cache" fs1 (now + 5) "/work/AqQ/App.csproj"
  = (Stored (Some Examples.sampleVulnerabilities), fs1).
Proof.
  intros P C now fs1. split; [discriminate|].
  assert (Hv : forall z, Z.abs z <= 1800000000000 -> Date.validTime z)
    by (unfold Date.validTime, Date.maxTime; lia).
  assert (Hnow : Date.validTime now) by (apply Hv; vm_compute; discriminate).
  assert (Hexp : Date.validTime (now + vulnerabilityTtl))
    by (apply Hv; vm_compute; discriminate).
  assert (Hlater : Date.validTime (now + 5)) by (apply Hv; vm_compute; discriminate).
  assert (Hnode : (∅ : gmap string FsNode) !! cacheFileOf "/cache" "/work/App/App.csproj"
                  <> Some Unreadable) by (rewrite lookup_empty; discriminate).
  assert (Hfresh : now + 5 <= now + vulnerabilityTtl) by (vm_compute; discriminate).
  exact (proj1 (proj2 (colliding_paths_share_the_cache P C "/cache"
           "/work/App/App.csproj" "/work/AqQ/App.csproj" ∅ Examples.sampleVulnerabilities
           now (now + 5) eq_refl eq_refl Hnow Hexp Hlater Hnode eq_refl eq_refl Hfresh))).
Defined.

End HashFacts.

(* ===================================================================== *)
(** * The graph of a package list *)
(* ===================================================================== *)

Module GraphFacts.
Import NuGetDependencyProvider Spec.

Lemma imap_map_id {A B C : Type} (f : nat -> A -> B) (g : B -> C) (h : A -> C)
    (l : list A) :
  (forall i x, g (f i x) = h x) -> map g (imap f l) = map h l.
Proof.
  revert f. induction l as [|x l IH]; intros f Hf; [reflexivity|].
  simpl. rewrite Hf. f_equal. apply IH. intros i y. apply Hf.
Qed.

Lemma In_filter_direct (packages : list NuGetPackage) (p : NuGetPackage) :
  In p (List.filter (fun pkg => negb (isTransitive_truthy pkg)) packages) ->
  In p packages /\ isTransitive_truthy p = false.
Proof. intros Hin. apply filter_In in Hin. now rewrite negb_true_iff in Hin. Qed.

Lemma heuristicDirectLinks_joins (packages : list NuGetPackage) (mode : VisualizationMode)
    (l : GraphLink) :
  In l (heuristicDirectLinks mode
          (List.filter (fun pkg => negb (isTransitive_truthy pkg)) packages)
          (List.filter isTransitive_truthy packages)) ->
  joins packages mode l.
Proof.
  unfold heuristicDirectLinks. intros Hin.
  apply in_flat_map in Hin. destruct Hin as (p & Hp & Hin).
  apply in_flat_map in Hin. destruct Hin as (q & Hq & Hin).
  destruct (shouldCreateLink p q); [|destruct Hin]. destruct Hin as [<-|[]].
  apply In_filter_direct in Hp. destruct Hp as [Hp Hdirect].
  apply filter_In in Hq. destruct Hq as [Hq Htrans].
  exists p, q. now rewrite Hdirect.
Qed.

Lemma heuristicTransitiveLinks_pairs (mode : VisualizationMode)
    (transitivePackages : list NuGetPackage) (l : GraphLink) :
  In l (heuristicTransitiveLinks mode transitivePackages) ->
  exists p q, In p transitivePackages /\ In q transitivePackages /\
              l = transitiveLink mode p q.
Proof.
  induction transitivePackages as [|pkg1 rest IH]; simpl; [intros []|].
  intros Hin. apply in_app_or in Hin. destruct Hin as [Hin|Hin].
  - apply in_flat_map in Hin. destruct Hin as (pkg2 & Hpkg2 & Hin).
    destruct (arePackagesRelated pkg1 pkg2); [|destruct Hin]. destruct Hin as [<-|[]].
    exists pkg1, pkg2. auto.
  - destruct (IH Hin) as (p & q & Hp & Hq & ->). exists p, q. auto.
Qed.

Lemma heuristicTransitiveLinks_joins (packages : list NuGetPackage)
    (mode : VisualizationMode) (l : GraphLink) :
  In l (heuristicTransitiveLinks mode (List.filter isTransitive_truthy packages)) ->
  joins packages mode l.
Proof.
  intros Hin. apply heuristicTransitiveLinks_pairs in Hin.
  destruct Hin as (p & q & Hp & Hq & ->).
  apply filter_In in Hp. destruct Hp as [Hp Hptrans].
  apply filter_In in Hq. destruct Hq as [Hq Hqtrans].
  exists p, q. now rewrite Hptrans.
Qed.

Lemma createFallbackLinks_joins (packages : list NuGetPackage) (mode : VisualizationMode)
    (l : GraphLink) :
  In l (createFallbackLinks packages mode) -> joins packages mode l.
Proof.
  unfold createFallbackLinks. destruct (_ && _); [|intros []].
  intros Hin. apply in_concat in Hin. destruct Hin as (chunk & Hchunk & Hin).
  apply list_elem_of_In, elem_of_lookup_imap in Hchunk.
  destruct Hchunk as (k & p & -> & Hp).
  apply in_flat_map in Hin. destruct Hin as (i & _ & Hin).
  destruct (List.filter isTransitive_truthy packages !! i) as [q|] eqn:Hq; [|destruct Hin].
  destruct Hin as [<-|[]].
  apply list_elem_of_lookup_2, list_elem_of_In, In_filter_direct in Hp.
  apply list_elem_of_lookup_2, list_elem_of_In, filter_In in Hq.
  destruct Hp as [Hp Hdirect], Hq as [Hq Htrans].
  exists p, q. now rewrite Hdirect.
Qed.

Lemma links_join (packages : list NuGetPackage) (mode : VisualizationMode) (l : GraphLink) :
  In l (links (createGraphData packages mode)) -> joins packages mode l.
Proof.
  simpl. unfold createSyntheticLinks. simpl app.
  intros Hin.
  assert (Hcases : In l (heuristicDirectLinks mode
                           (List.filter (fun pkg => negb (isTransitive_truthy pkg)) packages)
                           (List.filter isTransitive_truthy packages)) \/
                   In l (heuristicTransitiveLinks mode
                           (List.filter isTransitive_truthy packages)) \/
                   In l (createFallbackLinks packages mode)).
  { destruct (_ && _); repeat (apply in_app_or in Hin; destruct Hin as [Hin|Hin]); auto. }
  destruct Hcases as [Hd|[Ht|Hf]].
  - now apply heuristicDirectLinks_joins.
  - now apply heuristicTransitiveLinks_joins.
  - now apply createFallbackLinks_joins.
Qed.

(** X21. The graph of a package list. There is one node per package, in
    the order of the list, with the package key as its identifier, the name
    and version of the package, the group and the root flag that its
    transitive mark gives, and a size of one more than the number of its
    vulnerabilities. Every link joins two nodes of the graph: it starts at
    a package of the list and ends at a transitive package of the list, with
    weight 1 (two halves) when it starts at a direct package and one half
    when it starts at a transitive one. *)
Theorem graph_links_join_nodes (packages : list NuGetPackage) (mode : VisualizationMode) :
  let g := createGraphData packages mode in
  map node_id (nodes g) = map packageKey packages /\
  (forall i pkg,
      packages !! i = Some pkg ->
      exists n, nodes g !! i = Some n /\
                node_name n = id pkg /\ node_version n = version pkg /\
                isRoot n = negb (isTransitive_truthy pkg) /\
                group n = (if isRoot n then "direct" else "transitive") /\
                val n = Z.of_nat (length (default [] (vulnerabilities pkg))) + 1) /\
  (forall l,
      In l (links g) ->
      exists p q,
        In p packages /\ In q packages /\ isTransitive_truthy q = true /\
        link_source l = packageKey p /\ link_target l = packageKey q /\
        value_halves l = (if isTransitive_truthy p then 1 else 2) /\
        In (link_source l) (map node_id (nodes g)) /\
        In (link_target l) (map node_id (nodes g))).
Proof.
  intros g.
  assert (Hids : map node_id (nodes g) = map packageKey packages)
    by (apply imap_map_id; reflexivity).
  split; [exact Hids|]. split.
  - intros i pkg Hpkg. exists (createNode mode i pkg).
    split; [subst g; simpl; rewrite list_lookup_imap, Hpkg; reflexivity|].
    simpl. repeat split.
    + now destruct (isTransitive_truthy pkg).
    + now destruct (vulnerabilities pkg).
  - intros l Hin. destruct (links_join packages mode l Hin)
      as (p & q & Hp & Hq & Htrans & ->).
    exists p, q. rewrite Hids.
    assert (Hsource : In (packageKey p) (map packageKey packages)) by now apply in_map.
    assert (Htarget : In (packageKey q) (map packageKey packages)) by now apply in_map.
    destruct (isTransitive_truthy p); simpl; auto 10.
Qed.

Lemma Severity_eqb_eq (a b : Severity) : Severity_eqb a b = true <-> a = b.
Proof. destruct a, b; simpl; split; congruence. Qed.

Lemma some_severity (vulns : list Vulnerability) (s : Severity) :
  existsb (fun v => Severity_eqb (severity v) s) vulns = true <->
  exists v, In v vulns /\ severity v = s.
Proof.
  rewrite existsb_exists. split; intros (v & Hv & Hs); exists v; split; auto;
    now apply Severity_eqb_eq.
Qed.

(** X22. [getHighestSeverity] returns the worst severity of a list that
    is not empty: the severity of one of the vulnerabilities, and no
    vulnerability of the list ranks above it. In vulnerability mode the node
    of a package with vulnerabilities is painted with the colour of that
    severity. On the empty list the answer is Low. *)
Theorem getHighestSeverity_is_the_worst (vulns : list Vulnerability) :
  (vulns <> [] ->
   (exists v, In v vulns /\ severity v = getHighestSeverity vulns) /\
   (forall v, In v vulns ->
              (severityRank (severity v) <= severityRank (getHighestSeverity vulns))%nat) /\
   (forall index pkg,
       vulnerabilities pkg = Some vulns ->
       color (createNode mode_vulnerabilities index pkg)
       = vulnerabilityColors (getHighestSeverity vulns))) /\
  getHighestSeverity [] = Low.
Proof.
  split; [|reflexivity]. intros Hne.
  assert (Hfound : forall s, (exists v, In v vulns /\ severity v = s) ->
                             existsb (fun v => Severity_eqb (severity v) s) vulns = true)
    by (intros s; apply some_severity).
  assert (Hworst : (exists v, In v vulns /\ severity v = getHighestSeverity vulns) /\
                   (forall v, In v vulns ->
                      (severityRank (severity v)
                       <= severityRank (getHighestSeverity vulns))%nat)).
  { unfold getHighestSeverity. simpl.
    destruct (existsb _ vulns) eqn:HC; simpl.
    { split; [now apply some_severity|]. intros v _. destruct (severity v); simpl; lia. }
    destruct (existsb (fun v => Severity_eqb (severity v) High) vulns) eqn:HH; simpl.
    { split; [now apply some_severity|]. intros v Hv.
      destruct (severity v) eqn:Hs; simpl; try lia.
      rewrite Hfound in HC by eauto. discriminate. }
    destruct (existsb (fun v => Severity_eqb (severity v) Moderate) vulns) eqn:HM; simpl.
    { split; [now apply some_severity|]. intros v Hv.
      destruct (severity v) eqn:Hs; simpl; try lia.
      - rewrite Hfound in HH by eauto. discriminate.
      - rewrite Hfound in HC by eauto. discriminate. }
    assert (Hlow : forall v, In v vulns -> severity v = Low).
    { intros v Hv. destruct (severity v) eqn:Hs; [reflexivity| | |].
      - rewrite Hfound in HM by eauto. discriminate.
      - rewrite Hfound in HH by eauto. discriminate.
      - rewrite Hfound in HC by eauto. discriminate. }
    assert (Hres : default Low
                     (if existsb (fun v => Severity_eqb (severity v) Low) vulns
                      then Some Low else None) = Low)
      by (destruct (existsb (fun v => Severity_eqb (severity v) Low) vulns); reflexivity).
    rewrite Hres. split.
    - destruct vulns as [|v vs]; [congruence|]. exists v. split; [now left|].
      apply Hlow. now left.
    - intros v Hv. now rewrite (Hlow v Hv). }
  destruct Hworst as [Hattained Hbound]. split; [exact Hattained|]. split; [exact Hbound|].
  intros index pkg Hpkg. unfold createNode. simpl. rewrite Hpkg.
  destruct vulns as [|v vs]; [congruence|reflexivity].
Qed.

Lemma getHighestSeverity_is_the_worst_witness :
  getHighestSeverity [Examples.advisoryB; Examples.advisoryA] = High /\
  color (createNode mode_vulnerabilities 0 Examples.json130_net8) = "#FFD700".
Proof.
  split.
  - destruct (getHighestSeverity_is_the_worst [Examples.advisoryB; Examples.advisoryA])
      as [Hworst _].
    destruct Hworst as (_ & Hbound & _); [discriminate|].
    pose proof (Hbound Examples.advisoryA (or_intror (or_introl eq_refl))) as Hrank.
    destruct (getHighestSeverity [Examples.advisoryB; Examples.advisoryA]) eqn:Hs;
      simpl in Hrank; try lia; [reflexivity|discriminate Hs].
  - destruct (getHighestSeverity_is_the_worst [Examples.advisoryB]) as [Hworst _].
    destruct Hworst as (_ & _ & Hcolor); [discriminate|].
    rewrite (Hcolor 0%nat Examples.json130_net8 eq_refl). reflexivity.
Defined.

Lemma severity_partition (all : list Vulnerability) :
  (length (List.filter (fun v => Severity_eqb (severity v) Critical) all)
   + length (List.filter (fun v => Severity_eqb (severity v) High) all)
   + length (List.filter (fun v => Severity_eqb (severity v) Moderate) all)
   + length (List.filter (fun v => Severity_eqb (severity v) Low) all)
   = length all)%nat.
Proof.
  induction all as [|v all IH]; [reflexivity|]. simpl.
  destruct (severity v); simpl; lia.
Qed.

Lemma sum_val_imap (mode : VisualizationMode) (packages : list NuGetPackage) :
  forall start,
    fold_right Z.add 0 (map (fun n => val n - 1)
                            (imap (fun i => createNode mode (start + i)) packages))
    = Z.of_nat (length (flat_map (fun pkg => default [] (vulnerabilities pkg)) packages)).
Proof.
  induction packages as [|pkg packages IH]; intros start; [reflexivity|].
  cbn [imap map fold_right flat_map]. rewrite length_app, Nat2Z.inj_add.
  rewrite <- (IH (S start)).
  rewrite (imap_ext (fun i => createNode mode (S start + i))
                    ((fun i => createNode mode (start + i)) ∘ S))
    by (intros i x _; simpl; f_equal; lia).
  f_equal. unfold createNode. cbn [val].
  destruct (vulnerabilities pkg) as [vs|]; simpl; lia.
Qed.

(** X23. The vulnerability count of a package list. The four counts by
    severity add up to the total; the total is the number of vulnerabilities
    of all the packages, which is also the sum over the nodes of the graph of
    their size less one; no count is negative; and the count of two lists
    put together is the sum of their counts. *)
Theorem vulnerability_counts_add_up (packages more : list NuGetPackage)
    (mode : VisualizationMode) :
  let c := countVulnerabilities packages in
  critical c + high c + moderate c + low c = total c /\
  0 <= critical c /\ 0 <= high c /\ 0 <= moderate c /\ 0 <= low c /\
  total c = fold_right Z.add 0
              (map (fun pkg => Z.of_nat (length (default [] (vulnerabilities pkg)))) packages) /\
  total c = fold_right Z.add 0
              (map (fun n => val n - 1) (nodes (createGraphData packages mode))) /\
  (let c1 := countVulnerabilities more in
   let c2 := countVulnerabilities (packages ++ more) in
   critical c2 = critical c + critical c1 /\ high c2 = high c + high c1 /\
   moderate c2 = moderate c + moderate c1 /\ low c2 = low c + low c1 /\
   total c2 = total c + total c1).
Proof.
  intros c. subst c. unfold countVulnerabilities. simpl.
  pose proof (severity_partition
                (flat_map (fun pkg => default [] (vulnerabilities pkg)) packages)) as Hsum.
  split; [lia|]. repeat (split; [lia|]). split; [|split].
  - induction packages as [|pkg packages IH]; [reflexivity|].
    cbn [flat_map map fold_right]. rewrite length_app, Nat2Z.inj_add.
    rewrite <- IH; [reflexivity|].
    apply (severity_partition
             (flat_map (fun pkg => default [] (vulnerabilities pkg)) packages)).
  - symmetry. apply (sum_val_imap mode packages 0).
  - rewrite !flat_map_app, !List.filter_app, !length_app. lia.
Qed.

Lemma ceilDiv_covers (a b : nat) : (0 < b)%nat -> (a <= b * ceilDiv a b)%nat.
Proof.
  intros Hb. unfold ceilDiv.
  pose proof (Nat.div_mod (a + b - 1) b ltac:(lia)) as Hdiv.
  pose proof (Nat.mod_upper_bound (a + b - 1) b ltac:(lia)) as Hmod.
  lia.
Qed.

(** The slices handed to the direct packages from [start] on, put end to
    end, are one stretch of the transitive list. *)
Lemma slices_concat (mode : VisualizationMode) (c : nat)
    (transitivePackages directPackages : list NuGetPackage) :
  forall start,
    map link_target
        (concat (imap (fun k directPkg =>
                         map (directLink mode directPkg)
                             (take c (drop ((start + k) * c) transitivePackages)))
                      directPackages))
    = map packageKey (take (length directPackages * c)
                           (drop (start * c) transitivePackages)).
Proof.
  induction directPackages as [|d ds IH]; intros start; [reflexivity|].
  cbn [imap concat length]. rewrite map_app, map_map.
  rewrite (imap_ext _ (fun k directPkg =>
                         map (directLink mode directPkg)
                             (take c (drop ((S start + k) * c) transitivePackages))))
    by (intros k x _; simpl; do 3 f_equal; lia).
  rewrite IH. cbn [link_target directLink]. rewrite <- map_app. f_equal.
  replace ((start + 0) * c)%nat with (start * c)%nat by lia.
  replace (S start * c)%nat with (start * c + c)%nat by lia.
  rewrite <- drop_drop.
  replace (S (length ds) * c)%nat with (c + length ds * c)%nat by lia.
  apply take_take_drop.
Qed.

(** X24. The even-distribution fallback, when there is a direct and a
    transitive package: the links it creates end, in order, at the
    transitive packages of the list, each exactly once; every link starts at
    a direct package and has weight 1. *)
Theorem fallback_links_each_transitive_once
    (packages : list NuGetPackage) (mode : VisualizationMode) :
  let directPackages := List.filter (fun pkg => negb (isTransitive_truthy pkg)) packages in
  let transitivePackages := List.filter isTransitive_truthy packages in
  directPackages <> [] -> transitivePackages <> [] ->
  map link_target (createFallbackLinks packages mode)
  = map packageKey transitivePackages /\
  (forall l, In l (createFallbackLinks packages mode) ->
             exists d, In d directPackages /\ link_source l = packageKey d /\
                       value_halves l = 2 /\ link_color l = directLinkColor mode).
Proof.
  intros directPackages transitivePackages Hd Ht. split.
  - rewrite (LinkFacts.createFallbackLinks_slices packages mode Hd Ht).
    fold directPackages transitivePackages. unfold fallbackSlices.
    rewrite (slices_concat mode _ transitivePackages directPackages 0).
    rewrite drop_0, take_ge; [reflexivity|].
    apply ceilDiv_covers. destruct directPackages; [congruence|simpl; lia].
  - intros l Hin. unfold createFallbackLinks in Hin.
    fold directPackages transitivePackages in Hin.
    destruct (_ && _); [|destruct Hin].
    apply in_concat in Hin. destruct Hin as (chunk & Hchunk & Hin).
    apply list_elem_of_In, elem_of_lookup_imap in Hchunk.
    destruct Hchunk as (k & d & -> & Hdk).
    apply in_flat_map in Hin. destruct Hin as (i & _ & Hin).
    destruct (transitivePackages !! i) as [q|]; [|destruct Hin].
    destruct Hin as [<-|[]]. exists d.
    split; [now apply list_elem_of_In, list_elem_of_lookup_2 with k|auto].
Qed.

(** Two direct packages and three transitive ones: the five-package sample
    links each transitive package once. *)
Lemma fallback_links_each_transitive_once_witness :
  let packages := [Examples.alpha; Examples.zeta; Examples.beta; Examples.theta;
                   Examples.package "Omega.Io" "1.1.0" true] in
  map link_target (createFallbackLinks packages mode_full)
  = ["Zeta.Lib@0.9.0"; "Theta.Net@4.2.0"; "Omega.Io@1.1.0"].
Proof.
  intros packages.
  destruct (fallback_links_each_transitive_once packages mode_full) as [Htargets _];
    [discriminate|discriminate|].
  rewrite Htargets. reflexivity.
Defined.

Lemma prefix_app (p s : string) :
  String.prefix p s = true -> exists rest, s = p +:+ rest.
Proof.
  revert s. induction p as [|a p IH]; intros s; [exists s; reflexivity|].
  destruct s as [|b s]; simpl; [discriminate|].
  destruct (ascii_dec a b) as [->|]; [|discriminate].
  intros Hp. destruct (IH s Hp) as (rest & ->). now exists rest.
Qed.

Lemma string_app_assoc (a b c : string) : (a +:+ b) +:+ c = a +:+ (b +:+ c).
Proof.
  induction a as [|x a IH]; [reflexivity|].
  change (String x ((a +:+ b) +:+ c) = String x (a +:+ (b +:+ c))). now rewrite IH.
Qed.

Lemma string_app_empty (a : string) : a +:+ "" = a.
Proof.
  induction a as [|x a IH]; [reflexivity|].
  change (String x (a +:+ "") = String x a). now rewrite IH.
Qed.

(** The first piece of a split: the text before the first separator. *)
Lemma split_go_first (sep : ascii) (w cur rest : string) :
  forallb (fun c => negb (Ascii.eqb c sep)) (list_ascii_of_string w) = true ->
  Js.split_go sep cur (w +:+ String sep rest) = (cur +:+ w) :: Js.split_go sep "" rest.
Proof.
  revert cur. induction w as [|c w IH]; intros cur; simpl.
  - intros _. rewrite Ascii.eqb_refl. now rewrite string_app_empty.
  - destruct (Ascii.eqb c sep); simpl; [discriminate|].
    intros Hw. rewrite (IH _ Hw). f_equal. now rewrite string_app_assoc.
Qed.

Lemma split_go_head (sep : ascii) (s cur : string) :
  exists piece, head (Js.split_go sep cur s) = Some piece.
Proof.
  revert cur. induction s as [|c s IH]; intros cur; simpl; [eauto|].
  destruct (Ascii.eqb c sep); simpl; eauto.
Qed.

Lemma firstSegment_head (s : string) :
  head (Js.split "." s) = Some (firstSegment s).
Proof.
  unfold firstSegment. destruct (split_go_head "." s "") as (piece & Hpiece).
  unfold Js.split. now rewrite Hpiece.
Qed.

Lemma firstSegment_of_prefix (w s : string) :
  forallb (fun c => negb (Ascii.eqb c ".")) (list_ascii_of_string w) = true ->
  Js.startsWith s (w +:+ ".") = true -> firstSegment s = w.
Proof.
  intros Hw Hs. apply prefix_app in Hs. destruct Hs as (rest & ->).
  unfold firstSegment, Js.split.
  rewrite string_app_assoc. change ("." +:+ rest) with (String "."%char rest).
  now rewrite (split_go_first "." w "" rest Hw).
Qed.

Lemma arePackagesRelated_eqb (pkg1 pkg2 : NuGetPackage) :
  arePackagesRelated pkg1 pkg2
  = String.eqb (firstSegment (id pkg1)) (firstSegment (id pkg2)).
Proof.
  unfold arePackagesRelated. rewrite !firstSegment_head.
  destruct (String.eqb_spec (firstSegment (id pkg1)) (firstSegment (id pkg2))) as [Heq|Hne].
  - rewrite bool_decide_eq_true_2 by congruence. reflexivity.
  - rewrite bool_decide_eq_false_2 by congruence. simpl.
    now destruct (_ && _).
Qed.

Lemma shouldCreateLink_eqb (directPkg transitivePkg : NuGetPackage) :
  shouldCreateLink directPkg transitivePkg
  = String.eqb (firstSegment (id directPkg)) (firstSegment (id transitivePkg))
    || hasCommonDependencyPattern (id directPkg) (id transitivePkg).
Proof.
  unfold shouldCreateLink.
  assert (Hfamily : forall w,
             forallb (fun c => negb (Ascii.eqb c ".")) (list_ascii_of_string w) = true ->
             Js.startsWith (id directPkg) (w +:+ ".") &&
             Js.startsWith (id transitivePkg) (w +:+ ".") = true ->
             String.eqb (firstSegment (id directPkg)) (firstSegment (id transitivePkg))
             = true).
  { intros w Hw Hboth. apply andb_true_iff in Hboth. destruct Hboth as [H1 H2].
    rewrite (firstSegment_of_prefix w _ Hw H1), (firstSegment_of_prefix w _ Hw H2).
    apply String.eqb_refl. }
  pose proof (Hfamily "Microsoft" eq_refl) as HM.
  pose proof (Hfamily "System" eq_refl) as HS.
  change ("Microsoft" +:+ ".") with "Microsoft." in HM.
  change ("System" +:+ ".") with "System." in HS.
  destruct (Js.startsWith (id directPkg) "Microsoft." &&
            Js.startsWith (id transitivePkg) "Microsoft.");
    [now rewrite HM|].
  destruct (Js.startsWith (id directPkg) "System." &&
            Js.startsWith (id transitivePkg) "System.");
    [now rewrite HS|].
  reflexivity.
Qed.

Lemma hasCommonDependencyPattern_sym (a b : string) :
  hasCommonDependencyPattern a b = hasCommonDependencyPattern b a.
Proof.
  unfold hasCommonDependencyPattern.
  now rewrite (andb_comm (Js.includes a "EntityFramework")),
    (andb_comm (Js.includes a "AspNetCore")), (andb_comm (Js.includes a "Logging")),
    (andb_comm (Js.includes a "Configuration")).
Qed.

(** X30. The two rules that decide which links are drawn. Two transitive
    packages are related exactly when their identifiers have the same text
    before the first dot: the comparison of the first two parts never
    decides. A direct and a transitive package are linked exactly when their
    identifiers have the same text before the first dot or share one of the
    four family words: the tests for the Microsoft and System prefixes never
    decide. Both rules are symmetric and hold between a package and itself;
    being related is transitive; and related packages would also be
    linked. *)
Theorem link_rules_compare_the_first_segment (pkg1 pkg2 pkg3 : NuGetPackage) :
  arePackagesRelated pkg1 pkg2
  = String.eqb (firstSegment (id pkg1)) (firstSegment (id pkg2)) /\
  shouldCreateLink pkg1 pkg2
  = String.eqb (firstSegment (id pkg1)) (firstSegment (id pkg2))
    || hasCommonDependencyPattern (id pkg1) (id pkg2) /\
  arePackagesRelated pkg1 pkg2 = arePackagesRelated pkg2 pkg1 /\
  shouldCreateLink pkg1 pkg2 = shouldCreateLink pkg2 pkg1 /\
  arePackagesRelated pkg1 pkg1 = true /\ shouldCreateLink pkg1 pkg1 = true /\
  (arePackagesRelated pkg1 pkg2 = true -> arePackagesRelated pkg2 pkg3 = true ->
   arePackagesRelated pkg1 pkg3 = true) /\
  (arePackagesRelated pkg1 pkg2 = true -> shouldCreateLink pkg1 pkg2 = true).
Proof.
  rewrite !arePackagesRelated_eqb, !shouldCreateLink_eqb.
  rewrite (String.eqb_sym (firstSegment (id pkg2)) (firstSegment (id pkg1))).
  rewrite (hasCommonDependencyPattern_sym (id pkg2) (id pkg1)).
  rewrite String.eqb_refl. simpl.
  repeat split.
  - intros H12 H23. apply String.eqb_eq in H12, H23. apply String.eqb_eq. congruence.
  - intros ->. reflexivity.
Qed.

(** A package of the System family and one named after it without a dot:
    neither prefix test applies, and the first segments differ. *)
Lemma link_rules_compare_the_first_segment_witness :
  let a := Examples.package "System.Text.Json" "8.0.0" false in
  let b := Examples.package "System.Memory" "4.5.5" true in
  let c := Examples.package "SystemX.Memory" "1.0.0" true in
  shouldCreateLink a b = true /\ arePackagesRelated b c = false.
Proof.
  intros a b c.
  destruct (link_rules_compare_the_first_segment a b c) as (_ & -> & _).
  destruct (link_rules_compare_the_first_segment b c a) as (-> & _).
  split; reflexivity.
Defined.

End GraphFacts.

(* ===================================================================== *)
(** * The resolver: every way a resolution can end *)
(* ===================================================================== *)

Module ProviderFacts.
Import NuGetDependencyProvider DotNetCliErrorCodes Spec.

Ltac run_resolver :=
  unfold analyzeDependencies, fallback, try_catch, mbind, M_bind, mbind_M, logged,
    set_lastAnalysisMethod, throw, mret, M_ret, ret, after; simpl.

Section Runs.
Context `{Path} `{IDotNetCliService} `{IProjectFileParser}
        `{IVulnerabilityScanner} `{ProviderHost}.

(** The listing succeeds. *)
Lemma run_listed (projectPath : string) (includeVulnerabilities includeTransitive : bool)
    (listed : list NuGetPackage) (s : State) :
  cli_listPackages projectPath (listOptions includeTransitive) = Return listed ->
  analyzeDependencies projectPath includeVulnerabilities includeTransitive s
  = if includeVulnerabilities then
      (Return match scanProject projectPath with
              | Return scan => mergeVulnerabilityData listed (scan_packages scan)
              | Throw _ => listed
              end,
       after s dotnet_cli [ListPackages projectPath (listOptions includeTransitive);
                           ScanProject projectPath])
    else (Return listed,
          after s dotnet_cli [ListPackages projectPath (listOptions includeTransitive)]).
Proof.
  intros Hlist. run_resolver. rewrite Hlist. simpl.
  destruct includeVulnerabilities; simpl; [|reflexivity].
  destruct (scanProject projectPath); simpl; now rewrite <- app_assoc.
Qed.

(** The listing fails with an error after which the manifest is read. *)
Lemma run_fallback (projectPath : string) (includeVulnerabilities includeTransitive : bool)
    (error : exn) (s : State) :
  cli_listPackages projectPath (listOptions includeTransitive) = Throw error ->
  attemptsFallback error = true ->
  analyzeDependencies projectPath includeVulnerabilities includeTransitive s
  = match parser_parseProjectFile projectPath with
    | Return pkgs =>
        (Return pkgs,
         after s project_file [ListPackages projectPath (listOptions includeTransitive);
                               ParseProjectFile projectPath])
    | Throw fallbackError =>
        (Throw (ErrorObject (createAnalysisError error fallbackError projectPath)),
         after s (lastAnalysisMethod s)
               [ListPackages projectPath (listOptions includeTransitive);
                ParseProjectFile projectPath])
    end.
Proof.
  intros Hlist Hallowed. run_resolver. rewrite Hlist. simpl.
  destruct error as [e|e|n m|e]; simpl in Hallowed; try rewrite Hallowed;
    destruct (parser_parseProjectFile projectPath); simpl; now rewrite <- app_assoc.
Qed.

(** The listing fails for good. *)
Lemma run_propagates (projectPath : string) (includeVulnerabilities includeTransitive : bool)
    (error : exn) (s : State) :
  cli_listPackages projectPath (listOptions includeTransitive) = Throw error ->
  attemptsFallback error = false ->
  analyzeDependencies projectPath includeVulnerabilities includeTransitive s
  = (Throw error,
     after s (lastAnalysisMethod s)
           [ListPackages projectPath (listOptions includeTransitive)]) /\
  exists e, error = DotNetCliError e /\ recoverable e = false /\ code e <> SDK_NOT_FOUND.
Proof.
  intros Hlist Hallowed. destruct error as [e|e|n m|e]; try discriminate.
  simpl in Hallowed. apply orb_false_iff in Hallowed. destruct Hallowed as [Hrec Hcode].
  apply String.eqb_neq in Hcode. split; [|eauto].
  now apply ResolverFacts.analyzeDependencies_propagates.
Qed.

End Runs.

(** X25. Every way [analyzeDependencies] can end. When it returns, the
    method left in the object is dotnet-cli or project-file: in the first
    case the listing succeeded, the packages returned have the identifiers
    of the listing in its order and the manifest was not read; in the second
    the listing failed, and the packages are those the manifest parser
    returned. When it throws, the method in the object is unchanged, and the
    error is either the listing's own error, which is then a
    non-recoverable toolchain error other than sdk-not-found, thrown without
    reading the manifest, or the composite analysis error built from the
    listing's and the parser's error. The listing is always the first call;
    at most one more call follows, and it is a scan only when vulnerabilities
    were asked for. *)
Theorem analyzeDependencies_outcomes (P : Path) (cli : IDotNetCliService)
    (parser : IProjectFileParser) (scanner : IVulnerabilityScanner) (host : ProviderHost)
    (projectPath : string) (includeVulnerabilities includeTransitive : bool) (s : State) :
  let run := analyzeDependencies projectPath includeVulnerabilities includeTransitive s in
  let listing := cli_listPackages projectPath (listOptions includeTransitive) in
  let first := ListPackages projectPath (listOptions includeTransitive) in
  (forall pkgs,
      run.1 = Return pkgs ->
      (lastAnalysisMethod run.2 = dotnet_cli /\
       (exists listed, listing = Return listed /\ map id pkgs = map id listed) /\
       ~ In (ParseProjectFile projectPath) (drop (length (calls s)) (calls run.2))) \/
      (lastAnalysisMethod run.2 = project_file /\
       (exists error, listing = Throw error) /\
       parser_parseProjectFile projectPath = Return pkgs /\
       calls run.2 = calls s ++ [first; ParseProjectFile projectPath])) /\
  (forall error,
      run.1 = Throw error ->
      lastAnalysisMethod run.2 = lastAnalysisMethod s /\
      ((exists e, error = DotNetCliError e /\ listing = Throw error /\
                  recoverable e = false /\ code e <> SDK_NOT_FOUND /\
                  calls run.2 = calls s ++ [first]) \/
       (exists primary secondary,
           listing = Throw primary /\
           parser_parseProjectFile projectPath = Throw secondary /\
           error = ErrorObject (createAnalysisError primary secondary projectPath) /\
           calls run.2 = calls s ++ [first; ParseProjectFile projectPath]))) /\
  (exists rest,
      calls run.2 = calls s ++ first :: rest /\
      (rest = [] \/ rest = [ScanProject projectPath] \/
       rest = [ParseProjectFile projectPath]) /\
      (In (ScanProject projectPath) rest -> includeVulnerabilities = true)).
Proof.
  intros run listing first. subst run.
  destruct listing as [listed|error] eqn:Hlisting; subst listing.
  - rewrite (run_listed _ _ _ _ _ Hlisting).
    destruct includeVulnerabilities; simpl.
    + split; [|split].
      * intros pkgs [= <-]. left. split; [reflexivity|]. split.
        -- exists listed. split; [reflexivity|].
           destruct (scanProject projectPath); [|reflexivity].
           apply MergeFacts.mergeVulnerabilityData_ids.
        -- rewrite drop_app_length. simpl. intuition discriminate.
      * discriminate.
      * exists [ScanProject projectPath]. auto.
    + split; [|split].
      * intros pkgs [= <-]. left. split; [reflexivity|]. split; [eauto|].
        rewrite drop_app_length. simpl. intuition discriminate.
      * discriminate.
      * exists []. split; [reflexivity|]. split; [auto|]. intros [].
  - destruct (attemptsFallback error) eqn:Hallowed.
    + rewrite (run_fallback _ _ _ _ _ Hlisting Hallowed).
      destruct (parser_parseProjectFile projectPath) as [pkgs0|secondary]; simpl.
      * split; [|split].
        -- intros pkgs [= <-]. right. eauto 10.
        -- discriminate.
        -- exists [ParseProjectFile projectPath].
           split; [reflexivity|]. split; [auto|]. intros [Habs|[]]. discriminate.
      * split; [|split].
        -- discriminate.
        -- intros error0 [= <-]. split; [reflexivity|]. right.
           exists error, secondary. auto.
        -- exists [ParseProjectFile projectPath].
           split; [reflexivity|]. split; [auto|]. intros [Habs|[]]. discriminate.
    + destruct (run_propagates projectPath includeVulnerabilities _ _ s Hlisting Hallowed)
        as (-> & e & -> & Hrec & Hcode). simpl.
      split; [|split].
      * discriminate.
      * intros error0 [= <-]. split; [reflexivity|]. left. exists e. auto.
      * exists []. split; [reflexivity|]. split; [auto|]. intros [].
Qed.

(** No toolchain and a manifest that cannot be read: the composite
    error is thrown and the method in the object stays as it was. *)
Lemma analyzeDependencies_outcomes_witness :
  let P := Examples.posix in
  let D := @DotNetCliService_impl Examples.no_toolchain Examples.not_json in
  let F := {| parser_parseProjectFile :=
                fun _ => Throw (PlainError "Error" "EACCES: permission denied") |} in
  let run := @analyzeDependencies P D F Examples.offline_scanner "App.csproj" true false
               initial in
  (exists e, run.1 = Throw (ErrorObject e) /\ code e = "DEPENDENCY_ANALYSIS_FAILED") /\
  lastAnalysisMethod run.2 = dotnet_cli /\
  calls run.2 = [ListPackages "App.csproj" (listOptions false);
                 ParseProjectFile "App.csproj"].
Proof.
  intros P D F run.
  destruct (analyzeDependencies_outcomes P D F Examples.offline_scanner Examples.host
              "App.csproj" true false initial) as (_ & Hthrow & _).
  destruct (Hthrow _ eq_refl) as (Hmethod & [(e & Habs & _)|(p & q & _ & _ & _ & Hcalls)]);
    [discriminate Habs|].
  split; [eexists; split; reflexivity|]. split; [exact Hmethod|exact Hcalls].
Defined.

Section Entries.
Context `{Path} `{IDotNetCliService} `{IProjectFileParser}
        `{IVulnerabilityScanner} `{ProviderHost}.

Lemma run_method (projectPath : string) (includeVulnerabilities includeTransitive : bool)
    (s : State) (pkgs : list NuGetPackage) (s1 : State) :
  analyzeDependencies projectPath includeVulnerabilities includeTransitive s
  = (Return pkgs, s1) ->
  lastAnalysisMethod s1 = dotnet_cli \/ lastAnalysisMethod s1 = project_file.
Proof.
  destruct (cli_listPackages projectPath (listOptions includeTransitive))
    as [listed|error] eqn:Hlisting.
  - rewrite (run_listed _ _ _ _ _ Hlisting).
    destruct includeVulnerabilities; intros [= _ <-]; now left.
  - destruct (attemptsFallback error) eqn:Hallowed.
    + rewrite (run_fallback _ _ _ _ _ Hlisting Hallowed).
      destruct (parser_parseProjectFile projectPath); [|discriminate].
      intros [= _ <-]. now right.
    + destruct (run_propagates projectPath includeVulnerabilities _ _ s Hlisting Hallowed)
        as (-> & _). discriminate.
Qed.

(** An entry point is a resolution followed by the metadata. *)
Lemma entry_after_run (projectPath : string) (v t hasT hasV : bool)
    (mode : VisualizationMode) (s s1 : State) (pkgs : list NuGetPackage) :
  analyzeDependencies projectPath v t s = (Return pkgs, s1) ->
  exists md s',
    (packages ← analyzeDependencies projectPath v t;
     analysisMetadata ← createAnalysisMetadata projectPath dotnet_cli hasT hasV;
     mret (analysisResult projectPath packages mode analysisMetadata)) s
    = (Return (analysisResult projectPath pkgs mode md), s') /\
    analysisMethod md = recordedMethod (lastAnalysisMethod s1) /\
    hasTransitiveDependencies md = hasT /\ hasVulnerabilityData md = hasV /\
    exists cs, calls s' = calls s1 ++ cs /\
               forall c, In c cs -> c = GetVersion \/ c = ValidateProject projectPath.
Proof.
  intros Hrun.
  destruct (ResolverFacts.createAnalysisMetadata_method projectPath dotnet_cli hasT hasV s1)
    as (md & s' & Hmd & Hmethod & HT & HV & _ & Hcalls).
  exists md, s'. unfold mbind, M_bind, mbind_M. rewrite Hrun, Hmd. auto.
Qed.

End Entries.

(** X26. [getDependenciesWithVulnerabilities] says that its result has
    vulnerability data whether or not a scan was completed. Every result it
    returns carries the flag, the count of the vulnerabilities of its
    packages and the graph of its packages in vulnerability mode, and records
    one of the two methods. When the listing succeeds and the scanner throws,
    the error is swallowed: the call returns the packages of the listing as
    they were listed. When the listing fails and the manifest is read
    instead, the scanner is not called at all. *)
Theorem vulnerability_flag_without_a_scan (P : Path) (cli : IDotNetCliService)
    (parser : IProjectFileParser) (scanner : IVulnerabilityScanner) (host : ProviderHost)
    (projectPath : string) (s : State) :
  (forall r s',
      getDependenciesWithVulnerabilities projectPath s = (Return r, s') ->
      hasVulnerabilityData (analysisMetadata r) = true /\
      hasTransitiveDependencies (analysisMetadata r) = false /\
      graphData r = createGraphData (packages r) mode_vulnerabilities /\
      vulnerabilityCount r = countVulnerabilities (packages r) /\
      (analysisMethod (analysisMetadata r) = dotnet_cli \/
       analysisMethod (analysisMetadata r) = project_file)) /\
  (forall listed error,
      cli_listPackages projectPath (listOptions false) = Return listed ->
      scanProject projectPath = Throw error ->
      exists r s',
        getDependenciesWithVulnerabilities projectPath s = (Return r, s') /\
        packages r = listed /\
        hasVulnerabilityData (analysisMetadata r) = true /\
        calls s' = calls s ++ [ListPackages projectPath (listOptions false);
                               ScanProject projectPath;
                               GetVersion; ValidateProject projectPath]) /\
  (forall error pkgs,
      cli_listPackages projectPath (listOptions false) = Throw error ->
      attemptsFallback error = true ->
      parser_parseProjectFile projectPath = Return pkgs ->
      exists r s',
        getDependenciesWithVulnerabilities projectPath s = (Return r, s') /\
        packages r = pkgs /\
        hasVulnerabilityData (analysisMetadata r) = true /\
        ~ In (ScanProject projectPath) (drop (length (calls s)) (calls s'))).
Proof.
  split; [|split].
  - intros r s' Hentry.
    destruct (analyzeDependencies projectPath true false s) as [[pkgs|error] s1] eqn:Hrun.
    + destruct (entry_after_run projectPath true false false true mode_vulnerabilities
                  s s1 pkgs Hrun) as (md & s2 & Heq & Hmethod & HT & HV & _).
      unfold getDependenciesWithVulnerabilities in Hentry.
      rewrite Heq in Hentry. injection Hentry as <- <-. simpl.
      rewrite Hmethod. pose proof (run_method _ _ _ _ _ _ Hrun) as Hown.
      unfold recordedMethod. destruct overlappingWrite as [[]|]; simpl; auto 10.
    + unfold getDependenciesWithVulnerabilities, mbind, M_bind, mbind_M in Hentry.
      rewrite Hrun in Hentry. discriminate.
  - intros listed error Hlisting Hscan.
    pose proof (run_listed projectPath true false listed s Hlisting) as Hrun.
    rewrite Hscan in Hrun.
    unfold getDependenciesWithVulnerabilities, mbind, M_bind, mbind_M.
    rewrite Hrun.
    unfold createAnalysisMetadata, try_catch, mbind, M_bind, mbind_M, logged,
      read_lastAnalysisMethod, after.
    destruct cli_getVersion as [v|err]; simpl;
      (eexists; eexists; split; [reflexivity|]; simpl;
       split; [reflexivity|]; split; [reflexivity|];
       now rewrite <- !app_assoc).
  - intros error pkgs Hlisting Hallowed Hparse.
    pose proof (run_fallback projectPath true false error s Hlisting Hallowed) as Hrun.
    rewrite Hparse in Hrun.
    destruct (entry_after_run projectPath true false false true mode_vulnerabilities
                s _ pkgs Hrun) as (md & s2 & Heq & _ & _ & HV & cs & Hcalls & Hcs).
    eexists; exists s2. split; [exact Heq|]. split; [reflexivity|].
    split; [exact HV|].
    rewrite Hcalls. unfold after. simpl calls. rewrite <- app_assoc, drop_app_length.
    intros Hin. apply in_app_or in Hin. destruct Hin as [Hin|Hin].
    + simpl in Hin. intuition discriminate.
    + destruct (Hcs _ Hin); discriminate.
Qed.

(** The listing of the two frameworks succeeds and the scanner is offline:
    the call returns the two listed packages, flagged as carrying
    vulnerability data, with a count of zero. *)
Lemma vulnerability_flag_without_a_scan_witness :
  let P := Examples.posix in
  let D := @DotNetCliService_impl (Examples.executor Examples.listingSucceeds)
             (Examples.json Examples.multiTargetReport) in
  let F := @ProjectFileParser_impl P (Examples.projectFiles Examples.manifestXml) in
  exists (r : DependencyAnalysisResult) (s' : State),
    @getDependenciesWithVulnerabilities P D F Examples.offline_scanner Examples.host
      "App.csproj" initial = (Return r, s') /\
    length (packages r) = 2%nat /\
    hasVulnerabilityData (analysisMetadata r) = true /\
    total (vulnerabilityCount r) = 0.
Proof.
  intros P D F.
  destruct (vulnerability_flag_without_a_scan P D F Examples.offline_scanner Examples.host
              "App.csproj" initial) as (Hflag & Hswallowed & _).
  destruct (Hswallowed _ _ eq_refl eq_refl) as (r & s' & Hentry & Hpkgs & _).
  exists r, s'. split; [exact Hentry|].
  destruct (Hflag r s' Hentry) as (Hdata & _ & _ & Hcount & _).
  rewrite Hcount, Hpkgs. split; [reflexivity|]. split; [exact Hdata|reflexivity].
Defined.

End ProviderFacts.

(* ===================================================================== *)
(** * The manifest parser *)
(* ===================================================================== *)

Module ManifestFacts.
Import ProjectFileParser ProjectFileErrorCodes NuGetDependencyProvider Spec.

Ltac run_parser :=
  unfold parseProjectFile, mbind, outcome_bind; simpl.

(** X27. How [parseProjectFile] fails. It throws nothing but instances
    of ProjectFileError: a ProjectFileError thrown by one of its steps is
    passed on as it is, and any other error is wrapped as a recoverable
    corrupted-file error that quotes it. A document that is read and parsed
    but is neither SDK-style nor legacy is refused as unsupported and
    non-recoverable when it has no root element or a root with attributes;
    a root element without any attribute makes the legacy test throw, so
    that the same kind of file is reported as corrupted and recoverable
    instead. A failure to read packages.config is never reported: the
    packages of the project file are returned without it. *)
Theorem parseProjectFile_failures_are_classified (P : Path) (F : ProjectFiles)
    (projectPath : string) :
  (forall error, parseProjectFile projectPath = Throw error ->
                 exists e, error = ProjectFileError e) /\
  (forall error,
      (validateFileAccessWithDetails projectPath = Throw error \/
       validateFileAccessWithDetails projectPath = Return tt /\
       readProjectFileWithValidation projectPath = Throw error \/
       exists content,
         validateFileAccessWithDetails projectPath = Return tt /\
         readProjectFileWithValidation projectPath = Return content /\
         parseXmlWithErrorHandling content projectPath = Throw error) ->
      match error with
      | ProjectFileError e => parseProjectFile projectPath = Throw error
      | _ => exists e, parseProjectFile projectPath = Throw (ProjectFileError e) /\
                       code e = CORRUPTED /\ recoverable e = true /\
                       technicalDetails e
                       = Some ("Unexpected error: " +:+ exn_toString error)
      end) /\
  (forall content doc,
      validateFileAccessWithDetails projectPath = Return tt ->
      readProjectFileWithValidation projectPath = Return content ->
      parseXmlWithErrorHandling content projectPath = Return doc ->
      isModernProjectFormat doc = false ->
      match Xml.root doc with
      | Some {| Xml.attrs := None |} =>
          exists e, parseProjectFile projectPath = Throw (ProjectFileError e) /\
                    code e = CORRUPTED /\ recoverable e = true
      | Some {| Xml.attrs := Some a |} =>
          Js.truthy_opt (Xml.xmlns a) || Js.truthy_opt (Xml.xmlns_xsi a) = false ->
          exists e, parseProjectFile projectPath = Throw (ProjectFileError e) /\
                    code e = UNSUPPORTED_TYPE /\ recoverable e = false
      | None =>
          exists e, parseProjectFile projectPath = Throw (ProjectFileError e) /\
                    code e = UNSUPPORTED_TYPE /\ recoverable e = false
      end) /\
  (forall content doc configError,
      validateFileAccessWithDetails projectPath = Return tt ->
      readProjectFileWithValidation projectPath = Return content ->
      parseXmlWithErrorHandling content projectPath = Return doc ->
      parsePackagesConfig (path_join (path_dirname projectPath) "packages.config")
      = Throw configError ->
      (isModernProjectFormat doc = true ->
       parseProjectFile projectPath
       = Return (deduplicatePackages
                   (parseModernProjectFile doc
                      (frameworks (validateProjectFile projectPath))))) /\
      (isModernProjectFormat doc = false -> isLegacyProjectFormat doc = Return true ->
       parseProjectFile projectPath
       = Return (deduplicatePackages (parseLegacyProjectFile doc)))).
Proof.
  split; [|split; [|split]].
  - intros error. run_parser.
    destruct (validateFileAccessWithDetails projectPath) as [[]|e1]; simpl;
      [|destruct e1; intros [= <-]; eauto].
    destruct (readProjectFileWithValidation projectPath) as [content|e2]; simpl;
      [|destruct e2; intros [= <-]; eauto].
    destruct (parseXmlWithErrorHandling content projectPath) as [doc|e3]; simpl;
      [|destruct e3; intros [= <-]; eauto].
    destruct (isModernProjectFormat doc); simpl; [discriminate|].
    destruct (isLegacyProjectFormat doc) as [[]|e4]; simpl;
      [discriminate|intros [= <-]; eauto|destruct e4; intros [= <-]; eauto].
  - intros error [Haccess|[[Haccess Hread]|(content & Haccess & Hread & Hxml)]];
      run_parser; rewrite Haccess; simpl; try rewrite Hread; simpl;
      try rewrite Hxml; simpl; destruct error; simpl; eauto 10.
  - intros content doc Haccess Hread Hxml Hmodern. run_parser.
    rewrite Haccess. simpl. rewrite Hread. simpl. rewrite Hxml. simpl.
    rewrite Hmodern. unfold isLegacyProjectFormat.
    destruct (Xml.root doc) as [[[a|] groups]|]; simpl.
    + intros Hns.
      assert (Hlegacy : negb (Js.truthy_opt (Xml.Sdk a)) &&
                        (Js.truthy_opt (Xml.xmlns a) || Js.truthy_opt (Xml.xmlns_xsi a))
                        = false) by (rewrite Hns; apply andb_false_r).
      rewrite Hlegacy. simpl. eauto.
    + eauto.
    + eauto.
  - intros content doc configError Haccess Hread Hxml Hconfig. split.
    + intros Hmodern. run_parser.
      rewrite Haccess. simpl. rewrite Hread. simpl. rewrite Hxml. simpl.
      rewrite Hmodern, Hconfig. simpl.
      now destruct (projectType (validateProjectFile projectPath)).
    + intros Hmodern Hlegacy. run_parser.
      rewrite Haccess. simpl. rewrite Hread. simpl. rewrite Hxml. simpl.
      rewrite Hmodern, Hlegacy, Hconfig. simpl.
      now destruct (projectType (validateProjectFile projectPath)).
Qed.

Lemma truthy_opt_default (o : option string) :
  Js.truthy_opt o = true -> default "" o <> "".
Proof.
  destruct o as [s|]; simpl; [|discriminate].
  unfold Js.truthy. rewrite negb_true_iff. apply String.eqb_neq.
Qed.

Lemma packageOfElement_shape (element : XmlConfig.PackageElement) (pkg : NuGetPackage) :
  PackagesConfig.packageOfElement element = Some pkg ->
  source pkg = Some "packages-config" /\ isTransitive pkg = Some false /\
  depth pkg = Some 0 /\ vulnerabilities pkg = None /\ id pkg <> "" /\ version pkg <> "".
Proof.
  unfold PackagesConfig.packageOfElement.
  destruct (XmlConfig.pkg_attrs element) as [a|]; [|discriminate].
  destruct (Js.truthy_opt (XmlConfig.attr_id a)) eqn:Hid; [|discriminate].
  destruct (Js.truthy_opt (XmlConfig.attr_version a)) eqn:Hver; [|discriminate].
  simpl. intros [= <-]. simpl. repeat split; now apply truthy_opt_default.
Qed.

(** X28. The reader that [parsePackagesConfig] shares with the project
    file. [readProjectFileWithValidation] returns the content of the file
    unchanged, and only when the trimmed content has at least ten characters
    and contains the text <Project or <project; every failure is a
    ProjectFileError. [parsePackagesConfig] reads packages.config through
    it: a file that cannot be accessed gives the empty list, and a file
    that can be read but does not contain one of the two texts is refused
    before the XML parser sees it, as an invalid project file (not
    recoverable) when the trimmed content has ten characters or more. What
    it returns are direct packages of depth 0 marked packages-config, with a
    non-empty identifier and version. *)
Theorem packages_config_needs_a_project_element (P : Path) (C : ConfigFiles)
    (configPath : string) :
  (forall content,
      PackagesConfig.readProjectFileWithValidation configPath = Return content <->
      fs_readFile configPath = Return content /\
      (10 <= String.length (Js.trim content))%nat /\
      Js.includes content "<Project" || Js.includes content "<project" = true) /\
  (forall error,
      PackagesConfig.readProjectFileWithValidation configPath = Throw error ->
      exists e, error = ProjectFileError e /\
                In (code e) [FILE_EMPTY; CORRUPTED; INVALID_FORMAT;
                             ENCODING_ERROR; FILE_NOT_READABLE]) /\
  (accessible configPath = false ->
   PackagesConfig.parsePackagesConfig configPath = Return []) /\
  (forall content,
      accessible configPath = true ->
      fs_readFile configPath = Return content ->
      Js.includes content "<Project" = false ->
      Js.includes content "<project" = false ->
      exists e,
        PackagesConfig.parsePackagesConfig configPath = Throw (ProjectFileError e) /\
        In (code e) [FILE_EMPTY; CORRUPTED; INVALID_FORMAT] /\
        ((10 <= String.length (Js.trim content))%nat ->
         code e = INVALID_FORMAT /\ recoverable e = false)) /\
  (forall pkgs pkg,
      PackagesConfig.parsePackagesConfig configPath = Return pkgs -> In pkg pkgs ->
      source pkg = Some "packages-config" /\ isTransitive pkg = Some false /\
      depth pkg = Some 0 /\ vulnerabilities pkg = None /\
      id pkg <> "" /\ version pkg <> "").
Proof.
  split; [|split; [|split; [|split]]].
  - intros content. unfold PackagesConfig.readProjectFileWithValidation. cbv zeta.
    destruct (fs_readFile configPath) as [content0|fsError].
    + destruct (Nat.eqb_spec (String.length (Js.trim content0)) 0) as [Hzero|Hsome].
      { split; [discriminate|]. intros ([= <-] & Hlen & _). lia. }
      destruct (Nat.ltb_spec (String.length (Js.trim content0)) 10) as [Hshort|Hlong].
      { split; [discriminate|]. intros ([= <-] & Hlen & _). lia. }
      destruct (Js.includes content0 "<Project") eqn:Hupper,
               (Js.includes content0 "<project") eqn:Hlower;
        simpl;
        (split;
         [ first [discriminate | intros [= <-]; rewrite Hupper, Hlower; auto]
         | first [ intros ([= <-] & _ & _); reflexivity
                 | intros ([= <-] & _ & Habs); rewrite Hupper, Hlower in Habs;
                   discriminate ] ]).
    + split; [|intros (Habs & _); discriminate].
      destruct (_ || _); discriminate.
  - intros error. unfold PackagesConfig.readProjectFileWithValidation. cbv zeta.
    destruct (fs_readFile configPath) as [content0|fsError].
    + destruct (_ =? _)%nat; [intros [= <-]; eexists; split; [reflexivity|simpl; auto]|].
      destruct (_ <? _)%nat; [intros [= <-]; eexists; split; [reflexivity|simpl; auto]|].
      destruct (_ && _); [intros [= <-]; eexists; split; [reflexivity|simpl; auto]|].
      discriminate.
    + destruct (_ || _); intros [= <-]; eexists; (split; [reflexivity|simpl; auto 10]).
  - intros Haccess. unfold PackagesConfig.parsePackagesConfig. now rewrite Haccess.
  - intros content Haccess Hread Hupper Hlower.
    unfold PackagesConfig.parsePackagesConfig,
      PackagesConfig.readProjectFileWithValidation.
    rewrite Haccess, Hread, Hupper, Hlower. simpl.
    destruct (Nat.eqb_spec (String.length (Js.trim content)) 0) as [Hzero|Hsome]; simpl.
    { eexists. split; [reflexivity|]. split; [simpl; auto|]. lia. }
    destruct (Nat.ltb_spec (String.length (Js.trim content)) 10) as [Hshort|Hlong]; simpl.
    { eexists. split; [reflexivity|]. split; [simpl; auto|]. lia. }
    eexists. split; [reflexivity|]. split; [simpl; auto|]. auto.
  - intros pkgs pkg. unfold PackagesConfig.parsePackagesConfig.
    destruct (accessible configPath); simpl; [|intros [= <-] []].
    destruct (PackagesConfig.readProjectFileWithValidation configPath) as [content|e1];
      simpl; [|destruct e1; discriminate].
    destruct (parseConfigXml content configPath) as [doc|e2]; simpl;
      [|destruct e2; discriminate].
    intros [= <-] Hin. apply list_elem_of_In, list_elem_of_omap in Hin.
    destruct Hin as (element & _ & Helement).
    now apply packageOfElement_shape in Helement.
Qed.

(** An ordinary packages.config with one package: readable, well formed,
    and refused for want of a Project element. *)
Lemma packages_config_needs_a_project_element_witness :
  let P := Examples.posix in
  let C := {| accessible := fun _ => true;
              fs_readFile := fun _ =>
                Return "<packages><package id='Newtonsoft.Json' version='13.0.1' /></packages>";
              parseConfigXml := fun _ _ =>
                Return {| XmlConfig.packageElements :=
                            Some [ {| XmlConfig.pkg_attrs :=
                                        Some {| XmlConfig.attr_id := Some "Newtonsoft.Json";
                                                XmlConfig.attr_version := Some "13.0.1";
                                                XmlConfig.targetFramework := None;
                                                XmlConfig.developmentDependency := None |} |} ] |} |} in
  exists e,
    PackagesConfig.parsePackagesConfig "/work/App/packages.config"
    = Throw (ProjectFileError e) /\
    code e = INVALID_FORMAT /\ recoverable e = false.
Proof.
  intros P C.
  destruct (packages_config_needs_a_project_element P C "/work/App/packages.config")
    as (_ & _ & _ & Hrefused & _).
  destruct (Hrefused _ eq_refl eq_refl eq_refl eq_refl) as (e & Hrun & _ & Hcode).
  exists e. split; [exact Hrun|]. apply Hcode. apply Nat.leb_le. reflexivity.
Defined.

(** A project file whose root element has no attribute at all. *)
Lemma parseProjectFile_failures_are_classified_witness :
  let P := Examples.posix in
  let F := Examples.projectFiles
             {| Xml.root := Some {| Xml.attrs := None; Xml.ItemGroups := [] |} |} in
  exists e, parseProjectFile "App.csproj" = Throw (ProjectFileError e) /\
            code e = CORRUPTED /\ recoverable e = true.
Proof.
  intros P F.
  exact (proj1 (proj2 (proj2 (parseProjectFile_failures_are_classified P F "App.csproj")))
           _ _ eq_refl eq_refl eq_refl eq_refl).
Defined.

Lemma parsePackageReference_shape (packageRef : Xml.PackageReference)
    (frameworks : list string) (pkg : NuGetPackage) :
  parsePackageReference packageRef frameworks = Some pkg ->
  isTransitive pkg = Some false /\ depth pkg = Some 0 /\
  source pkg = Some "project-file" /\ vulnerabilities pkg = None /\
  id pkg <> "" /\ version pkg <> "" /\ resolved pkg = Some (version pkg) /\
  framework pkg = head frameworks /\ Xml.Include packageRef = Some (id pkg).
Proof.
  unfold parsePackageReference.
  destruct (Js.truthy_opt (Xml.Include packageRef)) eqn:Hid; [|discriminate]. simpl.
  set (version1 := if negb (Js.truthy_opt (Xml.Version packageRef)) then _ else _).
  destruct (Js.truthy_opt version1) eqn:Hver; [|discriminate]. simpl.
  intros [= <-]. simpl.
  pose proof (truthy_opt_default _ Hid) as Hid'.
  pose proof (truthy_opt_default _ Hver) as Hver'.
  destruct version1 as [v|]; [|discriminate].
  destruct (Xml.Include packageRef) as [i|]; [|discriminate].
  repeat split; auto.
Qed.

Lemma parseReference_shape `{ProjectFiles} (reference : Xml.Reference) (pkg : NuGetPackage) :
  parseReference reference = Some pkg ->
  isTransitive pkg = Some false /\ depth pkg = Some 0 /\
  source pkg = Some "project-file" /\ vulnerabilities pkg = None /\
  resolved pkg = Some (version pkg) /\ framework pkg = None.
Proof.
  unfold parseReference.
  destruct (Js.truthy_opt (Xml.ref_Include reference)); [|discriminate]. simpl.
  destruct (Xml.HintPath reference) as [hintPath|]; [|discriminate].
  destruct (packagesMatch hintPath) as [packageId|]; [|discriminate].
  intros [= <-]. simpl. auto 10.
Qed.

Lemma deduplicatePackages_In (packages : list NuGetPackage) (q : NuGetPackage) :
  In q (deduplicatePackages packages) -> In q packages.
Proof.
  rewrite DedupFacts.deduplicatePackages_firstOccurrences. intros Hq.
  now destruct (DedupFacts.firstOccurrences_fresh _ _ _ Hq).
Qed.

Lemma modern_packages_are_direct (doc : Xml.Document) (frameworks : list string)
    (pkg : NuGetPackage) :
  In pkg (parseModernProjectFile doc frameworks) ->
  isTransitive_truthy pkg = false /\ vulnerabilities pkg = None /\
  framework pkg = head frameworks.
Proof.
  unfold parseModernProjectFile. destruct (Xml.root doc) as [project|]; [|intros []].
  intros Hin. apply in_flat_map in Hin. destruct Hin as (itemGroup & _ & Hin).
  apply list_elem_of_In, list_elem_of_omap in Hin. destruct Hin as (packageRef & _ & Hpkg).
  apply parsePackageReference_shape in Hpkg.
  destruct Hpkg as (Htrans & _ & _ & Hvuln & _ & _ & _ & Hfw & _).
  unfold isTransitive_truthy. now rewrite Htrans.
Qed.

Lemma legacy_packages_are_direct `{ProjectFiles} (doc : Xml.Document) (pkg : NuGetPackage) :
  In pkg (parseLegacyProjectFile doc) ->
  isTransitive_truthy pkg = false /\ vulnerabilities pkg = None.
Proof.
  unfold parseLegacyProjectFile. destruct (Xml.root doc) as [project|]; [|intros []].
  intros Hin. apply in_flat_map in Hin. destruct Hin as (itemGroup & _ & Hin).
  apply in_app_or in Hin. unfold isTransitive_truthy. destruct Hin as [Hin|Hin].
  - apply list_elem_of_In, list_elem_of_omap in Hin. destruct Hin as (packageRef & _ & Hpkg).
    apply parsePackageReference_shape in Hpkg.
    destruct Hpkg as (Htrans & _ & _ & Hvuln & _). now rewrite Htrans.
  - apply list_elem_of_In, list_elem_of_omap in Hin. destruct Hin as (reference & _ & Hpkg).
    apply parseReference_shape in Hpkg.
    destruct Hpkg as (Htrans & _ & _ & Hvuln & _). now rewrite Htrans.
Qed.

(** X29. What the manifest path can return. A package reference is kept
    only with a non-empty identifier and a non-empty version, taken from the
    attribute or else from the child element, and becomes a direct package of
    depth 0 marked project-file, without vulnerabilities, under the first
    framework given. When every package that packages.config contributes is
    direct (as those of this parser are), every package that
    [parseProjectFile] returns is direct, so that the graph drawn from its
    result has a root node for every package and no link at all. *)
Theorem manifest_packages_are_direct (P : Path) (F : ProjectFiles)
    (projectPath : string) (pkgs : list NuGetPackage) :
  parseProjectFile projectPath = Return pkgs ->
  (forall config pkg,
      parsePackagesConfig (path_join (path_dirname projectPath) "packages.config")
      = Return config ->
      In pkg config -> isTransitive_truthy pkg = false) ->
  (forall packageRef frameworks pkg,
      parsePackageReference packageRef frameworks = Some pkg ->
      Xml.Include packageRef = Some (id pkg) /\ id pkg <> "" /\ version pkg <> "" /\
      (Js.truthy_opt (Xml.Version packageRef) = true ->
       Xml.Version packageRef = Some (version pkg)) /\
      isTransitive pkg = Some false /\ depth pkg = Some 0 /\
      source pkg = Some "project-file" /\ vulnerabilities pkg = None /\
      framework pkg = head frameworks) /\
  (forall pkg, In pkg pkgs -> isTransitive_truthy pkg = false) /\
  (forall mode,
      links (createGraphData pkgs mode) = [] /\
      length (nodes (createGraphData pkgs mode)) = length pkgs /\
      Forall (fun n => isRoot n = true) (nodes (createGraphData pkgs mode))).
Proof.
  intros Hparse Hconfig.
  assert (Hdirect : forall pkg, In pkg pkgs -> isTransitive_truthy pkg = false).
  { revert Hparse. run_parser.
    destruct (validateFileAccessWithDetails projectPath) as [[]|e1]; simpl;
      [|destruct e1; discriminate].
    destruct (readProjectFileWithValidation projectPath) as [content|e2]; simpl;
      [|destruct e2; discriminate].
    destruct (parseXmlWithErrorHandling content projectPath) as [doc|e3]; simpl;
      [|destruct e3; discriminate].
    assert (Hmerge : forall base,
               (forall pkg, In pkg base -> isTransitive_truthy pkg = false) ->
               forall pkg,
                 In pkg (deduplicatePackages
                           match projectType (validateProjectFile projectPath) with
                           | dotnet_framework =>
                               match parsePackagesConfig
                                       (path_join (path_dirname projectPath)
                                                  "packages.config") with
                               | Return configPackages => base ++ configPackages
                               | Throw _ => base
                               end
                           | _ => base
                           end) ->
                 isTransitive_truthy pkg = false).
    { intros base Hbase pkg Hin. apply deduplicatePackages_In in Hin.
      destruct (projectType (validateProjectFile projectPath)); auto.
      destruct (parsePackagesConfig _) as [config|] eqn:Hrun; auto.
      apply in_app_or in Hin. destruct Hin as [Hin|Hin]; eauto. }
    destruct (isModernProjectFormat doc); simpl.
    - intros [= <-]. apply Hmerge. intros pkg Hin.
      now apply modern_packages_are_direct in Hin.
    - destruct (isLegacyProjectFormat doc) as [[]|e4]; simpl;
        [|discriminate|destruct e4; discriminate].
      intros [= <-]. apply Hmerge. intros pkg Hin.
      now apply legacy_packages_are_direct in Hin. }
  split; [|split; [exact Hdirect|]].
  - intros packageRef frameworks pkg Hpkg.
    pose proof (parsePackageReference_shape _ _ _ Hpkg)
      as (Htrans & Hdepth & Hsource & Hvuln & Hid & Hver & _ & Hfw & Hinclude).
    repeat split; auto.
    intros Hattr. unfold parsePackageReference in Hpkg.
    destruct (Js.truthy_opt (Xml.Include packageRef)); [|discriminate].
    rewrite Hattr in Hpkg. simpl in Hpkg. rewrite Hattr in Hpkg. simpl in Hpkg.
    injection Hpkg as <-. simpl.
    destruct (Xml.Version packageRef); [reflexivity|discriminate].
  - intros mode. split; [|split].
    + destruct (links (createGraphData pkgs mode)) as [|l ls] eqn:Hlinks; [reflexivity|].
      destruct (GraphFacts.links_join pkgs mode l) as (p & q & _ & Hq & Htrans & _).
      { rewrite Hlinks. now left. }
      rewrite (Hdirect q Hq) in Htrans. discriminate.
    + simpl. apply length_imap.
    + simpl. apply Forall_forall. intros n Hn.
      apply elem_of_lookup_imap in Hn. destruct Hn as (i & pkg & -> & Hpkg).
      simpl. rewrite (Hdirect pkg); [reflexivity|].
      now apply list_elem_of_In, list_elem_of_lookup_2 with i.
Qed.

(** The two references of the sample manifest. *)
Lemma manifest_packages_are_direct_witness :
  let P := Examples.posix in
  let F := Examples.projectFiles Examples.manifestXml in
  exists pkgs,
    parseProjectFile "App.csproj" = Return pkgs /\
    map packageKey pkgs = ["Foo.Bar@1.0.0"; "Foo.Baz@2.0.0"] /\
    links (createGraphData pkgs mode_full) = [].
Proof.
  intros P F. eexists. split; [reflexivity|]. split; [reflexivity|].
  refine (proj1 (proj2 (proj2 (manifest_packages_are_direct P F "App.csproj" _
                                 eq_refl _)) mode_full)).
  intros config pkg [= <-] [].
Defined.

End ManifestFacts.
